(** * gwasFHE: the record repository of [frontend/web/src/App.tsx]

    A shallow embedding of the placeholder cipher ([FHEEncryptNumber],
    [FHEDecryptNumber], [FHEComputeGWAS]) and of the three repository
    operations of the React component ([loadRecords], [uploadGWASData],
    [processGWAS]) together with the ownership test [isOwner] of the view.

    JavaScript numbers are IEEE 754 binary64 values: they are Rocq's primitive
    floats.  JavaScript strings are sequences of code units; the embedding
    works with the code units below 256 (Rocq's [string]), which is the domain of
    [btoa] and [atob]. *)

From Stdlib Require Import ZArith Floats String Ascii List Bool Lia DecimalString.
From Stdlib Require Import Sorted Permutation.
From stdpp Require Import base option gmap strings.
Import ListNotations.

#[local] Set Warnings "-register-all".
#[local] Open Scope string_scope.
#[local] Open Scope list_scope.

(** ** Exceptions

    The exceptions the code can raise: [new Error(msg)] thrown by the
    application itself, and the built-in ones. *)

Inductive exn :=
| Error (message : string)      (* throw new Error(message) *)
| TypeError                     (* property of null/undefined, not a function, not iterable *)
| SyntaxError                   (* JSON.parse *)
| InvalidCharacterError         (* atob *)
| InvalidArgument.              (* ethers.toUtf8String on malformed UTF-8 *)

(** A computation that returns or throws; [x ← m; k] runs [k] when [m]
    returns. *)
#[export] Instance result_ret : MRet (sum exn) := fun A x => inr x.

#[export] Instance result_bind : MBind (sum exn) := fun A B f m =>
  match m with
  | inr x => f x
  | inl e => inl e
  end.

Module Base64.

(** *** [btoa] and [atob]

    [btoa] reads its argument as bytes and writes them in the base64 alphabet,
    padded with [=]; [atob] is the forgiving-base64 decoder of the HTML
    standard.  A group of six bits is kept as six booleans, most significant
    first. *)

Definition sextet : Type := bool * bool * bool * bool * bool * bool.

Definition alphabet : list ascii :=
  list_ascii_of_string
    "ABCDEFGHIJKLMNOPQRSTUVWXYZabcdefghijklmnopqrstuvwxyz0123456789+/".

Definition bit (b : bool) : nat := if b then 1 else 0.

Definition sextet_index (s : sextet) : nat :=
  let '(b5, b4, b3, b2, b1, b0) := s in
  32 * bit b5 + 16 * bit b4 + 8 * bit b3 + 4 * bit b2 + 2 * bit b1 + bit b0.

Definition index_sextet (n : nat) : sextet :=
  (Nat.testbit n 5, Nat.testbit n 4, Nat.testbit n 3,
   Nat.testbit n 2, Nat.testbit n 1, Nat.testbit n 0).

Definition char_of_sextet (s : sextet) : ascii :=
  nth (sextet_index s) alphabet "="%char.

Fixpoint position (c : ascii) (l : list ascii) : option nat :=
  match l with
  | [] => None
  | x :: r => if Ascii.eqb c x then Some 0 else option_map S (position c r)
  end.

Definition sextet_of_char (c : ascii) : option sextet :=
  option_map index_sextet (position c alphabet).

(** An [ascii] is [Ascii b0 .. b7] with [b0] the least significant bit. *)

Definition sextets3 (a b c : ascii) : list sextet :=
  let '(Ascii a0 a1 a2 a3 a4 a5 a6 a7) := a in
  let '(Ascii b0 b1 b2 b3 b4 b5 b6 b7) := b in
  let '(Ascii c0 c1 c2 c3 c4 c5 c6 c7) := c in
  [ (a7, a6, a5, a4, a3, a2); (a1, a0, b7, b6, b5, b4);
    (b3, b2, b1, b0, c7, c6); (c5, c4, c3, c2, c1, c0) ].

Definition sextets2 (a b : ascii) : list sextet :=
  let '(Ascii a0 a1 a2 a3 a4 a5 a6 a7) := a in
  let '(Ascii b0 b1 b2 b3 b4 b5 b6 b7) := b in
  [ (a7, a6, a5, a4, a3, a2); (a1, a0, b7, b6, b5, b4);
    (b3, b2, b1, b0, false, false) ].

Definition sextets1 (a : ascii) : list sextet :=
  let '(Ascii a0 a1 a2 a3 a4 a5 a6 a7) := a in
  [ (a7, a6, a5, a4, a3, a2); (a1, a0, false, false, false, false) ].

(** The sextets of a byte string, and the padding that completes its last
    group of four characters. *)
Fixpoint groups (l : list ascii) : list sextet :=
  match l with
  | a :: b :: c :: r => sextets3 a b c ++ groups r
  | [a; b] => sextets2 a b
  | [a] => sextets1 a
  | [] => []
  end.

Fixpoint padding (l : list ascii) : list ascii :=
  match l with
  | _ :: _ :: _ :: r => padding r
  | [_; _] => ["="%char]
  | [_] => ["="%char; "="%char]
  | [] => []
  end.

Definition encode (l : list ascii) : list ascii :=
  map char_of_sextet (groups l) ++ padding l.

Definition btoa (s : string) : string :=
  string_of_list_ascii (encode (list_ascii_of_string s)).

(** ASCII whitespace: TAB, LF, FF, CR and SPACE. *)
Definition is_whitespace (c : ascii) : bool :=
  match nat_of_ascii c with
  | 9 | 10 | 12 | 13 | 32 => true
  | _ => false
  end.

(** Removes a final [=]. *)
Definition drop_equals (l : list ascii) : option (list ascii) :=
  match rev l with
  | c :: r => if Ascii.eqb c "="%char then Some (rev r) else None
  | [] => None
  end.

(** Removes one or two [=] from the end, when the data ends with them. *)
Definition strip_padding (l : list ascii) : list ascii :=
  match drop_equals l with
  | Some l1 =>
      match drop_equals l1 with
      | Some l2 => l2
      | None => l1
      end
  | None => l
  end.

Fixpoint sextets_of_chars (l : list ascii) : option (list sextet) :=
  match l with
  | [] => Some []
  | c :: r =>
      match sextet_of_char c, sextets_of_chars r with
      | Some s, Some ss => Some (s :: ss)
      | _, _ => None
      end
  end.

Definition byte1 (s t : sextet) : ascii :=
  let '(s5, s4, s3, s2, s1, s0) := s in
  let '(t5, t4, _, _, _, _) := t in
  Ascii t4 t5 s0 s1 s2 s3 s4 s5.

Definition byte2 (t u : sextet) : ascii :=
  let '(_, _, t3, t2, t1, t0) := t in
  let '(u5, u4, u3, u2, _, _) := u in
  Ascii u2 u3 u4 u5 t0 t1 t2 t3.

Definition byte3 (u v : sextet) : ascii :=
  let '(_, _, _, _, u1, u0) := u in
  let '(v5, v4, v3, v2, v1, v0) := v in
  Ascii v0 v1 v2 v3 v4 v5 u0 u1.

(** Every four sextets give three bytes; a rest of three gives two bytes and a
    rest of two gives one, the bits left over being discarded. *)
Fixpoint decode (l : list sextet) : list ascii :=
  match l with
  | s :: t :: u :: v :: r => byte1 s t :: byte2 t u :: byte3 u v :: decode r
  | [s; t; u] => [byte1 s t; byte2 t u]
  | [s; t] => [byte1 s t]
  | _ => []
  end.

Definition atob (s : string) : exn + string :=
  let data :=
    List.filter (fun c => negb (is_whitespace c)) (list_ascii_of_string s) in
  let data :=
    if Nat.eqb (length data mod 4) 0 then strip_padding data else data in
  if Nat.eqb (length data mod 4) 1 then inl InvalidCharacterError
  else
    match sextets_of_chars data with
    | Some ss => inr (string_of_list_ascii (decode ss))
    | None => inl InvalidCharacterError
    end.

End Base64.

(** ** The numeric part of the runtime

    [Number.prototype.toString], [parseFloat], the string-to-number conversion
    and [Math.exp] belong to the JavaScript engine ([Math.exp] is
    implementation-approximated by the language standard), so the embedding
    takes them as an interface. *)

Class Runtime := {
  Number_toString : float -> string;
  parseFloat : string -> float;
  StringToNumber : string -> float;
  Math_exp : float -> float
}.

(** The literal [0.1]: the binary64 number nearest to one tenth. *)
Definition tenth : float := 0x1.999999999999ap-4%float.

Section Cipher.

Context {rt : Runtime}.

Definition startsWith (s prefix : string) : bool := String.prefix prefix s.

(** [s.substring(n)]: the code units of [s] from position [n] on. *)
Definition substring_from (n : nat) (s : string) : string :=
  String.substring n (String.length s - n) s.

Definition FHEEncryptNumber (value : float) : string :=
  "FHE-" ++ Base64.btoa (Number_toString value).

Definition FHEDecryptNumber (encryptedData : string) : exn + float :=
  if startsWith encryptedData "FHE-" then
    match Base64.atob (substring_from 4 encryptedData) with
    | inr text => inr (parseFloat text)
    | inl e => inl e
    end
  else inr (parseFloat encryptedData).

Definition FHEComputeGWAS (encryptedData : string) : exn + string :=
  match FHEDecryptNumber encryptedData with
  | inr value =>
      let pValue := Math_exp (- value * tenth)%float in
      inr (FHEEncryptNumber pValue)
  | inl e => inl e
  end.

End Cipher.

(** ** JavaScript values

    What [JSON.parse] returns and what the code builds from it.  An object is
    the list of its own properties in insertion order; a property is read at
    its first binding. *)

Inductive value :=
| VUndefined
| VNull
| VBool (b : bool)
| VNum (x : float)
| VStr (s : string)
| VArr (elements : list value)
| VObj (properties : list (string * value)).

Fixpoint lookup_prop (k : string) (ps : list (string * value)) : option value :=
  match ps with
  | [] => None
  | (k', v) :: r => if String.eqb k k' then Some v else lookup_prop k r
  end.

Definition has_own (k : string) (ps : list (string * value)) : bool :=
  match lookup_prop k ps with Some _ => true | None => false end.

(** Defines property [k]: an existing property keeps its place. *)
Fixpoint set_prop (k : string) (v : value) (ps : list (string * value))
  : list (string * value) :=
  match ps with
  | [] => [(k, v)]
  | (k', v') :: r =>
      if String.eqb k k' then (k, v) :: r else (k', v') :: set_prop k v r
  end.

(** [v.k] for one of the field names the code reads ([data], [timestamp],
    [institution], [phenotype], [status], [snpCount]): none of them is a
    property of a string, an array, a number or a boolean. *)
Definition get (v : value) (k : string) : exn + value :=
  match v with
  | VUndefined | VNull => inl TypeError
  | VObj ps => inr (default VUndefined (lookup_prop k ps))
  | _ => inr VUndefined
  end.

Definition is_nan (x : float) : bool := negb (PrimFloat.eqb x x).

Definition is_finite (x : float) : bool :=
  negb (is_nan x) && negb (PrimFloat.eqb (abs x) infinity).

Definition truthy (v : value) : bool :=
  match v with
  | VUndefined | VNull => false
  | VBool b => b
  | VNum x => negb (PrimFloat.eqb x 0 || is_nan x)
  | VStr s => negb (String.eqb s "")
  | VArr _ | VObj _ => true
  end.

(** [a || b] *)
Definition js_or (a b : value) : value := if truthy a then a else b.

(** [v === s] for a string literal [s] *)
Definition strict_eq_string (v : value) (s : string) : bool :=
  match v with VStr t => String.eqb t s | _ => false end.

Definition decimal (n : nat) : string :=
  DecimalString.NilZero.string_of_uint (Nat.to_uint n).

Fixpoint indexed (i : nat) (l : list value) : list (string * value) :=
  match l with
  | [] => []
  | x :: r => (decimal i, x) :: indexed (S i) r
  end.

Definition characters (s : string) : list value :=
  map (fun c => VStr (String c EmptyString)) (list_ascii_of_string s).

(** The own enumerable properties an object spread [{...v}] copies. *)
Definition spread (v : value) : list (string * value) :=
  match v with
  | VObj ps => ps
  | VArr l => indexed 0 l
  | VStr s => indexed 0 (characters s)
  | _ => []
  end.

(** The elements a [for (const x of v)] loop visits. *)
Definition iterate (v : value) : exn + list value :=
  match v with
  | VArr l => inr l
  | VStr s => inr (characters s)
  | _ => inl TypeError
  end.

(** [s.toLowerCase()] on code units below 256: [A]-[Z] and the capital letters
    of U+00C0-U+00DE (U+00D7 is the multiplication sign) move up by 32. *)
Definition lower_char (c : ascii) : ascii :=
  let n := nat_of_ascii c in
  if Nat.leb 65 n && Nat.leb n 90 then ascii_of_nat (n + 32)
  else if Nat.leb 192 n && Nat.leb n 222 && negb (Nat.eqb n 215)
       then ascii_of_nat (n + 32)
  else c.

Definition toLowerCase (s : string) : string :=
  string_of_list_ascii (map lower_char (list_ascii_of_string s)).

(** [Math.floor] *)
Definition Math_floor (x : float) : float :=
  match Prim2SF x with
  | S754_finite s m e =>
      if (0 <=? e)%Z then x
      else
        let z := Z.shiftr (cond_Zopp s (Zpos m)) (- e) in
        if (z =? 0)%Z then 0%float
        else SF2Prim (binary_normalize prec emax z 0 false)
  | _ => x
  end.

Section Conversions.

Context {rt : Runtime}.

(** [ToString], as a template literal applies it.  An array is the join of
    its elements; a plain object is ["[object Object]"], unless an own property
    hides [Object.prototype.toString], and then no conversion exists. *)
Fixpoint ToString (v : value) : exn + string :=
  match v with
  | VUndefined => inr "undefined"
  | VNull => inr "null"
  | VBool b => inr (if b then "true" else "false")
  | VNum x => inr (Number_toString x)
  | VStr s => inr s
  | VArr l =>
      (fix join (l : list value) : exn + string :=
         match l with
         | [] => inr ""
         | x :: r =>
             let first :=
               match x with
               | VUndefined | VNull => inr ""
               | _ => ToString x
               end in
             match first, r with
             | inl e, _ => inl e
             | inr s, [] => inr s
             | inr s, _ :: _ =>
                 match join r with
                 | inr t => inr (s ++ "," ++ t)%string
                 | inl e => inl e
                 end
             end
         end) l
  | VObj ps => if has_own "toString" ps then inl TypeError else inr "[object Object]"
  end.

(** [ToNumber], as the subtraction of the sort's comparator applies it. *)
Definition ToNumber (v : value) : exn + float :=
  match v with
  | VUndefined => inr nan
  | VNull => inr 0%float
  | VBool b => inr (if b then 1%float else 0%float)
  | VNum x => inr x
  | VStr s => inr (StringToNumber s)
  | VArr _ =>
      match ToString v with
      | inr s => inr (StringToNumber s)
      | inl e => inl e
      end
  | VObj ps => if has_own "toString" ps then inl TypeError else inr nan
  end.

End Conversions.

(** ** JSON text and bytes

    The code looks at a stored byte string in four ways only: its length,
    [ethers.toUtf8String], [trim() !== ''] and [JSON.parse]; and every byte
    string it writes is [ethers.toUtf8Bytes(JSON.stringify(v))].  A text is
    therefore kept as what these see of it. *)

Inductive text :=
| EmptyText                 (* "" *)
| WhiteSpace                (* white space only, at least one character *)
| JsonText (v : value)      (* a JSON text; JSON.parse gives v *)
| NotJson.                  (* any other text *)

Inductive bytes :=
| Utf8 (t : text)           (* the UTF-8 encoding of t *)
| NotUtf8.                  (* bytes that are not UTF-8 *)

Definition no_bytes : bytes := Utf8 EmptyText.

(** [b.length > 0] *)
Definition nonempty (b : bytes) : bool :=
  match b with Utf8 EmptyText => false | _ => true end.

Definition toUtf8String (b : bytes) : exn + text :=
  match b with Utf8 t => inr t | NotUtf8 => inl InvalidArgument end.

Definition toUtf8Bytes (t : text) : bytes := Utf8 t.

(** [t.trim() !== ''] *)
Definition trim_nonempty (t : text) : bool :=
  match t with EmptyText | WhiteSpace => false | _ => true end.

Definition JSON_parse (t : text) : exn + value :=
  match t with JsonText v => inr v | _ => inl SyntaxError end.

(** What [JSON.parse] reads back from [JSON.stringify(v)]: a number that is
    not finite is written [null] and a zero is written [0]; an [undefined]
    element of an array is written [null] and an [undefined] property is left
    out. *)
Fixpoint jsonify (v : value) : value :=
  match v with
  | VUndefined => VNull
  | VNum x =>
      if is_finite x then (if PrimFloat.eqb x 0 then VNum 0 else VNum x)
      else VNull
  | VArr l => VArr (map jsonify l)
  | VObj ps =>
      VObj ((fix props (ps : list (string * value)) : list (string * value) :=
               match ps with
               | [] => []
               | (_, VUndefined) :: r => props r
               | (k, x) :: r => (k, jsonify x) :: props r
               end) ps)
  | _ => v
  end.

Definition jsonify_props : list (string * value) -> list (string * value) :=
  fix props (ps : list (string * value)) : list (string * value) :=
    match ps with
    | [] => []
    | (_, VUndefined) :: r => props r
    | (k, x) :: r => (k, jsonify x) :: props r
    end.

(** [JSON.stringify(v)], for the objects and arrays the code passes. *)
Definition JSON_stringify (v : value) : text := JsonText (jsonify v).

(** ** The key/value contract

    [getData] of a key never written gives the empty byte string.  The store
    answers every call here; a request that is rejected (a call that fails in
    transit, a transaction the wallet refuses) is taken up with [await]
    below. *)

Record Contract := {
  available : bool;                       (* what isAvailable() reports *)
  storage : gmap string bytes
}.

Definition contract_getData (c : Contract) (key : string) : bytes :=
  default no_bytes (storage c !! key).

Definition contract_setData (c : Contract) (key : string) (b : bytes) : Contract :=
  {| available := available c; storage := <[key := b]> (storage c) |}.

(** ** The state of the component *)

Record GWASRecord := {
  id : value;
  encryptedData : value;
  timestamp : value;
  institution : value;
  phenotype : value;
  status : value;
  snpCount : value
}.

Inductive tx_state := tx_pending | tx_success | tx_error.

(** The text of the status line: a literal of the code, or a prefix followed
    by the message of a built-in exception, which is the engine's. *)
Inductive tx_text :=
| Literal (s : string)
| Engine (prefix : string) (e : exn).

Record TransactionStatus := {
  tx_visible : bool;
  tx_status : tx_state;
  tx_message : tx_text
}.

(** The wallet ([useAccount]), the contract behind [getContractReadOnly] and
    [getContractWithSigner] (each of which may give [null]), the hooks
    [records] and [transactionStatus], and what went to [console.error] and
    [alert].  The flags [loading], [isRefreshing] and [uploading] only drive
    the display and are left out, and so are the timers that hide the status
    line and close the dialog some seconds after an operation. *)
Record App := {
  address : option string;
  isConnected : bool;
  contract : Contract;
  readOnly : bool;
  withSigner : bool;
  records : list GWASRecord;
  transactionStatus : TransactionStatus;
  console : list (string * exn);
  alerts : list string
}.

(** The form of the upload dialog. *)
Record NewRecordData := {
  new_phenotype : string;
  description : string;
  new_snpCount : float;
  effectSize : float
}.

(** What one run of [uploadGWASData] reads from the clock and from
    [Math.random]: [Date.now()] for the id, the text of
    [Math.random().toString(36).substring(2, 6)], and [Date.now()] for the
    timestamp. *)
Record Readings := {
  Date_now_id : float;
  random_suffix : string;
  Date_now_timestamp : float
}.

(** *** Computations on the component: state and exceptions *)

Definition M (A : Type) : Type := App -> App * (exn + A).

#[export] Instance M_ret : MRet M := fun A x a => (a, inr x).

#[export] Instance M_bind : MBind M := fun A B f m a =>
  match m a with
  | (a', inr x) => f x a'
  | (a', inl e) => (a', inl e)
  end.

Definition throw {A : Type} (e : exn) : M A := fun a => (a, inl e).

Definition lift {A : Type} (r : exn + A) : M A := fun a => (a, r).

(** [try { m } catch (e) { handler e }] *)
Definition try_catch {A : Type} (m : M A) (handler : exn -> M A) : M A := fun a =>
  match m a with
  | (a', inr x) => (a', inr x)
  | (a', inl e) => handler e a'
  end.

Definition getData (key : string) : M bytes := fun a =>
  (a, inr (contract_getData (contract a) key)).

Definition setData (key : string) (b : bytes) : M unit := fun a =>
  ({| address := address a; isConnected := isConnected a;
      contract := contract_setData (contract a) key b;
      readOnly := readOnly a; withSigner := withSigner a;
      records := records a; transactionStatus := transactionStatus a;
      console := console a; alerts := alerts a |}, inr tt).

Definition setRecords (l : list GWASRecord) : M unit := fun a =>
  ({| address := address a; isConnected := isConnected a;
      contract := contract a;
      readOnly := readOnly a; withSigner := withSigner a;
      records := l; transactionStatus := transactionStatus a;
      console := console a; alerts := alerts a |}, inr tt).

Definition setTransactionStatus (s : TransactionStatus) : M unit := fun a =>
  ({| address := address a; isConnected := isConnected a;
      contract := contract a;
      readOnly := readOnly a; withSigner := withSigner a;
      records := records a; transactionStatus := s;
      console := console a; alerts := alerts a |}, inr tt).

Definition console_error (msg : string) (e : exn) : M unit := fun a =>
  ({| address := address a; isConnected := isConnected a;
      contract := contract a;
      readOnly := readOnly a; withSigner := withSigner a;
      records := records a; transactionStatus := transactionStatus a;
      console := console a ++ [(msg, e)]; alerts := alerts a |}, inr tt).

Definition alert (msg : string) : M unit := fun a =>
  ({| address := address a; isConnected := isConnected a;
      contract := contract a;
      readOnly := readOnly a; withSigner := withSigner a;
      records := records a; transactionStatus := transactionStatus a;
      console := console a; alerts := alerts a ++ [msg] |}, inr tt).

(** [e.message || "Unknown error"] after [prefix] *)
Definition failure_text (prefix : string) (e : exn) : tx_text :=
  match e with
  | Error m => Literal (prefix ++ (if String.eqb m "" then "Unknown error" else m))%string
  | _ => Engine prefix e
  end.

(** [s.includes(t)] *)
Definition includes (s t : string) : bool :=
  match String.index 0 t s with Some _ => true | None => false end.

Section Repository.

Context {rt : Runtime}.

(** *** [list.sort((a, b) => b.timestamp - a.timestamp)]

    The comparator may throw while converting a timestamp.  The sort is
    stable and moves [a] behind [b] when the comparator is positive; a
    comparator that is [NaN] counts as zero. *)

Definition compare_timestamps (a b : GWASRecord) : exn + float :=
  match ToNumber (timestamp b), ToNumber (timestamp a) with
  | inr y, inr x => inr (y - x)%float
  | inl e, _ => inl e
  | _, inl e => inl e
  end.

Fixpoint sort_insert (a : GWASRecord) (l : list GWASRecord)
  : exn + list GWASRecord :=
  match l with
  | [] => inr [a]
  | b :: r =>
      match compare_timestamps a b with
      | inl e => inl e
      | inr v =>
          if (0 <? v)%float then
            match sort_insert a r with
            | inr r' => inr (b :: r')
            | inl e => inl e
            end
          else inr (a :: b :: r)
      end
  end.

Fixpoint sort (l : list GWASRecord) : exn + list GWASRecord :=
  match l with
  | [] => inr []
  | a :: r =>
      match sort r with
      | inr r' => sort_insert a r'
      | inl e => inl e
      end
  end.

(** *** [loadRecords] *)

(** The record pushed for the document [recordData] stored for [key]. *)
Definition record_of (key recordData : value) : exn + GWASRecord :=
  data ← get recordData "data";
  timestamp ← get recordData "timestamp";
  institution ← get recordData "institution";
  phenotype ← get recordData "phenotype";
  status ← get recordData "status";
  snpCount ← get recordData "snpCount";
  inr {| id := key;
         encryptedData := data;
         timestamp := timestamp;
         institution := institution;
         phenotype := phenotype;
         status := js_or status (VStr "pending");
         snpCount := js_or snpCount (VNum 0) |}.

Definition parse_bytes (b : bytes) : exn + value :=
  t ← toUtf8String b; JSON_parse t.

(** One turn of the loop over the keys; [acc] is the array [list] of the
    code. *)
Definition load_record (acc : list GWASRecord) (key : value)
  : M (list GWASRecord) :=
  try_catch
    (k ← lift (ToString key);
     recordBytes ← getData ("gwas_record_" ++ k)%string;
     if nonempty recordBytes then
       try_catch
         (recordData ← lift (parse_bytes recordBytes);
          r ← lift (record_of key recordData);
          mret (acc ++ [r]))
         (fun e =>
            k ← lift (ToString key);
            console_error ("Error parsing record data for " ++ k ++ ":")%string e;;
            mret acc)
     else mret acc)
    (fun e =>
       k ← lift (ToString key);
       console_error ("Error loading record " ++ k ++ ":")%string e;;
       mret acc).

Fixpoint load_all (acc : list GWASRecord) (keys : list value)
  : M (list GWASRecord) :=
  match keys with
  | [] => mret acc
  | key :: rest => acc' ← load_record acc key; load_all acc' rest
  end.

(** The keys read from the index. *)
Definition load_keys : M value :=
  keysBytes ← getData "gwas_record_keys";
  if nonempty keysBytes then
    try_catch
      (keysStr ← lift (toUtf8String keysBytes);
       if trim_nonempty keysStr then lift (JSON_parse keysStr)
       else mret (VArr []))
      (fun e => console_error "Error parsing record keys:" e;; mret (VArr []))
  else mret (VArr []).

Definition loadRecords : M unit := fun a =>
  try_catch
    (if negb (readOnly a) then mret tt
     else if negb (available (contract a)) then mret tt
     else
       keys ← load_keys;
       elements ← lift (iterate keys);
       unsorted ← load_all [] elements;
       sorted ← lift (sort unsorted);
       setRecords sorted)
    (fun e => console_error "Error loading records:" e)
    a.

(** *** [uploadGWASData] *)

(** [keys.push(x)]: only an array has the method. *)
Definition push (keys x : value) : exn + value :=
  match keys with
  | VArr l => inr (VArr (l ++ [x]))
  | _ => inl TypeError
  end.

Definition address_value (a : App) : value :=
  match address a with Some s => VStr s | None => VUndefined end.

Definition submission_text (e : exn) : tx_text :=
  match e with
  | Error m =>
      if includes m "user rejected transaction"
      then Literal "Transaction rejected by user"
      else failure_text "Submission failed: " e
  | _ => failure_text "Submission failed: " e
  end.

(** The id [`gwas-${Date.now()}-${...}`]. *)
Definition fresh_id (env : Readings) : string :=
  ("gwas-" ++ Number_toString (Date_now_id env) ++ "-" ++ random_suffix env)%string.

(** The object [recordData] of a new record. *)
Definition new_record (a : App) (newRecordData : NewRecordData) (env : Readings)
  : value :=
  let encryptedData := FHEEncryptNumber (effectSize newRecordData) in
  VObj [ ("data", VStr encryptedData);
         ("timestamp", VNum (Math_floor (Date_now_timestamp env / 1000)%float));
         ("institution", address_value a);
         ("phenotype", VStr (new_phenotype newRecordData));
         ("status", VStr "pending");
         ("snpCount", VNum (new_snpCount newRecordData)) ].

Definition uploadGWASData (newRecordData : NewRecordData) (env : Readings)
  : M unit := fun a =>
  (if negb (isConnected a) then alert "Please connect wallet first"
   else
     setTransactionStatus
       {| tx_visible := true; tx_status := tx_pending;
          tx_message := Literal "Encrypting GWAS data with Zama FHE..." |};;
     try_catch
       ((if withSigner a then mret tt
         else throw (Error "Failed to get contract with signer"));;
        let recordId := fresh_id env in
        let recordData := new_record a newRecordData env in
        setData ("gwas_record_" ++ recordId)%string
                (toUtf8Bytes (JSON_stringify recordData));;
        keysBytes ← getData "gwas_record_keys";
        keys ← (if nonempty keysBytes then
                  try_catch
                    (lift (parse_bytes keysBytes))
                    (fun e => console_error "Error parsing keys:" e;;
                              mret (VArr []))
                else mret (VArr []));
        keys' ← lift (push keys (VStr recordId));
        setData "gwas_record_keys" (toUtf8Bytes (JSON_stringify keys'));;
        setTransactionStatus
          {| tx_visible := true; tx_status := tx_success;
             tx_message := Literal "Encrypted GWAS data submitted securely!" |};;
        loadRecords)
       (fun e =>
          setTransactionStatus
            {| tx_visible := true; tx_status := tx_error;
               tx_message := submission_text e |}))
  a.

(** *** [processGWAS] *)

(** [FHEComputeGWAS(v)]: [startsWith] is a method of strings only. *)
Definition call_FHEComputeGWAS (v : value) : exn + string :=
  match v with
  | VStr encryptedData => FHEComputeGWAS encryptedData
  | _ => inl TypeError
  end.

(** [{ ...recordData, status: "processed", data: processedData }] *)
Definition updated_record (recordData : value) (processedData : string) : value :=
  VObj (set_prop "data" (VStr processedData)
          (set_prop "status" (VStr "processed") (spread recordData))).

(** [recordId] is the [id] of a listed record: a string when the index holds
    strings, and the template literal converts it in any case. *)
Definition processGWAS (recordId : value) : M unit := fun a =>
  (if negb (isConnected a) then alert "Please connect wallet first"
   else
     setTransactionStatus
       {| tx_visible := true; tx_status := tx_pending;
          tx_message := Literal "Processing encrypted GWAS data with FHE..." |};;
     try_catch
       ((if readOnly a then mret tt
         else throw (Error "Failed to get contract"));;
        key ← lift (ToString recordId);
        recordBytes ← getData ("gwas_record_" ++ key)%string;
        (if nonempty recordBytes then mret tt
         else throw (Error "Record not found"));;
        recordData ← lift (parse_bytes recordBytes);
        data ← lift (get recordData "data");
        processedData ← lift (call_FHEComputeGWAS data);
        (if withSigner a then mret tt
         else throw (Error "Failed to get contract with signer"));;
        let updatedRecord := updated_record recordData processedData in
        setData ("gwas_record_" ++ key)%string
                (toUtf8Bytes (JSON_stringify updatedRecord));;
        setTransactionStatus
          {| tx_visible := true; tx_status := tx_success;
             tx_message := Literal "FHE GWAS processing completed!" |};;
        loadRecords)
       (fun e =>
          setTransactionStatus
            {| tx_visible := true; tx_status := tx_error;
               tx_message := failure_text "Processing failed: " e |}))
  a.

End Repository.

(** *** The view's gate on [processGWAS] *)

(** [isOwner]: [toLowerCase] is a method of strings only. *)
Definition isOwner (a : App) (recordAddress : value) : exn + bool :=
  match recordAddress with
  | VStr r =>
      inr (match address a with
           | Some s => String.eqb (toLowerCase s) (toLowerCase r)
           | None => false
           end)
  | _ => inl TypeError
  end.

(** The card of a record shows the button that calls [processGWAS] when
    [isOwner(record.institution) && record.status === "pending"]. *)
Definition process_button (a : App) (record : GWASRecord) : exn + bool :=
  owner ← isOwner a (institution record);
  inr (owner && strict_eq_string (status record) "pending").

(** ** The rest of the view *)

(** *** The counters of the dashboard

    [records.filter(r => r.status === s).length] *)

Definition count_status (s : string) (l : list GWASRecord) : nat :=
  length (List.filter (fun r => strict_eq_string (status r) s) l).

Definition processedCount (a : App) : nat := count_status "processed" (records a).

Definition pendingCount (a : App) : nat := count_status "pending" (records a).


(** *** [filteredRecords] *)

(** [v.toLowerCase()]: a method of strings only. *)
Definition call_toLowerCase (v : value) : exn + string :=
  match v with
  | VStr s => inr (toLowerCase s)
  | _ => inl TypeError
  end.

(** The callback of [records.filter]: the institution is looked at only when
    the phenotype does not match. *)
Definition matches (searchTerm activeTab : string) (record : GWASRecord)
  : exn + bool :=
  p ← call_toLowerCase (phenotype record);
  matchesSearch ←
    (if includes p (toLowerCase searchTerm) then inr true
     else
       i ← call_toLowerCase (institution record);
       inr (includes i (toLowerCase searchTerm)));
  let matchesTab :=
    String.eqb activeTab "all" || strict_eq_string (status record) activeTab in
  inr (matchesSearch && matchesTab).

(** [l.filter(f)] for a callback that may throw. *)
Fixpoint Array_filter (f : GWASRecord -> exn + bool) (l : list GWASRecord)
  : exn + list GWASRecord :=
  match l with
  | [] => inr []
  | r :: rest =>
      match f r with
      | inl e => inl e
      | inr keep =>
          match Array_filter f rest with
          | inl e => inl e
          | inr rest' => inr (if keep then r :: rest' else rest')
          end
      end
  end.

Definition filteredRecords (searchTerm activeTab : string) (a : App)
  : exn + list GWASRecord :=
  Array_filter (matches searchTerm activeTab) (records a).

(** *** [decryptWithSignature] *)

(** The hooks the message to sign is made of. *)
Record SignatureParams := {
  publicKey : string;
  contractAddress : string;
  chainId : float;
  startTimestamp : float;
  durationDays : float
}.

Definition newline : string := String (ascii_of_nat 10) "".

Section Decryption.

Context {rt : Runtime}.

Definition message (p : SignatureParams) : string :=
  "publickey:" ++ publicKey p ++ newline
  ++ "contractAddresses:" ++ contractAddress p ++ newline
  ++ "contractsChainId:" ++ Number_toString (chainId p) ++ newline
  ++ "startTimestamp:" ++ Number_toString (startTimestamp p) ++ newline
  ++ "durationDays:" ++ Number_toString (durationDays p).

(** [FHEDecryptNumber(v)]: [startsWith] is a method of strings only. *)
Definition call_FHEDecryptNumber (v : value) : exn + float :=
  match v with
  | VStr encryptedData => FHEDecryptNumber encryptedData
  | _ => inl TypeError
  end.

(** [signMessageAsync] is the wallet's: it resolves with a signature or
    rejects.  The result is the number, or [None] for [null].  The flag
    [isDecrypting] only drives the display and the pause of 1500 ms is a timer:
    both are left out. *)
Definition decryptWithSignature (p : SignatureParams)
    (signMessageAsync : string -> exn + string) (encryptedData : value)
  : M (option float) := fun a =>
  (if negb (isConnected a) then
     alert "Please connect wallet first";; mret None
   else
     try_catch
       (lift (signMessageAsync (message p));;
        decrypted ← lift (call_FHEDecryptNumber encryptedData);
        mret (Some decrypted))
       (fun e => console_error "Decryption failed:" e;; mret None))
  a.

End Decryption.

(** *** The upload dialog *)

(** [x || 0] for a number [x] *)
Definition number_or_zero (x : float) : float := if truthy (VNum x) then x else 0%float.

Section Form.

Context {rt : Runtime}.

(** [parseInt] is the engine's. *)
Variable parseInt : string -> float.

(** The [onChange] handlers of the two numeric fields. *)
Definition change_snpCount (newRecordData : NewRecordData) (value : string)
  : NewRecordData :=
  {| new_phenotype := new_phenotype newRecordData;
     description := description newRecordData;
     new_snpCount := number_or_zero (parseInt value);
     effectSize := effectSize newRecordData |}.

Definition change_effectSize (newRecordData : NewRecordData) (value : string)
  : NewRecordData :=
  {| new_phenotype := new_phenotype newRecordData;
     description := description newRecordData;
     new_snpCount := new_snpCount newRecordData;
     effectSize := number_or_zero (parseFloat value) |}.

End Form.

(** The button that calls [uploadGWASData] is disabled when
    [uploading || !newRecordData.phenotype || !newRecordData.snpCount]. *)
Definition submit_disabled (uploading : bool) (newRecordData : NewRecordData) : bool :=
  uploading
  || negb (truthy (VStr (new_phenotype newRecordData)))
  || negb (truthy (VNum (new_snpCount newRecordData))).

(** ** What a listing is meant to show

    The index as [loadRecords] reads it, the record a key stands for, and
    what a key makes [loadRecords] write on the console. *)

Section Listing.

Context {rt : Runtime}.

(** The keys read from the index, and the complaint logged on the way. *)
Definition stored_keys (c : Contract) : value * list (string * exn) :=
  let keysBytes := contract_getData c "gwas_record_keys" in
  if nonempty keysBytes then
    match toUtf8String keysBytes with
    | inr keysStr =>
        if trim_nonempty keysStr then
          match JSON_parse keysStr with
          | inr keys => (keys, [])
          | inl e => (VArr [], [("Error parsing record keys:", e)])
          end
        else (VArr [], [])
    | inl e => (VArr [], [("Error parsing record keys:", e)])
    end
  else (VArr [], []).

(** The keys [uploadGWASData] reads from the index, and its complaint. *)
Definition upload_keys (c : Contract) : value * list (string * exn) :=
  let keysBytes := contract_getData c "gwas_record_keys" in
  if nonempty keysBytes then
    match parse_bytes keysBytes with
    | inr keys => (keys, [])
    | inl e => (VArr [], [("Error parsing keys:", e)])
    end
  else (VArr [], []).

(** The document stored for [key], decoded: [None] when there is none. *)
Definition document (c : Contract) (key : value) : option (exn + GWASRecord) :=
  match ToString key with
  | inr k =>
      let recordBytes := contract_getData c ("gwas_record_" ++ k)%string in
      if nonempty recordBytes then
        Some (recordData ← parse_bytes recordBytes; record_of key recordData)
      else None
  | inl _ => None
  end.

(** The record listed for [key]: its document is present and decodes. *)
Definition listed (c : Contract) (key : value) : option GWASRecord :=
  match document c key with
  | Some (inr r) => Some r
  | _ => None
  end.

(** The complaint about [key]: its document is present and does not decode. *)
Definition complaint (c : Contract) (key : value) : list (string * exn) :=
  match document c key, ToString key with
  | Some (inl e), inr k =>
      [(("Error parsing record data for " ++ k ++ ":")%string, e)]
  | _, _ => []
  end.

End Listing.

(** ** The order of numbers

    The place of a number on the line, in units of the least positive
    binary64 number; the infinities lie beyond every finite number. *)

Definition top : Z := (2 ^ 2098)%Z.

Definition rank (x : spec_float) : Z :=
  match x with
  | S754_zero _ | S754_nan => 0%Z
  | S754_infinity s => cond_Zopp s top
  | S754_finite s m e => cond_Zopp s (Zpos m * 2 ^ (e + 1074))%Z
  end.

Definition frank (x : float) : Z := rank (Prim2SF x).

Definition not_nan (x : float) : Prop := is_nan x = false.

(** [a] comes before [b] in a listing by descending timestamp: the number
    the timestamp of [b] converts to is at most the one of [a]. *)
Definition newer_first {rt : Runtime} (a b : GWASRecord) : Prop :=
  exists x y,
    ToNumber (timestamp a) = inr x /\ ToNumber (timestamp b) = inr y /\
    (y <=? x)%float = true.

(** The timestamp of [r] converts to a number that is not [NaN]: it is a
    number (no JSON text denotes [NaN]), [null], a boolean, or a string or an
    array that reads as a number. *)
Definition dated {rt : Runtime} (r : GWASRecord) : Prop :=
  exists x, ToNumber (timestamp r) = inr x /\ not_nan x.

(** ** Frames

    [quiet m]: running [m] changes at most the hooks [records] and the
    console; the contract, the wallet and the status line stay as they are. *)

Definition same_world (a a' : App) : Prop :=
  address a' = address a /\ isConnected a' = isConnected a /\
  contract a' = contract a /\ readOnly a' = readOnly a /\
  withSigner a' = withSigner a /\
  transactionStatus a' = transactionStatus a /\ alerts a' = alerts a.

Definition quiet {A : Type} (m : M A) : Prop := forall a, same_world a (m a).1.

(** [logged a a' l]: from [a] to [a'] only the console changed, by the
    entries [l]. *)
Definition logged (a a' : App) (l : list (string * exn)) : Prop :=
  same_world a a' /\ records a' = records a /\ console a' = console a ++ l.

(** ** The states the operations reach

    From a contract that stores nothing, by [loadRecords], [uploadGWASData]
    and [processGWAS]; between two operations the wallet, the providers and
    the display may change anything but the storage and the records loaded. *)

Section Reachability.

Context {rt : Runtime}.

Inductive step : App -> App -> Prop :=
| step_loadRecords (a : App) : step a (loadRecords a).1
| step_uploadGWASData (newRecordData : NewRecordData) (env : Readings) (a : App) :
    step a (uploadGWASData newRecordData env a).1
| step_processGWAS (recordId : value) (a : App) :
    step a (processGWAS recordId a).1
| step_outside (a a' : App) :
    storage (contract a') = storage (contract a) -> records a' = records a ->
    step a a'.

Inductive reachable : App -> Prop :=
| reachable_initial (a : App) :
    storage (contract a) = ∅ -> records a = [] -> reachable a
| reachable_step (a a' : App) : reachable a -> step a a' -> reachable a'.

End Reachability.





(** ** Computations that only read the contract

    [steady m]: running [m] leaves the contract and the hook [records] as
    they are, and what [m] returns depends on the contract alone. *)

Definition steady {A : Type} (m : M A) : Prop :=
  (forall a, contract (m a).1 = contract a /\ records (m a).1 = records a) /\
  (forall a b, contract a = contract b -> (m a).2 = (m b).2).

(** ** Timestamps the comparator can subtract

    [numbered r]: converting the timestamp of [r] to a number does not throw
    (it may give [NaN]). *)


(** ** Requests the contract rejects, and clients that overlap

    [getData] and [setData] are requests to a contract on a chain.  The code
    awaits each of them, and each may be rejected: the wallet refuses the
    transaction, the node does not answer.  While a request is awaited, other
    clients of the same contract may write to it.  A [Call] says what happens
    to one request: what the other clients make of the contract before the
    request is served, and whether it is served.  The operations above are
    the runs in which every request is served and nobody else writes. *)

Inductive reply :=
| answered
| rejected (e : exn).

Record Call := {
  meanwhile : Contract -> Contract;
  outcome : reply
}.

(** Nobody else writes. *)
Definition alone (r : reply) : Call := {| meanwhile := fun c => c; outcome := r |}.

(** The client [a] in front of the contract [c]. *)
Definition with_contract (c : Contract) (a : App) : App :=
  {| address := address a; isConnected := isConnected a; contract := c;
     readOnly := readOnly a; withSigner := withSigner a;
     records := records a; transactionStatus := transactionStatus a;
     console := console a; alerts := alerts a |}.

(** [await request]: the other clients write, then the request is served, or
    it throws. *)
Definition await {A : Type} (w : Call) (request : M A) : M A := fun a =>
  let a' := with_contract (meanwhile w (contract a)) a in
  match outcome w with
  | answered => request a'
  | rejected e => (a', inl e)
  end.

(** The requests of [uploadGWASData]: the document is stored, the index is
    read, the index is stored. *)
Record UploadCalls := {
  store_document : Call;
  read_index : Call;
  store_index : Call
}.

(** The requests of [processGWAS]: the document is read, the document is
    stored. *)
Record ProcessCalls := {
  read_document : Call;
  store_update : Call
}.

(** The status line of an upload and of a processing that failed. *)
Definition submission_failed (e : exn) : TransactionStatus :=
  {| tx_visible := true; tx_status := tx_error; tx_message := submission_text e |}.

Definition processing_failed (e : exn) : TransactionStatus :=
  {| tx_visible := true; tx_status := tx_error;
     tx_message := failure_text "Processing failed: " e |}.

Section Requests.

Context {rt : Runtime}.

(** [uploadGWASData], each request of it awaited. *)
Definition uploadGWASData_among (w : UploadCalls) (newRecordData : NewRecordData)
    (env : Readings) : M unit := fun a =>
  (if negb (isConnected a) then alert "Please connect wallet first"
   else
     setTransactionStatus
       {| tx_visible := true; tx_status := tx_pending;
          tx_message := Literal "Encrypting GWAS data with Zama FHE..." |};;
     try_catch
       ((if withSigner a then mret tt
         else throw (Error "Failed to get contract with signer"));;
        let recordId := fresh_id env in
        let recordData := new_record a newRecordData env in
        await (store_document w)
          (setData ("gwas_record_" ++ recordId)%string
                   (toUtf8Bytes (JSON_stringify recordData)));;
        keysBytes ← await (read_index w) (getData "gwas_record_keys");
        keys ← (if nonempty keysBytes then
                  try_catch
                    (lift (parse_bytes keysBytes))
                    (fun e => console_error "Error parsing keys:" e;;
                              mret (VArr []))
                else mret (VArr []));
        keys' ← lift (push keys (VStr recordId));
        await (store_index w)
          (setData "gwas_record_keys" (toUtf8Bytes (JSON_stringify keys')));;
        setTransactionStatus
          {| tx_visible := true; tx_status := tx_success;
             tx_message := Literal "Encrypted GWAS data submitted securely!" |};;
        loadRecords)
       (fun e =>
          setTransactionStatus
            {| tx_visible := true; tx_status := tx_error;
               tx_message := submission_text e |}))
  a.

(** [processGWAS], each request of it awaited. *)
Definition processGWAS_among (w : ProcessCalls) (recordId : value) : M unit :=
  fun a =>
  (if negb (isConnected a) then alert "Please connect wallet first"
   else
     setTransactionStatus
       {| tx_visible := true; tx_status := tx_pending;
          tx_message := Literal "Processing encrypted GWAS data with FHE..." |};;
     try_catch
       ((if readOnly a then mret tt
         else throw (Error "Failed to get contract"));;
        key ← lift (ToString recordId);
        recordBytes ← await (read_document w)
                        (getData ("gwas_record_" ++ key)%string);
        (if nonempty recordBytes then mret tt
         else throw (Error "Record not found"));;
        recordData ← lift (parse_bytes recordBytes);
        data ← lift (get recordData "data");
        processedData ← lift (call_FHEComputeGWAS data);
        (if withSigner a then mret tt
         else throw (Error "Failed to get contract with signer"));;
        let updatedRecord := updated_record recordData processedData in
        await (store_update w)
          (setData ("gwas_record_" ++ key)%string
                   (toUtf8Bytes (JSON_stringify updatedRecord)));;
        setTransactionStatus
          {| tx_visible := true; tx_status := tx_success;
             tx_message := Literal "FHE GWAS processing completed!" |};;
        loadRecords)
       (fun e =>
          setTransactionStatus
            {| tx_visible := true; tx_status := tx_error;
               tx_message := failure_text "Processing failed: " e |}))
  a.

(** *** The states reached when requests may be rejected

    From a contract that stores nothing, by uploads and processings that run
    one after the other, any request of which may be rejected; between two of
    them anything may happen to a client but a change of the storage
    ([loadRecords], which stores nothing, is such a step whatever is answered
    to it). *)

Inductive move : App -> App -> Prop :=
| move_uploadGWASData (r1 r2 r3 : reply) (newRecordData : NewRecordData)
    (env : Readings) (a : App) :
    move a (uploadGWASData_among
              {| store_document := alone r1; read_index := alone r2;
                 store_index := alone r3 |} newRecordData env a).1
| move_processGWAS (r1 r2 : reply) (recordId : value) (a : App) :
    move a (processGWAS_among
              {| read_document := alone r1; store_update := alone r2 |}
              recordId a).1
| move_outside (a a' : App) :
    storage (contract a') = storage (contract a) -> move a a'.

Inductive attainable : App -> Prop :=
| attainable_initial (a : App) : storage (contract a) = ∅ -> attainable a
| attainable_move (a a' : App) : attainable a -> move a a' -> attainable a'.

End Requests.

(** ** Sample states

    States built the way the application builds them, for running the
    operations on concrete inputs. *)

(** The status line before any operation. *)
Definition hidden : TransactionStatus :=
  {| tx_visible := false; tx_status := tx_pending; tx_message := Literal "" |}.

(** A connected wallet [who] in front of the contract [c]. *)
Definition connected (who : string) (c : Contract) : App :=
  {| address := Some who; isConnected := true; contract := c;
     readOnly := true; withSigner := true; records := [];
     transactionStatus := hidden; console := []; alerts := [] |}.

Definition document_of (data : string) (timestamp : float)
    (institution phenotype status : string) (snpCount : float) : bytes :=
  toUtf8Bytes
    (JSON_stringify
       (VObj [ ("data", VStr data); ("timestamp", VNum timestamp);
               ("institution", VStr institution); ("phenotype", VStr phenotype);
               ("status", VStr status); ("snpCount", VNum snpCount) ])).

Definition index_of (ids : list string) : bytes :=
  toUtf8Bytes (JSON_stringify (VArr (map VStr ids))).

Definition contract_of (isAvailable : bool) (l : list (string * bytes)) : Contract :=
  {| available := isAvailable; storage := list_to_map l |}.

(** Three records with the timestamps 100, 300 and 200. *)
Definition three_records : Contract :=
  contract_of true
    [ ("gwas_record_keys", index_of ["a"; "b"; "c"]);
      ("gwas_record_a", document_of "FHE-MTA=" 100 "0xA1" "height" "pending" 5);
      ("gwas_record_b", document_of "FHE-MTA=" 300 "0xA1" "weight" "pending" 7);
      ("gwas_record_c", document_of "FHE-MTA=" 200 "0xB2" "asthma" "processed" 9) ].

(** An index that names a record whose document is absent. *)
Definition dangling : Contract :=
  contract_of true [ ("gwas_record_keys", index_of ["a"]) ].

(** Two documents that decode; the timestamp of the second is the object
    [{"toString": 1}], which no conversion turns into a number. *)
Definition unconvertible : Contract :=
  contract_of true
    [ ("gwas_record_keys", index_of ["a"; "b"]);
      ("gwas_record_a", document_of "FHE-MTA=" 100 "0xA1" "height" "pending" 5);
      ("gwas_record_b",
       toUtf8Bytes
         (JSON_stringify
            (VObj [ ("data", VStr "FHE-MTA=");
                    ("timestamp", VObj [("toString", VNum 1)]);
                    ("institution", VStr "0xA1"); ("phenotype", VStr "weight");
                    ("status", VStr "pending"); ("snpCount", VNum 7) ]))) ].


(** An index whose bytes are not a JSON text (a truncated array, say). *)
Definition garbled_index : Contract :=
  contract_of true [ ("gwas_record_keys", Utf8 NotJson) ].

(** An index that is a JSON object and no array. *)
Definition object_index : Contract :=
  contract_of true [ ("gwas_record_keys", toUtf8Bytes (JSON_stringify (VObj []))) ].

(** A contract that holds nothing and reports that it is not available. *)
Definition unavailable : Contract := contract_of false [].

(** A form of the upload dialog, and the readings of one upload. *)
Definition sample_form : NewRecordData :=
  {| new_phenotype := "height"; description := "";
     new_snpCount := 5; effectSize := 0 |}.

Definition sample_readings : Readings :=
  {| Date_now_id := 1700000000000; random_suffix := "ab12";
     Date_now_timestamp := 1700000000123 |}.

(** The readings of a second upload. *)
Definition other_readings : Readings :=
  {| Date_now_id := 1700000000456; random_suffix := "cd34";
     Date_now_timestamp := 1700000000789 |}.

(** ** A reference engine

    An executable instance of [Runtime], used to run the operations on
    concrete inputs: [Number.prototype.toString] prints the shortest decimal
    that reads back as the same number, [parseFloat] reads the longest decimal
    prefix, and [Math.exp] sums the exponential series over the rationals (it
    is meant for arguments of small magnitude). *)

Module Engine.

#[local] Open Scope Z_scope.

(** The float nearest to [n / d], for [0 <= n] and [0 < d]. *)
Definition nearest (negative : bool) (n d : Z) : float :=
  match n, d with
  | Zpos pn, Zpos pd =>
      SF2Prim (SFdiv prec emax (S754_finite negative pn 0) (S754_finite false pd 0))
  | _, _ => if negative then (- 0)%float else 0%float
  end.

(** The float nearest to [m * 10 ^ e]. *)
Definition nearest_decimal (negative : bool) (m e : Z) : float :=
  if 0 <=? e then nearest negative (m * 10 ^ e) 1
  else nearest negative m (10 ^ (- e)).

Definition digit_value (c : ascii) : option Z :=
  let n := Z.of_nat (nat_of_ascii c) in
  if (48 <=? n) && (n <=? 57) then Some (n - 48) else None.

(** Reads digits: the number read after [acc], how many, and the rest. *)
Fixpoint scan_digits (l : list ascii) (acc count : Z) : Z * Z * list ascii :=
  match l with
  | c :: r =>
      match digit_value c with
      | Some d => scan_digits r (10 * acc + d) (count + 1)
      | None => (acc, count, l)
      end
  | [] => (acc, count, l)
  end.

Definition scan_exponent (l : list ascii) : Z * list ascii :=
  match l with
  | c :: r =>
      if Ascii.eqb c "e" || Ascii.eqb c "E" then
        let '(negative, r1) :=
          match r with
          | s :: r' =>
              if Ascii.eqb s "-" then (true, r')
              else if Ascii.eqb s "+" then (false, r')
              else (false, r)
          | [] => (false, r)
          end in
        let '(x, n, r2) := scan_digits r1 0 0 in
        if n =? 0 then (0, l) else (if negative then - x else x, r2)
      else (0, l)
  | [] => (0, l)
  end.

(** The longest decimal literal at the head of [l]: mantissa, power of ten
    and rest. *)
Definition decimal_prefix (l : list ascii) : option (Z * Z * list ascii) :=
  let '(i, ni, r1) := scan_digits l 0 0 in
  let '(m, nf, r2) :=
    match r1 with
    | c :: r => if Ascii.eqb c "." then scan_digits r i 0 else (i, 0, r1)
    | [] => (i, 0, r1)
    end in
  if ni + nf =? 0 then None
  else
    let '(x, r3) := scan_exponent r2 in
    Some (m, x - nf, r3).

(** White space and line terminators below 256. *)
Definition is_space (c : ascii) : bool :=
  match nat_of_ascii c with
  | 9%nat | 10%nat | 11%nat | 12%nat | 13%nat | 32%nat | 160%nat => true
  | _ => false
  end.

Fixpoint skip_spaces (l : list ascii) : list ascii :=
  match l with
  | c :: r => if is_space c then skip_spaces r else l
  | [] => []
  end.

Definition take_sign (l : list ascii) : bool * list ascii :=
  match l with
  | c :: r =>
      if Ascii.eqb c "-" then (true, r)
      else if Ascii.eqb c "+" then (false, r)
      else (false, l)
  | [] => (false, l)
  end.

Definition signed_infinity (negative : bool) : float :=
  if negative then neg_infinity else infinity.

Definition parseFloat (s : string) : float :=
  let '(negative, l) := take_sign (skip_spaces (list_ascii_of_string s)) in
  if String.prefix "Infinity" (string_of_list_ascii l) then signed_infinity negative
  else
    match decimal_prefix l with
    | Some (m, e, _) => nearest_decimal negative m e
    | None => nan
    end.

(** The conversion of a whole string: white space around a decimal literal,
    nothing for zero.  Literals in another base are not read. *)
Definition StringToNumber (s : string) : float :=
  let l := rev (skip_spaces (rev (skip_spaces (list_ascii_of_string s)))) in
  match l with
  | [] => 0%float
  | _ =>
      let '(negative, l) := take_sign l in
      if String.eqb (string_of_list_ascii l) "Infinity" then signed_infinity negative
      else
        match decimal_prefix l with
        | Some (m, e, []) => nearest_decimal negative m e
        | _ => nan
        end
  end.

(** [10 ^ k <= n / d] *)
Definition reaches (n d k : Z) : bool :=
  if 0 <=? k then d * 10 ^ k <=? n else d <=? n * 10 ^ (- k).

(** The [p] with [10 ^ (p - 1) <= n / d < 10 ^ p], from an estimate. *)
Fixpoint magnitude_from (fuel : nat) (n d p : Z) : Z :=
  match fuel with
  | O => p
  | S fuel =>
      if reaches n d p then magnitude_from fuel n d (p + 1)
      else if reaches n d (p - 1) then p
      else magnitude_from fuel n d (p - 1)
  end.

Definition magnitude (n d : Z) : Z :=
  magnitude_from 8 n d ((Z.log2 n - Z.log2 d) * 30103 / 100000).

(** The digits [s] and the exponent [p] of the shortest decimal
    [s * 10 ^ (p - k)] of [k] digits that reads back as [x = n / d]. *)
Fixpoint shortest_from (fuel : nat) (x : float) (n d p k : Z) : Z * Z * Z :=
  let scale := p - k in
  let num := if 0 <=? scale then n else n * 10 ^ (- scale) in
  let den := if 0 <=? scale then d * 10 ^ scale else d in
  let low := num / den in
  let rest := num mod den in
  let reads (s : Z) := PrimFloat.eqb (nearest_decimal false s scale) x in
  let pick (s : Z) := if s =? 10 ^ k then (10 ^ (k - 1), p + 1, k) else (s, p, k) in
  let first := if 2 * rest <? den then low
               else if den <? 2 * rest then low + 1
               else if Z.even low then low else low + 1 in
  let second := if first =? low then low + 1 else low in
  if reads first then pick first
  else if reads second then pick second
  else
    match fuel with
    | O => pick first
    | S fuel => shortest_from fuel x n d p (k + 1)
    end.

Definition digits (n : Z) : string :=
  DecimalString.NilZero.string_of_uint (N.to_uint (Z.to_N n)).

Fixpoint zeros (n : nat) : string :=
  match n with
  | O => ""
  | S n => String "0" (zeros n)
  end.

Definition format (s p k : Z) : string :=
  let ds := digits s in
  if (k <=? p) && (p <=? 21) then (ds ++ zeros (Z.to_nat (p - k)))%string
  else if (0 <? p) && (p <=? 21) then
    (String.substring 0 (Z.to_nat p) ds ++ "."
       ++ String.substring (Z.to_nat p) (Z.to_nat (k - p)) ds)%string
  else if (-6 <? p) && (p <=? 0) then ("0." ++ zeros (Z.to_nat (- p)) ++ ds)%string
  else
    let e := p - 1 in
    let sign := if e <? 0 then "-"%string else "+"%string in
    let exponent := (sign ++ digits (Z.abs e))%string in
    if k =? 1 then (ds ++ "e" ++ exponent)%string
    else (String.substring 0 1 ds ++ "."
            ++ String.substring 1 (Z.to_nat (k - 1)) ds ++ "e" ++ exponent)%string.

Definition Number_toString (x : float) : string :=
  match Prim2SF x with
  | S754_nan => "NaN"
  | S754_zero _ => "0"
  | S754_infinity negative => if negative then "-Infinity" else "Infinity"
  | S754_finite negative m e =>
      let n := if 0 <=? e then Zpos m * 2 ^ e else Zpos m in
      let d := if 0 <=? e then 1 else 2 ^ (- e) in
      let '(s, p, k) := shortest_from 16 (abs x) n d (magnitude n d) 1 in
      ((if negative then "-" else "") ++ format s p k)%string
  end.

(** The series [1 + x (1 + x/2 (1 + x/3 ...))] at [x = n / d], as a
    fraction. *)
Fixpoint series (terms : nat) (i : Z) (n d : Z) : Z * Z :=
  match terms with
  | O => (1, 1)
  | S terms =>
      let '(an, ad) := series terms (i + 1) n d in
      (d * i * ad + n * an, d * i * ad)
  end.

Definition Math_exp (x : float) : float :=
  match Prim2SF x with
  | S754_nan => nan
  | S754_zero _ => 1%float
  | S754_infinity negative => if negative then 0%float else infinity
  | S754_finite negative m e =>
      let n := if 0 <=? e then Zpos m * 2 ^ e else Zpos m in
      let d := if 0 <=? e then 1 else 2 ^ (- e) in
      let '(en, ed) := series 60 1 (if negative then - n else n) d in
      nearest false en ed
  end.

#[export] Instance engine : Runtime := {
  Number_toString := Number_toString;
  parseFloat := parseFloat;
  StringToNumber := StringToNumber;
  Math_exp := Math_exp
}.

End Engine.

(** ** The documents and the index the operations write

    [written b]: [b] is a document as [uploadGWASData] and [processGWAS] leave
    it, a JSON object whose [data] is a ciphertext, whose [phenotype] is a
    string and whose [timestamp] is a number or [null].
    [indexed_by c ids]: the index of [c] holds the ids
    [ids] (or is absent, and there is no id), and each of them has such a
    document. *)

Section Integrity.

Context {rt : Runtime}.

Definition written (b : bytes) : Prop :=
  exists ps x,
    b = Utf8 (JsonText (VObj ps)) /\ jsonify_props ps = ps /\
    lookup_prop "data" ps = Some (VStr (FHEEncryptNumber x)) /\
    (forall v, lookup_prop "timestamp" ps = Some v ->
               v = VNull \/ exists t, v = VNum t) /\
    exists p, lookup_prop "phenotype" ps = Some (VStr p).

Definition indexed_by (c : Contract) (ids : list string) : Prop :=
  (contract_getData c "gwas_record_keys" = index_of ids \/
   ids = [] /\ contract_getData c "gwas_record_keys" = no_bytes) /\
  Forall (fun recordId =>
            recordId <> "keys" /\
            written (contract_getData c ("gwas_record_" ++ recordId)))
         ids.

End Integrity.

(** ** More sample states *)

(** The state after one upload on an empty contract, with the reference
    engine. *)
Definition uploaded : App :=
  (@uploadGWASData Engine.engine sample_form sample_readings
     (connected "0xA1" (contract_of true []))).1.

(** The three records, loaded. *)
Definition three_loaded : App :=
  (@loadRecords Engine.engine (connected "0xA1" three_records)).1.

(** A contract whose only document is the empty object, and the state after
    loading it. *)
Definition blank_document : Contract :=
  contract_of true
    [ ("gwas_record_keys", index_of ["a"]);
      ("gwas_record_a", toUtf8Bytes (JSON_stringify (VObj []))) ].

Definition blank_loaded : App :=
  (@loadRecords Engine.engine (connected "0xA1" blank_document)).1.

(** * Properties *)

(** ** The order of binary64 numbers

    Subtraction rounds, and yet the sign of [y - x] tells whether [x < y]:
    this is what makes [b.timestamp - a.timestamp] a comparator. *)

Module FloatOrder.

#[local] Open Scope Z_scope.

Lemma digits2_pos_bounds (m : positive) :
  2 ^ (Zpos (digits2_pos m) - 1) <= Zpos m < 2 ^ Zpos (digits2_pos m).
Proof.
  induction m as [p IH | p IH |]; simpl digits2_pos.
  - rewrite Pos2Z.inj_succ.
    replace (Z.succ (Zpos (digits2_pos p)) - 1) with (Z.succ (Zpos (digits2_pos p) - 1)) by lia.
    rewrite !Z.pow_succ_r by lia. lia.
  - rewrite Pos2Z.inj_succ.
    replace (Z.succ (Zpos (digits2_pos p)) - 1) with (Z.succ (Zpos (digits2_pos p) - 1)) by lia.
    rewrite !Z.pow_succ_r by lia. lia.
  - simpl. lia.
Qed.

Lemma shr_1_m (mrs : shr_record) :
  0 <= shr_m mrs -> shr_m (shr_1 mrs) = shr_m mrs / 2.
Proof.
  destruct mrs as [m r s]. simpl. intros Hm.
  destruct m as [| [p | p |] | p]; simpl shr_m; try lia.
  - reflexivity.
  - rewrite Pos2Z.inj_xI. apply Z.div_unique with 1; lia.
  - rewrite Pos2Z.inj_xO. apply Z.div_unique with 0; lia.
  - reflexivity.
Qed.

Lemma iter_shr_1_m (q : positive) (mrs : shr_record) :
  0 <= shr_m mrs ->
  shr_m (SpecFloat.iter_pos shr_1 q mrs) = shr_m mrs / 2 ^ Zpos q.
Proof.
  revert mrs. induction q as [q IH | q IH |]; intros mrs Hm; simpl SpecFloat.iter_pos.
  - assert (0 <= shr_m (shr_1 mrs)) as H1
      by (rewrite shr_1_m by exact Hm; apply Z.div_pos; lia).
    assert (0 < 2 ^ Zpos q) as Hp by (apply Z.pow_pos_nonneg; lia).
    assert (0 <= shr_m (SpecFloat.iter_pos shr_1 q (shr_1 mrs))) as H2
      by (rewrite IH by exact H1; apply Z.div_pos; lia).
    rewrite IH by exact H2. rewrite IH by exact H1. rewrite shr_1_m by exact Hm.
    rewrite !Z.div_div by lia.
    f_equal.
    assert (Zpos q~1 = 1 + (Zpos q + Zpos q)) as -> by lia.
    rewrite (Z.pow_add_r 2 1), (Z.pow_add_r 2 (Zpos q)) by lia. lia.
  - assert (0 < 2 ^ Zpos q) as Hp by (apply Z.pow_pos_nonneg; lia).
    assert (0 <= shr_m (SpecFloat.iter_pos shr_1 q mrs)) as H2
      by (rewrite IH by exact Hm; apply Z.div_pos; lia).
    rewrite IH by exact H2. rewrite IH by exact Hm.
    rewrite !Z.div_div by lia.
    f_equal.
    assert (Zpos q~0 = Zpos q + Zpos q) as -> by lia.
    rewrite (Z.pow_add_r 2 (Zpos q)) by lia. reflexivity.
  - rewrite shr_1_m by exact Hm. reflexivity.
Qed.

(** Shifting right by fewer places than the number has digits leaves a
    positive number. *)
Lemma shr_positive (m : positive) (r s : bool) (e n : Z) :
  n < Zpos (digits2_pos m) ->
  exists m', shr_m (fst (shr (Build_shr_record (Zpos m) r s) e n)) = Zpos m'.
Proof.
  intros Hn. unfold shr. destruct n as [| q | q]; simpl fst.
  - exists m. reflexivity.
  - rewrite iter_shr_1_m by (simpl; lia). simpl shr_m.
    assert (0 < Zpos m / 2 ^ Zpos q) as H.
    { apply Z.div_str_pos. split; [apply Z.pow_pos_nonneg; lia|].
      pose proof (digits2_pos_bounds m) as [Hlo _].
      eapply Z.le_trans; [| exact Hlo]. apply Z.pow_le_mono_r; lia. }
    destruct (Zpos m / 2 ^ Zpos q) as [| m' | m']; try lia. exists m'. reflexivity.
  - exists m. reflexivity.
Qed.

Lemma fexp_ge_emin (k : Z) : -1074 <= fexp prec emax k.
Proof. unfold fexp, SpecFloat.emin, prec, emax. lia. Qed.

Lemma fexp_shift (d e : Z) :
  0 < d -> -1074 <= e -> fexp prec emax (d + e) - e < d.
Proof. unfold fexp, SpecFloat.emin, prec, emax. lia. Qed.

Lemma shr_exponent (mrs : shr_record) (e n : Z) : e <= snd (shr mrs e n).
Proof. unfold shr. destruct n; simpl; lia. Qed.

Lemma round_nearest_even_positive (m : positive) (l : location) :
  exists m', round_nearest_even (Zpos m) l = Zpos m'.
Proof.
  unfold round_nearest_even.
  destruct l as [| [| |]]; try destruct (Z.even (Zpos m)); simpl; eauto.
Qed.

(** Rounding a positive mantissa at an exponent that is not below the least
    one gives a number that is not zero. *)
Lemma binary_round_aux_positive (sx : bool) (m : positive) (e : Z) :
  -1074 <= e ->
  (exists m' e', binary_round_aux prec emax sx (Zpos m) e loc_Exact
                 = S754_finite sx m' e') \/
  binary_round_aux prec emax sx (Zpos m) e loc_Exact = S754_infinity sx.
Proof.
  intros He. unfold binary_round_aux, shr_fexp.
  set (n1 := fexp prec emax (Zdigits2 (Zpos m) + e) - e).
  assert (n1 < Zpos (digits2_pos m)) as Hn1
    by (apply fexp_shift; [lia | exact He]).
  destruct (shr_positive m false false e n1 Hn1) as [m1 Hm1].
  pose proof (shr_exponent (shr_record_of_loc (Zpos m) loc_Exact) e n1) as He1.
  simpl shr_record_of_loc in *.
  destruct (shr {| shr_m := Zpos m; shr_r := false; shr_s := false |} e n1)
    as [mrs1 e1]. simpl in Hm1, He1. rewrite Hm1.
  destruct (round_nearest_even_positive m1 (loc_of_shr_record mrs1)) as [m2 ->].
  set (n2 := fexp prec emax (Zdigits2 (Zpos m2) + e1) - e1).
  assert (n2 < Zpos (digits2_pos m2)) as Hn2
    by (apply fexp_shift; lia).
  destruct (shr_positive m2 false false e1 n2 Hn2) as [m3 Hm3].
  destruct (shr {| shr_m := Zpos m2; shr_r := false; shr_s := false |} e1 n2)
    as [mrs2 e2]. simpl in Hm3. rewrite Hm3.
  destruct (e2 <=? emax - prec); [left; eauto | right; reflexivity].
Qed.

Lemma binary_round_positive (sx : bool) (m : positive) (e : Z) :
  -1074 <= e ->
  (exists m' e', binary_round prec emax sx m e = S754_finite sx m' e') \/
  binary_round prec emax sx m e = S754_infinity sx.
Proof.
  intros He. unfold binary_round, shl_align.
  pose proof (fexp_ge_emin (Zpos (digits2_pos m) + e)) as Hf.
  destruct (fexp prec emax (Zpos (digits2_pos m) + e) - e) as [| d | d];
    apply binary_round_aux_positive; lia.
Qed.

(** A result of rounding carries the sign it was given. *)
Lemma binary_round_sign (sx : bool) (m : positive) (e : Z) :
  SFltb (S754_zero false) (binary_round prec emax sx m e) = true -> sx = false.
Proof.
  unfold binary_round, binary_round_aux.
  destruct (shl_align m e _) as [mz ez].
  destruct (shr_fexp prec emax (Zpos mz) ez loc_Exact) as [mrs1 e1].
  destruct (shr_fexp prec emax _ e1 loc_Exact) as [mrs2 e2].
  destruct (shr_m mrs2) as [| m' | m'].
  - destruct sx; simpl; intros H; first [reflexivity | discriminate H].
  - destruct (e2 <=? emax - prec), sx; simpl; intros H;
      first [reflexivity | discriminate H].
  - discriminate.
Qed.


Lemma bounded_inv (m : positive) (e : Z) :
  bounded prec emax m e = true ->
  -1074 <= e <= 971 /\ Zpos (digits2_pos m) <= 53 /\
  (-1074 < e -> Zpos (digits2_pos m) = 53).
Proof.
  unfold bounded, canonical_mantissa, fexp, SpecFloat.emin, prec, emax.
  rewrite andb_true_iff, Z.eqb_eq, Z.leb_le. lia.
Qed.

Lemma mantissa_lt (m : positive) :
  Zpos (digits2_pos m) <= 53 -> Zpos m < 2 ^ 53.
Proof.
  intros Hd. pose proof (digits2_pos_bounds m) as [_ Hhi].
  eapply Z.lt_le_trans; [exact Hhi|]. apply Z.pow_le_mono_r; lia.
Qed.

Lemma mantissa_ge (m : positive) :
  Zpos (digits2_pos m) = 53 -> 2 ^ 52 <= Zpos m.
Proof.
  intros Hd. pose proof (digits2_pos_bounds m) as [Hlo _].
  rewrite Hd in Hlo. exact Hlo.
Qed.

Lemma finite_below_top (m : positive) (e : Z) :
  bounded prec emax m e = true ->
  0 < Zpos m * 2 ^ (e + 1074) < top.
Proof.
  intros Hb. apply bounded_inv in Hb. destruct Hb as (He & Hd & _).
  pose proof (mantissa_lt m Hd) as Hm.
  assert (0 < 2 ^ (e + 1074)) as Hp by (apply Z.pow_pos_nonneg; lia).
  assert (2 ^ (e + 1074) <= 2 ^ 2045) as Hq by (apply Z.pow_le_mono_r; lia).
  assert (top = 2 ^ 53 * 2 ^ 2045) as ->
    by (unfold top; rewrite <- Z.pow_add_r by lia; reflexivity).
  generalize dependent (2 ^ (e + 1074)). generalize (2 ^ 2045).
  generalize dependent (2 ^ 53). intros. nia.
Qed.

Lemma finite_order (m1 m2 : positive) (e1 e2 : Z) :
  bounded prec emax m1 e1 = true -> bounded prec emax m2 e2 = true ->
  e1 < e2 ->
  Zpos m1 * 2 ^ (e1 + 1074) < Zpos m2 * 2 ^ (e2 + 1074).
Proof.
  intros H1 H2 Hlt. apply bounded_inv in H1, H2.
  destruct H1 as (He1 & Hd1 & _), H2 as (He2 & _ & Hd2).
  pose proof (mantissa_lt m1 Hd1) as Hm1.
  pose proof (mantissa_ge m2 (Hd2 ltac:(lia))) as Hm2.
  assert (0 < 2 ^ (e1 + 1074)) as Hp by (apply Z.pow_pos_nonneg; lia).
  assert (2 * 2 ^ (e1 + 1074) <= 2 ^ (e2 + 1074)) as Hq.
  { rewrite <- Z.pow_succ_r by lia. apply Z.pow_le_mono_r; lia. }
  assert (2 ^ 53 = 2 * 2 ^ 52) as Hr by reflexivity.
  generalize dependent (2 ^ (e1 + 1074)). generalize dependent (2 ^ (e2 + 1074)).
  generalize dependent (2 ^ 53). generalize dependent (2 ^ 52). intros. nia.
Qed.

Lemma scale_lt (m1 m2 : positive) (p : Z) :
  0 < p -> (m1 < m2)%positive -> Zpos m1 * p < Zpos m2 * p.
Proof.
  intros Hp H. apply Z.mul_lt_mono_pos_r; [exact Hp|].
  apply Pos2Z.pos_lt_pos. exact H.
Qed.

Lemma top_positive : 0 < top.
Proof. unfold top. apply Z.pow_pos_nonneg; lia. Qed.

Lemma compare_rank (x y : spec_float) :
  valid_binary x = true -> valid_binary y = true ->
  x <> S754_nan -> y <> S754_nan ->
  SFcompare x y = Some (rank x ?= rank y).
Proof.
  intros Vx Vy Nx Ny. pose proof top_positive as Ht.
  destruct x as [sx | sx | | sx mx ex], y as [sy | sy | | sy my ey];
    try congruence; simpl in Vx, Vy; unfold SFcompare, rank;
    try pose proof (finite_below_top _ _ Vx) as Bx;
    try pose proof (finite_below_top _ _ Vy) as By;
    f_equal; symmetry;
    try solve
      [ repeat match goal with b : bool |- _ => destruct b end;
        cbv [cond_Zopp];
        first [ reflexivity
              | apply Z.compare_eq_iff; lia
              | apply Z.compare_lt_iff; lia
              | apply Z.compare_gt_iff; lia ] ].
  pose proof (bounded_inv _ _ Vx) as (Hex & _).
  pose proof (bounded_inv _ _ Vy) as (Hey & _).
  destruct sx, sy; cbv [cond_Zopp].
    + destruct (Z.compare_spec ex ey) as [-> | Hlt | Hgt].
      * assert (0 < 2 ^ (ey + 1074)) as Hp by (apply Z.pow_pos_nonneg; lia).
        change (Pos.compare_cont Eq mx my) with (mx ?= my)%positive.
        destruct (Pos.compare_spec mx my) as [-> | H | H]; simpl CompOpp.
        -- apply Z.compare_eq_iff. reflexivity.
        -- apply Z.compare_gt_iff.
           pose proof (scale_lt _ _ _ Hp H). lia.
        -- apply Z.compare_lt_iff.
           pose proof (scale_lt _ _ _ Hp H). lia.
      * apply Z.compare_gt_iff. pose proof (finite_order _ _ _ _ Vx Vy Hlt). lia.
      * apply Z.compare_lt_iff. pose proof (finite_order _ _ _ _ Vy Vx Hgt). lia.
    + apply Z.compare_lt_iff. lia.
    + apply Z.compare_gt_iff. lia.
    + destruct (Z.compare_spec ex ey) as [-> | Hlt | Hgt].
      * assert (0 < 2 ^ (ey + 1074)) as Hp by (apply Z.pow_pos_nonneg; lia).
        change (Pos.compare_cont Eq mx my) with (mx ?= my)%positive.
        destruct (Pos.compare_spec mx my) as [-> | H | H].
        -- apply Z.compare_eq_iff. reflexivity.
        -- apply Z.compare_lt_iff.
           pose proof (scale_lt _ _ _ Hp H). lia.
        -- apply Z.compare_gt_iff.
           pose proof (scale_lt _ _ _ Hp H). lia.
      * apply Z.compare_lt_iff. apply (finite_order _ _ _ _ Vx Vy Hlt).
      * apply Z.compare_gt_iff. apply (finite_order _ _ _ _ Vy Vx Hgt).
Qed.

Lemma iter_xO (d m : positive) : Zpos (Pos.iter xO m d) = Zpos m * 2 ^ Zpos d.
Proof.
  induction d as [| d IH] using Pos.peano_ind.
  - simpl. lia.
  - rewrite Pos.iter_succ, Pos2Z.inj_xO, IH, Pos2Z.inj_succ, Z.pow_succ_r by lia.
    lia.
Qed.

Lemma shl_align_fst (m : positive) (e ez : Z) :
  ez <= e -> Zpos (fst (shl_align m e ez)) = Zpos m * 2 ^ (e - ez).
Proof.
  intros He. unfold shl_align.
  destruct (ez - e) as [| d | d] eqn:Hd; simpl fst.
  - replace (e - ez) with 0 by lia. lia.
  - lia.
  - rewrite iter_xO. replace (e - ez) with (Zpos d) by lia. reflexivity.
Qed.

Lemma cond_Zopp_scale (s : bool) (a p : Z) :
  cond_Zopp s a * p = cond_Zopp s (a * p).
Proof. destruct s; simpl; lia. Qed.

(** The sign of a difference is the order of its operands. *)
Lemma SFsub_sign (x y : spec_float) :
  valid_binary x = true -> valid_binary y = true ->
  x <> S754_nan -> y <> S754_nan ->
  SFltb (S754_zero false) (SFsub prec emax y x) = (rank x <? rank y).
Proof.
  intros Vx Vy Nx Ny. pose proof top_positive as Ht.
  destruct x as [sx | sx | | sx mx ex], y as [sy | sy | | sy my ey];
    try congruence; simpl in Vx, Vy;
    try pose proof (finite_below_top _ _ Vx) as Bx;
    try pose proof (finite_below_top _ _ Vy) as By;
    try solve
      [ unfold rank; repeat match goal with b : bool |- _ => destruct b end;
        cbv [SFsub SFltb SFcompare cond_Zopp negb]; symmetry;
        first [ apply Z.ltb_lt; lia | apply Z.ltb_ge; lia ] ].
  pose proof (bounded_inv _ _ Vx) as (Hex & _).
  pose proof (bounded_inv _ _ Vy) as (Hey & _).
  unfold SFsub.
  set (ez := Z.min ey ex).
  rewrite (shl_align_fst my ey ez), (shl_align_fst mx ex ez) by lia.
  remember (cond_Zopp sy (Zpos my * 2 ^ (ey - ez))
            - cond_Zopp sx (Zpos mx * 2 ^ (ex - ez))) as M eqn:EM.
  assert (0 < 2 ^ (ez + 1074)) as Hp by (apply Z.pow_pos_nonneg; lia).
  assert (M * 2 ^ (ez + 1074)
          = rank (S754_finite sy my ey) - rank (S754_finite sx mx ex)) as HM.
  { rewrite EM. unfold rank. rewrite Z.mul_sub_distr_r, !cond_Zopp_scale.
    rewrite <- !Z.mul_assoc, <- !Z.pow_add_r by lia.
    replace (ey - ez + (ez + 1074)) with (ey + 1074) by lia.
    replace (ex - ez + (ez + 1074)) with (ex + 1074) by lia. reflexivity. }
  clear EM. unfold binary_normalize.
  remember (rank (S754_finite sy my ey)) as ry eqn:Ery.
  remember (rank (S754_finite sx mx ex)) as rx eqn:Erx. clear Ery Erx.
  destruct M as [| p | p].
  - simpl. symmetry. apply Z.ltb_ge. lia.
  - destruct (binary_round_positive false p ez ltac:(lia)) as [(m' & e' & ->) | ->];
      simpl; symmetry; apply Z.ltb_lt; nia.
  - destruct (SFltb (S754_zero false) (binary_round prec emax true p ez)) eqn:E.
    + apply binary_round_sign in E. discriminate E.
    + symmetry. apply Z.ltb_ge. nia.
Qed.

Lemma not_nan_spec (x : float) : not_nan x -> Prim2SF x <> S754_nan.
Proof.
  unfold not_nan, is_nan. rewrite negb_false_iff, FloatAxioms.eqb_spec.
  intros H E. rewrite E in H. discriminate H.
Qed.

Lemma ltb_rank (x y : float) :
  not_nan x -> not_nan y -> (x <? y)%float = (frank x <? frank y).
Proof.
  intros Hx Hy. rewrite ltb_spec. unfold SFltb, frank.
  rewrite compare_rank
    by (first [apply Prim2SF_valid | apply not_nan_spec; assumption]).
  unfold Z.ltb. destruct (rank (Prim2SF x) ?= rank (Prim2SF y)); reflexivity.
Qed.

Lemma leb_rank (x y : float) :
  not_nan x -> not_nan y -> (x <=? y)%float = (frank x <=? frank y).
Proof.
  intros Hx Hy. rewrite leb_spec. unfold SFleb, frank.
  rewrite compare_rank
    by (first [apply Prim2SF_valid | apply not_nan_spec; assumption]).
  unfold Z.leb. destruct (rank (Prim2SF x) ?= rank (Prim2SF y)); reflexivity.
Qed.

(** [0 < y - x] exactly when [x < y]. *)
Lemma sub_positive (x y : float) :
  not_nan x -> not_nan y -> (0 <? y - x)%float = (x <? y)%float.
Proof.
  intros Hx Hy. rewrite (ltb_rank x y Hx Hy).
  rewrite ltb_spec, sub_spec.
  change (Prim2SF 0) with (S754_zero false).
  apply SFsub_sign;
    first [apply Prim2SF_valid | apply not_nan_spec; assumption].
Qed.

End FloatOrder.

(** ** Base64 *)

Module Base64Facts.
Import Base64.

Lemma list_ind3 {A : Type} (P : list A -> Prop) :
  P [] -> (forall a, P [a]) -> (forall a b, P [a; b]) ->
  (forall a b c r, P r -> P (a :: b :: c :: r)) ->
  forall l, P l.
Proof.
  intros H0 H1 H2 H3.
  assert (forall l, P l /\ (forall a, P (a :: l)) /\ (forall a b, P (a :: b :: l)))
    as H.
  { induction l as [|x l [IH0 [IH1 IH2]]].
    - repeat split; auto.
    - repeat split; auto. }
  intros l. apply H.
Qed.

Lemma sextet_of_char_of_sextet (s : sextet) :
  sextet_of_char (char_of_sextet s) = Some s.
Proof.
  destruct s as [[[[[b5 b4] b3] b2] b1] b0].
  destruct b5, b4, b3, b2, b1, b0; reflexivity.
Qed.

Lemma char_of_sextet_not_equals (s : sextet) :
  Ascii.eqb (char_of_sextet s) "="%char = false.
Proof.
  destruct s as [[[[[b5 b4] b3] b2] b1] b0].
  destruct b5, b4, b3, b2, b1, b0; reflexivity.
Qed.

Lemma char_of_sextet_not_whitespace (s : sextet) :
  is_whitespace (char_of_sextet s) = false.
Proof.
  destruct s as [[[[[b5 b4] b3] b2] b1] b0].
  destruct b5, b4, b3, b2, b1, b0; reflexivity.
Qed.

Lemma sextets_of_chars_map (ss : list sextet) :
  sextets_of_chars (map char_of_sextet ss) = Some ss.
Proof.
  induction ss as [|s ss IH]; simpl.
  - reflexivity.
  - rewrite sextet_of_char_of_sextet, IH. reflexivity.
Qed.

Lemma decode_groups (l : list ascii) : decode (groups l) = l.
Proof.
  induction l as [| a | a b | a b c r IH] using list_ind3.
  - reflexivity.
  - destruct a; reflexivity.
  - destruct a, b; reflexivity.
  - destruct a, b, c. simpl. rewrite IH. reflexivity.
Qed.

(** The three shapes of an encoding: full groups, one padding character
    after three sextets, two after two. *)
Lemma groups_padding (l : list ascii) :
  exists k,
    (padding l = [] /\ length (groups l) = 4 * k) \/
    (padding l = ["="%char] /\ length (groups l) = 4 * k + 3) \/
    (padding l = ["="%char; "="%char] /\ length (groups l) = 4 * k + 2).
Proof.
  induction l as [| a | a b | a b c r IH] using list_ind3.
  - exists 0. left. split; reflexivity.
  - exists 0. right. right. destruct a. split; reflexivity.
  - exists 0. right. left. destruct a, b. split; reflexivity.
  - destruct IH as [k IH]. exists (S k).
    change (padding (a :: b :: c :: r)) with (padding r).
    change (groups (a :: b :: c :: r)) with (sextets3 a b c ++ groups r).
    rewrite length_app.
    replace (length (sextets3 a b c)) with 4 by (destruct a, b, c; reflexivity).
    destruct IH as [[-> ->] | [[-> ->] | [-> ->]]];
      [left | right; left | right; right]; split; try reflexivity; lia.
Qed.

Lemma mod4_mul (k r : nat) : r < 4 -> (4 * k + r) mod 4 = r.
Proof.
  intros Hr. rewrite Nat.add_comm, Nat.mul_comm, Nat.Div0.mod_add.
  apply Nat.mod_small. exact Hr.
Qed.

Lemma drop_equals_chars (ss : list sextet) :
  drop_equals (map char_of_sextet ss) = None.
Proof.
  unfold drop_equals. rewrite <- map_rev.
  destruct (rev ss) as [|s r]; simpl.
  - reflexivity.
  - rewrite char_of_sextet_not_equals. reflexivity.
Qed.

Lemma drop_equals_snoc (l : list ascii) :
  drop_equals (l ++ ["="%char]) = Some l.
Proof.
  unfold drop_equals. rewrite rev_app_distr. simpl.
  rewrite rev_involutive. reflexivity.
Qed.

Lemma strip_padding_encode (l : list ascii) :
  strip_padding (encode l) = map char_of_sextet (groups l).
Proof.
  unfold strip_padding, encode.
  destruct (groups_padding l) as [k [[-> _] | [[-> _] | [-> _]]]].
  - rewrite app_nil_r, drop_equals_chars. reflexivity.
  - rewrite drop_equals_snoc, drop_equals_chars. reflexivity.
  - change ["="%char; "="%char] with (["="%char] ++ ["="%char]).
    rewrite app_assoc, drop_equals_snoc, drop_equals_snoc. reflexivity.
Qed.

Lemma length_encode (l : list ascii) : length (encode l) mod 4 = 0.
Proof.
  unfold encode. rewrite length_app, length_map.
  destruct (groups_padding l) as [k [[-> ->] | [[-> ->] | [-> ->]]]]; simpl length.
  - rewrite Nat.add_0_r. replace (4 * k) with (4 * k + 0) by lia.
    apply mod4_mul. lia.
  - replace (4 * k + 3 + 1) with (4 * S k + 0) by lia. apply mod4_mul. lia.
  - replace (4 * k + 2 + 2) with (4 * S k + 0) by lia. apply mod4_mul. lia.
Qed.

Lemma length_groups (l : list ascii) :
  Nat.eqb (length (groups l) mod 4) 1 = false.
Proof.
  destruct (groups_padding l) as [k [[_ ->] | [[_ ->] | [_ ->]]]].
  - replace (4 * k) with (4 * k + 0) by lia. rewrite mod4_mul by lia. reflexivity.
  - rewrite mod4_mul by lia. reflexivity.
  - rewrite mod4_mul by lia. reflexivity.
Qed.

Lemma filter_all {A : Type} (f : A -> bool) (l : list A) :
  (forall x, In x l -> f x = true) -> List.filter f l = l.
Proof.
  induction l as [|x l IH]; simpl; intros H.
  - reflexivity.
  - rewrite (H x) by (left; reflexivity).
    rewrite IH; [reflexivity|]. intros y Hy. apply H. right. exact Hy.
Qed.

Lemma encode_no_whitespace (l : list ascii) :
  List.filter (fun c => negb (is_whitespace c)) (encode l) = encode l.
Proof.
  apply filter_all. intros c Hc. unfold encode in Hc.
  apply in_app_or in Hc. destruct Hc as [Hc | Hc].
  - apply in_map_iff in Hc. destruct Hc as [s [<- _]].
    rewrite char_of_sextet_not_whitespace. reflexivity.
  - destruct (groups_padding l) as [k [[Hp _] | [[Hp _] | [Hp _]]]];
      rewrite Hp in Hc; simpl in Hc; intuition (subst; reflexivity).
Qed.

(** [atob] undoes [btoa]. *)
Lemma atob_btoa (s : string) : atob (btoa s) = inr s.
Proof.
  unfold atob, btoa.
  rewrite list_ascii_of_string_of_list_ascii, encode_no_whitespace.
  rewrite length_encode. change (Nat.eqb 0 0) with true. cbv iota.
  rewrite strip_padding_encode, length_map, length_groups.
  rewrite sextets_of_chars_map, decode_groups.
  rewrite string_of_list_ascii_of_string. reflexivity.
Qed.

End Base64Facts.

(** ** The placeholder cipher *)

Lemma substring_all (s : string) : String.substring 0 (String.length s) s = s.
Proof.
  induction s as [|c s IH]; simpl.
  - reflexivity.
  - rewrite IH. reflexivity.
Qed.

Lemma substring_from_prefix (t : string) : substring_from 4 ("FHE-" ++ t) = t.
Proof.
  unfold substring_from. simpl. rewrite Nat.sub_0_r. apply substring_all.
Qed.

Lemma startsWith_prefix (t : string) : startsWith ("FHE-" ++ t) "FHE-" = true.
Proof.
  unfold startsWith. simpl. destruct t; reflexivity.
Qed.

(** Negating one factor or the other gives the same product: the code
    multiplies [-value] by [0.1], the specification [-0.1] by [value]. *)
Lemma mul_opp_comm (x y : float) : (- x * y = - y * x)%float.
Proof.
  apply Prim2SF_inj. rewrite !mul_spec, !opp_spec.
  destruct (Prim2SF x) as [sx | sx | | sx mx ex],
           (Prim2SF y) as [sy | sy | | sy my ey];
    simpl; try reflexivity;
    try (destruct sx, sy; reflexivity).
  rewrite (Pos.mul_comm my mx), (Z.add_comm ey ex).
  destruct sx, sy; reflexivity.
Qed.

Section CipherFacts.

Context {rt : Runtime}.

Lemma FHEDecryptNumber_FHEEncryptNumber (x : float) :
  FHEDecryptNumber (FHEEncryptNumber x) = inr (parseFloat (Number_toString x)).
Proof.
  unfold FHEDecryptNumber, FHEEncryptNumber.
  rewrite startsWith_prefix.
  rewrite substring_from_prefix, Base64Facts.atob_btoa. reflexivity.
Qed.

(** C2: decrypting an encrypted number gives the number back, for every
    finite [x] whose text reads back as [x] (which the language guarantees of
    [Number.prototype.toString] and [parseFloat] on finite numbers): the
    result is a number [y] with [y == x]. *)
Theorem decrypt_encrypt (x : float) :
  is_finite x = true ->
  PrimFloat.eqb (parseFloat (Number_toString x)) x = true ->
  exists y,
    FHEDecryptNumber (FHEEncryptNumber x) = inr y /\ PrimFloat.eqb y x = true.
Proof.
  intros _ Htext. exists (parseFloat (Number_toString x)).
  split; [apply FHEDecryptNumber_FHEEncryptNumber | exact Htext].
Qed.

(** C3: [FHEComputeGWAS] encrypts [exp(-0.1 * v)] of the decrypted [v] (and
    throws when decrypting throws); it is a function of its argument; and for
    the effect size 10, encrypted, computed on and decrypted, the result is
    [Math.exp(-1)], provided the texts of 10 and of [Math.exp(-1)] read back
    as these numbers.  With the reference engine that result is
    0.36787944117144233 (0x1.78b56362cef38p-2), within 0.000001
    (0x1.0c6f7a0b5ed8dp-20) of 0.367879 (0x1.78b545c78a6dbp-2). *)
Theorem FHEComputeGWAS_spec :
  parseFloat (Number_toString 10) = 10%float ->
  parseFloat (Number_toString (Math_exp (-1))) = Math_exp (-1) ->
  (forall t,
     FHEComputeGWAS t =
     (v ← FHEDecryptNumber t; inr (FHEEncryptNumber (Math_exp (- tenth * v))))) /\
  (forall t1 t2, t1 = t2 -> FHEComputeGWAS t1 = FHEComputeGWAS t2) /\
  (c ← FHEComputeGWAS (FHEEncryptNumber 10); FHEDecryptNumber c)
    = inr (Math_exp (-1)) /\
  exists y,
    (c ← @FHEComputeGWAS Engine.engine (@FHEEncryptNumber Engine.engine 10);
     @FHEDecryptNumber Engine.engine c) = inr y /\
    PrimFloat.eqb y 0x1.78b56362cef38p-2 = true /\
    PrimFloat.ltb (abs (y - 0x1.78b545c78a6dbp-2)) 0x1.0c6f7a0b5ed8dp-20 = true.
Proof.
  intros H10 Hexp. repeat split.
  - intros t. unfold FHEComputeGWAS.
    destruct (FHEDecryptNumber t) as [e | v]; simpl; [reflexivity|].
    rewrite (mul_opp_comm v tenth). reflexivity.
  - intros t1 t2 ->. reflexivity.
  - unfold FHEComputeGWAS.
    rewrite FHEDecryptNumber_FHEEncryptNumber, H10. simpl.
    rewrite FHEDecryptNumber_FHEEncryptNumber.
    change (- (10) * tenth)%float with (-1)%float.
    rewrite Hexp. reflexivity.
  - exists 0x1.78b56362cef38p-2%float. repeat split; vm_compute; reflexivity.
Qed.

End CipherFacts.

Lemma decrypt_encrypt_witness :
  is_finite 10 = true /\
  PrimFloat.eqb (@parseFloat Engine.engine (@Number_toString Engine.engine 10)) 10
    = true /\
  exists y,
    @FHEDecryptNumber Engine.engine (@FHEEncryptNumber Engine.engine 10) = inr y /\
    PrimFloat.eqb y 10 = true.
Proof.
  split; [reflexivity | split; [reflexivity |]].
  apply (@decrypt_encrypt Engine.engine 10); reflexivity.
Defined.

Lemma FHEComputeGWAS_spec_witness :
  @parseFloat Engine.engine (@Number_toString Engine.engine 10) = 10%float /\
  @parseFloat Engine.engine (@Number_toString Engine.engine (@Math_exp Engine.engine (-1)))
    = @Math_exp Engine.engine (-1) /\
  (c ← @FHEComputeGWAS Engine.engine (@FHEEncryptNumber Engine.engine 10);
   @FHEDecryptNumber Engine.engine c) = inr (@Math_exp Engine.engine (-1)).
Proof.
  assert (@parseFloat Engine.engine (@Number_toString Engine.engine 10) = 10%float)
    as H10 by (vm_compute; reflexivity).
  assert (@parseFloat Engine.engine
            (@Number_toString Engine.engine (@Math_exp Engine.engine (-1)))
          = @Math_exp Engine.engine (-1)) as Hexp by (vm_compute; reflexivity).
  split; [exact H10 | split; [exact Hexp |]].
  exact (proj1 (proj2 (proj2 (@FHEComputeGWAS_spec Engine.engine H10 Hexp)))).
Defined.

(** ** Computations that leave the world alone *)

Lemma same_world_refl (a : App) : same_world a a.
Proof. repeat split. Qed.

Lemma same_world_trans (a b c : App) :
  same_world a b -> same_world b c -> same_world a c.
Proof.
  unfold same_world. intros (?&?&?&?&?&?&?) (?&?&?&?&?&?&?).
  repeat split; congruence.
Qed.

Lemma quiet_ret {A : Type} (x : A) : quiet (mret x).
Proof. intros a. apply same_world_refl. Qed.

Lemma quiet_lift {A : Type} (r : exn + A) : quiet (lift r).
Proof. intros a. apply same_world_refl. Qed.

Lemma quiet_bind {A B : Type} (m : M A) (f : A -> M B) :
  quiet m -> (forall x, quiet (f x)) -> quiet (m ≫= f).
Proof.
  intros Hm Hf a. unfold mbind, M_bind. specialize (Hm a).
  destruct (m a) as [a' [e | x]]; simpl in *.
  - exact Hm.
  - eapply same_world_trans; [exact Hm | apply Hf].
Qed.

Lemma quiet_try_catch {A : Type} (m : M A) (h : exn -> M A) :
  quiet m -> (forall e, quiet (h e)) -> quiet (try_catch m h).
Proof.
  intros Hm Hh a. unfold try_catch. specialize (Hm a).
  destruct (m a) as [a' [e | x]]; simpl in *.
  - eapply same_world_trans; [exact Hm | apply Hh].
  - exact Hm.
Qed.

Lemma quiet_getData (key : string) : quiet (getData key).
Proof. intros a. apply same_world_refl. Qed.

Lemma quiet_console_error (msg : string) (e : exn) : quiet (console_error msg e).
Proof. intros a. repeat split. Qed.

Lemma quiet_setRecords (l : list GWASRecord) : quiet (setRecords l).
Proof. intros a. repeat split. Qed.

Create HintDb quiet.

#[local] Hint Resolve quiet_ret quiet_lift quiet_getData quiet_console_error
  quiet_setRecords : quiet.

Ltac quiet :=
  repeat first
    [ apply quiet_bind; [| intros ?]
    | apply quiet_try_catch; [| intros ?]
    | match goal with |- quiet (if ?b then _ else _) => destruct b end
    | solve [auto with quiet] ].

Section LoadFacts.

Context {rt : Runtime}.

Lemma quiet_load_record (acc : list GWASRecord) (key : value) :
  quiet (load_record acc key).
Proof. unfold load_record. quiet. Qed.

Lemma quiet_load_all (keys : list value) (acc : list GWASRecord) :
  quiet (load_all acc keys).
Proof.
  revert acc. induction keys as [|key rest IH]; intros acc; simpl.
  - quiet.
  - apply quiet_bind; [apply quiet_load_record | intros acc'; apply IH].
Qed.

Lemma quiet_load_keys : quiet load_keys.
Proof. unfold load_keys. quiet. Qed.

Lemma quiet_loadRecords : quiet loadRecords.
Proof.
  intros a. unfold loadRecords.
  assert (quiet
    (try_catch
       (if negb (readOnly a) then mret ()
        else if negb (available (contract a)) then mret ()
        else keys ← load_keys; elements ← lift (iterate keys);
             unsorted ← load_all [] elements; sorted ← lift (sort unsorted);
             setRecords sorted)
       (λ e : exn, console_error "Error loading records:" e))) as H.
  { apply quiet_try_catch; [| intros e; quiet].
    destruct (negb (readOnly a)); [quiet|].
    destruct (negb (available (contract a))); [quiet|].
    apply quiet_bind; [apply quiet_load_keys | intros keys].
    apply quiet_bind; [quiet | intros elements].
    apply quiet_bind; [apply quiet_load_all | intros unsorted].
    quiet. }
  apply H.
Qed.

(** [loadRecords] returns: what is thrown inside is caught and logged. *)
Lemma loadRecords_returns (a : App) : (loadRecords a).2 = inr ().
Proof.
  unfold loadRecords, try_catch.
  match goal with |- (match ?m with _ => _ end).2 = _ => destruct m as [a' [e | []]] end;
    reflexivity.
Qed.

End LoadFacts.

(** ** Sorting by timestamp *)

Lemma leb_of_ltb (x y : float) :
  not_nan x -> not_nan y -> (x <? y)%float = true -> (x <=? y)%float = true.
Proof.
  intros Hx Hy. rewrite FloatOrder.ltb_rank, FloatOrder.leb_rank by assumption.
  rewrite Z.ltb_lt, Z.leb_le. lia.
Qed.

Lemma leb_of_not_ltb (x y : float) :
  not_nan x -> not_nan y -> (x <? y)%float = false -> (y <=? x)%float = true.
Proof.
  intros Hx Hy. rewrite FloatOrder.ltb_rank, FloatOrder.leb_rank by assumption.
  rewrite Z.ltb_ge, Z.leb_le. lia.
Qed.

Lemma leb_trans (x y z : float) :
  not_nan x -> not_nan y -> not_nan z ->
  (z <=? y)%float = true -> (y <=? x)%float = true -> (z <=? x)%float = true.
Proof.
  intros Hx Hy Hz. rewrite !FloatOrder.leb_rank by assumption.
  rewrite !Z.leb_le. lia.
Qed.

Section SortFacts.

Context {rt : Runtime}.

Lemma compare_dated (a b : GWASRecord) (x y : float) :
  ToNumber (timestamp a) = inr x -> ToNumber (timestamp b) = inr y ->
  compare_timestamps a b = inr (y - x)%float.
Proof.
  intros Ha Hb. unfold compare_timestamps. rewrite Ha, Hb. reflexivity.
Qed.

Lemma newer_first_trans (a b c : GWASRecord) :
  dated a -> dated b -> dated c ->
  newer_first a b -> newer_first b c -> newer_first a c.
Proof.
  intros (x & Hx & Nx) (y & Hy & Ny) (z & Hz & Nz)
         (x1 & y1 & Hx1 & Hy1 & H1) (y2 & z2 & Hy2 & Hz2 & H2).
  assert (x1 = x) as -> by congruence. assert (y1 = y) as -> by congruence.
  assert (y2 = y) as -> by congruence. assert (z2 = z) as -> by congruence.
  exists x, z. repeat split; try assumption.
  apply (leb_trans x y z); assumption.
Qed.

Lemma sort_insert_dated (a : GWASRecord) (l : list GWASRecord) :
  dated a -> Forall dated l ->
  exists l',
    sort_insert a l = inr l' /\ Permutation (a :: l) l' /\
    (StronglySorted newer_first l -> StronglySorted newer_first l').
Proof.
  intros Ha Hl. induction Hl as [| b r Hb Hr IH]; simpl.
  - exists [a]. split; [reflexivity | split; [reflexivity|]].
    intros _. repeat constructor.
  - destruct Ha as (x & Hx & Nx). destruct Hb as (y & Hy & Ny).
    rewrite (compare_dated a b x y Hx Hy).
    rewrite (FloatOrder.sub_positive x y Nx Ny).
    destruct (x <? y)%float eqn:Hlt.
    + destruct IH as (r' & -> & Hperm & Hsorted).
      exists (b :: r'). split; [reflexivity | split].
      * rewrite perm_swap. apply perm_skip. exact Hperm.
      * intros Hs. apply StronglySorted_inv in Hs. destruct Hs as [Hs Hbr].
        constructor; [apply Hsorted; exact Hs|].
        apply (Permutation_Forall Hperm). constructor; [| exact Hbr].
        exists y, x. repeat split; try assumption.
        apply leb_of_ltb; assumption.
    + exists (a :: b :: r). split; [reflexivity | split; [reflexivity|]].
      intros Hs. constructor; [exact Hs|].
      assert (newer_first a b) as Hab.
      { exists x, y. repeat split; try assumption.
        apply leb_of_not_ltb; assumption. }
      constructor; [exact Hab|].
      apply StronglySorted_inv in Hs. destruct Hs as [_ Hbr].
      rewrite Forall_forall in Hbr, Hr |- *. intros c Hc.
      apply (newer_first_trans a b c);
        [ exists x; split; assumption | exists y; split; assumption
        | apply Hr; exact Hc | exact Hab | apply Hbr; exact Hc ].
Qed.

(** On records whose timestamps are numbers, [sort] returns a permutation
    in descending order of timestamp. *)
Lemma sort_dated (l : list GWASRecord) :
  Forall dated l ->
  exists l',
    sort l = inr l' /\ Permutation l l' /\ StronglySorted newer_first l'.
Proof.
  induction 1 as [| a r Ha Hr IH]; simpl.
  - exists []. split; [reflexivity | split; constructor].
  - destruct IH as (r' & -> & Hperm & Hsorted).
    assert (Forall dated r') as Hr' by (apply (Permutation_Forall Hperm); exact Hr).
    destruct (sort_insert_dated a r' Ha Hr') as (l' & -> & Hperm' & Hsorted').
    exists l'. split; [reflexivity | split].
    + rewrite <- Hperm'. apply perm_skip. exact Hperm.
    + apply Hsorted'. exact Hsorted.
Qed.











End SortFacts.

(** ** What [loadRecords] lists *)

Lemma logged_refl (a : App) : logged a a [].
Proof.
  split; [apply same_world_refl | split; [reflexivity|]].
  rewrite app_nil_r. reflexivity.
Qed.

Lemma logged_trans (a b c : App) (l1 l2 : list (string * exn)) :
  logged a b l1 -> logged b c l2 -> logged a c (l1 ++ l2).
Proof.
  intros (W1 & R1 & C1) (W2 & R2 & C2).
  split; [eapply same_world_trans; eassumption | split].
  - congruence.
  - rewrite C2, C1, app_assoc. reflexivity.
Qed.

Lemma logged_console_error (a : App) (msg : string) (e : exn) :
  logged a (console_error msg e a).1 [(msg, e)].
Proof. repeat split. Qed.

Lemma logged_contract (a a' : App) (l : list (string * exn)) :
  logged a a' l -> contract a' = contract a.
Proof. intros (W & _). apply W. Qed.

Section ListingFacts.

Context {rt : Runtime}.

Lemma load_keys_spec (a : App) :
  exists a',
    load_keys a = (a', inr (stored_keys (contract a)).1) /\
    logged a a' (stored_keys (contract a)).2.
Proof.
  unfold load_keys, stored_keys, try_catch, mbind, M_bind, lift, getData, mret, M_ret.
  destruct (nonempty (contract_getData (contract a) "gwas_record_keys")).
  - destruct (toUtf8String (contract_getData (contract a) "gwas_record_keys"))
      as [e | keysStr]; simpl.
    + eexists. split; [reflexivity | apply logged_console_error].
    + destruct (trim_nonempty keysStr).
      * destruct (JSON_parse keysStr) as [e | keys]; simpl.
        -- eexists. split; [reflexivity | apply logged_console_error].
        -- eexists. split; [reflexivity | apply logged_refl].
      * eexists. split; [reflexivity | apply logged_refl].
  - eexists. split; [reflexivity | apply logged_refl].
Qed.

Lemma load_record_spec (acc : list GWASRecord) (key : value) (k : string) (a : App) :
  ToString key = inr k ->
  exists a',
    load_record acc key a
      = (a', inr (acc ++ option_list (listed (contract a) key))) /\
    logged a a' (complaint (contract a) key).
Proof.
  intros Hk.
  unfold load_record, listed, complaint, document, try_catch, mbind, M_bind, lift,
    getData, mret, M_ret.
  rewrite Hk.
  destruct (nonempty (contract_getData (contract a) ("gwas_record_" +:+ k))).
  - destruct (parse_bytes (contract_getData (contract a) ("gwas_record_" +:+ k)))
      as [e | recordData]; simpl.
    + rewrite app_nil_r. eexists. split; [reflexivity | apply logged_console_error].
    + destruct (record_of key recordData) as [e | r]; simpl.
      * rewrite app_nil_r. eexists. split; [reflexivity | apply logged_console_error].
      * eexists. split; [reflexivity | apply logged_refl].
  - rewrite app_nil_r. eexists. split; [reflexivity | apply logged_refl].
Qed.

Lemma load_all_spec (keys : list value) (acc : list GWASRecord) (a : App) :
  Forall (fun key => exists k, ToString key = inr k) keys ->
  exists a',
    load_all acc keys a = (a', inr (acc ++ omap (listed (contract a)) keys)) /\
    logged a a' (flat_map (complaint (contract a)) keys).
Proof.
  intros Hkeys. revert acc a.
  induction Hkeys as [| key rest [k Hk] _ IH]; intros acc a; simpl.
  - rewrite app_nil_r. exists a. split; [reflexivity | apply logged_refl].
  - unfold mbind, M_bind.
    destruct (load_record_spec acc key k a Hk) as (a1 & -> & H1).
    destruct (IH (acc ++ option_list (listed (contract a) key)) a1) as (a2 & -> & H2).
    rewrite (logged_contract _ _ _ H1) in *.
    exists a2. split.
    + rewrite <- app_assoc. destruct (listed (contract a) key); reflexivity.
    + eapply logged_trans; eassumption.
Qed.

End ListingFacts.

Section ListFacts.

Context {rt : Runtime}.

(** What [loadRecords] sets when the index holds strings and the sort goes
    through. *)
Lemma loadRecords_sorted_run (a : App) (ids : list string)
    (sorted : list GWASRecord) :
  readOnly a = true -> available (contract a) = true ->
  (stored_keys (contract a)).1 = VArr (map VStr ids) ->
  sort (omap (listed (contract a)) (map VStr ids)) = inr sorted ->
  exists a',
    loadRecords a = (a', inr ()) /\ records a' = sorted /\
    console a'
      = console a ++ (stored_keys (contract a)).2
          ++ flat_map (complaint (contract a)) (map VStr ids).
Proof.
  intros Hro Hav Hkeys Hsort.
  unfold loadRecords, try_catch. rewrite Hro, Hav.
  change (negb true) with false. cbv iota beta.
  unfold mbind, M_bind.
  destruct (load_keys_spec a) as (a1 & -> & L1). rewrite Hkeys.
  unfold lift at 1. simpl iterate. cbv iota beta.
  assert (Forall (fun key => exists k, ToString key = inr k) (map VStr ids)) as Hstr.
  { apply Forall_forall. intros key Hin. apply list_elem_of_fmap in Hin.
    destruct Hin as (s & -> & _). exists s. reflexivity. }
  destruct (load_all_spec (map VStr ids) [] a1 Hstr) as (a2 & -> & L2).
  rewrite (logged_contract _ _ _ L1) in *. simpl app.
  unfold lift. rewrite Hsort. cbv iota beta.
  eexists. split; [reflexivity |]. simpl.
  destruct L1 as (_ & _ & C1), L2 as (_ & _ & C2).
  split; [reflexivity |].
  rewrite C2, C1, app_assoc. reflexivity.
Qed.

Lemma loadRecords_sorted (a : App) (ids : list string) (sorted : list GWASRecord) :
  readOnly a = true -> available (contract a) = true ->
  (stored_keys (contract a)).1 = VArr (map VStr ids) ->
  sort (omap (listed (contract a)) (map VStr ids)) = inr sorted ->
  records (loadRecords a).1 = sorted /\
  console (loadRecords a).1
    = console a ++ (stored_keys (contract a)).2
        ++ flat_map (complaint (contract a)) (map VStr ids).
Proof.
  intros Hro Hav Hkeys Hsort.
  destruct (loadRecords_sorted_run a ids sorted Hro Hav Hkeys Hsort)
    as (a' & -> & H).
  exact H.
Qed.




Lemma loadRecords_run (a : App) (ids : list string) :
  readOnly a = true -> available (contract a) = true ->
  (stored_keys (contract a)).1 = VArr (map VStr ids) ->
  Forall dated (omap (listed (contract a)) (map VStr ids)) ->
  exists a',
    loadRecords a = (a', inr ()) /\
    Permutation (omap (listed (contract a)) (map VStr ids)) (records a') /\
    StronglySorted newer_first (records a') /\
    console a'
      = console a ++ (stored_keys (contract a)).2
          ++ flat_map (complaint (contract a)) (map VStr ids).
Proof.
  intros Hro Hav Hkeys Hdated.
  unfold loadRecords, try_catch. rewrite Hro, Hav.
  change (negb true) with false. cbv iota beta.
  unfold mbind, M_bind.
  destruct (load_keys_spec a) as (a1 & -> & L1). rewrite Hkeys.
  unfold lift at 1. simpl iterate. cbv iota beta.
  assert (Forall (fun key => exists k, ToString key = inr k) (map VStr ids)) as Hstr.
  { apply Forall_forall. intros key Hin. apply list_elem_of_fmap in Hin.
    destruct Hin as (s & -> & _). exists s. reflexivity. }
  destruct (load_all_spec (map VStr ids) [] a1 Hstr) as (a2 & -> & L2).
  rewrite (logged_contract _ _ _ L1) in *. simpl app.
  destruct (sort_dated _ Hdated) as (sorted & Hsort & Hperm & Hsorted).
  unfold lift. rewrite Hsort. cbv iota beta.
  eexists. split; [reflexivity|]. simpl.
  destruct L1 as (_ & _ & C1), L2 as (_ & _ & C2).
  split; [exact Hperm | split; [exact Hsorted|]].
  rewrite C2, C1, app_assoc. reflexivity.
Qed.





End ListFacts.

Lemma loadRecords_example :
  map timestamp
      (records (@loadRecords Engine.engine (connected "0xA1" three_records)).1)
    = [VNum 300; VNum 200; VNum 100] /\
  map id (records (@loadRecords Engine.engine (connected "0xA1" three_records)).1)
    = [VStr "b"; VStr "c"; VStr "a"].
Proof. split; vm_compute; reflexivity. Qed.



(** The index names two ids, both documents decode, and the timestamp of the
    second is the object [{"toString": 1}]: nothing is listed, and the error
    of the comparator is on the console. *)
Lemma loadRecords_bad_timestamp :
  let a := connected "0xA1" unconvertible in
  (@stored_keys (contract a)).1 = VArr [VStr "a"; VStr "b"] /\
  map id (omap (@listed Engine.engine (contract a)) [VStr "a"; VStr "b"])
    = [VStr "a"; VStr "b"] /\
  (@loadRecords Engine.engine a).2 = inr () /\
  records (@loadRecords Engine.engine a).1 = [] /\
  console (@loadRecords Engine.engine a).1
    = [("Error loading records:", TypeError)].
Proof. vm_compute. repeat split. Qed.

(** ** Decoding a record and the index *)

Lemma record_of_fields (key recordData : value) (r : GWASRecord) :
  record_of key recordData = inr r ->
  exists data timestamp institution phenotype status snpCount,
    get recordData "data" = inr data /\
    get recordData "timestamp" = inr timestamp /\
    get recordData "institution" = inr institution /\
    get recordData "phenotype" = inr phenotype /\
    get recordData "status" = inr status /\
    get recordData "snpCount" = inr snpCount /\
    r = {| id := key; encryptedData := data; timestamp := timestamp;
           institution := institution; phenotype := phenotype;
           status := js_or status (VStr "pending");
           snpCount := js_or snpCount (VNum 0) |}.
Proof.
  unfold record_of, mbind, result_bind.
  destruct (get recordData "data") as [e | data]; [discriminate|].
  destruct (get recordData "timestamp") as [e | timestamp]; [discriminate|].
  destruct (get recordData "institution") as [e | institution]; [discriminate|].
  destruct (get recordData "phenotype") as [e | phenotype]; [discriminate|].
  destruct (get recordData "status") as [e | status]; [discriminate|].
  destruct (get recordData "snpCount") as [e | snpCount]; [discriminate|].
  intros [= <-]. repeat eexists.
Qed.

Lemma stored_keys_fallback (c : Contract) (e : exn) :
  parse_bytes (contract_getData c "gwas_record_keys") = inl e ->
  (stored_keys c).1 = VArr [].
Proof.
  unfold stored_keys, parse_bytes, mbind, result_bind.
  destruct (nonempty (contract_getData c "gwas_record_keys")); [| reflexivity].
  destruct (toUtf8String (contract_getData c "gwas_record_keys")) as [e' | t];
    [reflexivity|].
  destruct (trim_nonempty t); [| reflexivity].
  intros ->. reflexivity.
Qed.

(** C8, as the code has it: in the record decoded from a document, a status
    that is missing, or present and falsy, becomes ["pending"], and any other
    status, known or not, is kept as it is; a missing [snpCount] becomes 0.
    An index that is absent or empty, and one that does not parse, give no
    keys, and the listing goes on: it returns, with no record. *)
Theorem decode_defaults (key recordData : value) (r : GWASRecord) :
  record_of key recordData = inr r ->
  (forall ps, recordData = VObj ps -> lookup_prop "status" ps = None ->
              status r = VStr "pending") /\
  (forall s, get recordData "status" = inr s ->
             status r = if truthy s then s else VStr "pending") /\
  (forall ps, recordData = VObj ps -> lookup_prop "snpCount" ps = None ->
              snpCount r = VNum 0) /\
  (forall c, nonempty (contract_getData c "gwas_record_keys") = false ->
             stored_keys c = (VArr [], [])) /\
  (forall c e, parse_bytes (contract_getData c "gwas_record_keys") = inl e ->
               (stored_keys c).1 = VArr []) /\
  (forall (rt : Runtime) a,
     readOnly a = true -> available (contract a) = true ->
     (stored_keys (contract a)).1 = VArr [] ->
     (loadRecords a).2 = inr () /\ records (loadRecords a).1 = []).
Proof.
  intros Hr. apply record_of_fields in Hr.
  destruct Hr as (data & ts & inst & ph & st & snp & _ & _ & _ & _ & Hst & Hsnp & ->).
  simpl status. simpl snpCount.
  split; [| split; [| split; [| split; [| split]]]].
  - intros ps -> Hnone. simpl in Hst. rewrite Hnone in Hst.
    injection Hst as <-. reflexivity.
  - intros s Hs. rewrite Hs in Hst. injection Hst as <-. reflexivity.
  - intros ps -> Hnone. simpl in Hsnp. rewrite Hnone in Hsnp.
    injection Hsnp as <-. reflexivity.
  - intros c Hc. unfold stored_keys. rewrite Hc. reflexivity.
  - intros c e. apply stored_keys_fallback.
  - intros rt a Hro Hav Hkeys. split; [apply loadRecords_returns |].
    destruct (loadRecords_run a [] Hro Hav Hkeys ltac:(constructor))
      as (a' & -> & Hp & _).
    simpl in Hp. apply Permutation_nil in Hp. exact Hp.
Qed.

Lemma decode_defaults_witness :
  let recordData := VObj [("data", VStr "FHE-MTA="); ("timestamp", VNum 100)] in
  exists r,
    record_of (VStr "a") recordData = inr r /\
    status r = VStr "pending" /\ snpCount r = VNum 0.
Proof.
  intros recordData.
  exists {| id := VStr "a"; encryptedData := VStr "FHE-MTA="; timestamp := VNum 100;
            institution := VUndefined; phenotype := VUndefined;
            status := VStr "pending"; snpCount := VNum 0 |}.
  pose proof (decode_defaults (VStr "a") recordData _ eq_refl) as (H1 & _ & H2 & _).
  split; [reflexivity | split].
  - exact (H1 _ eq_refl eq_refl).
  - exact (H2 _ eq_refl eq_refl).
Defined.

(** A document whose status is ["archived"], which is none of the three the
    application knows: the record keeps it. *)
Lemma unknown_status_kept :
  (recordData ← parse_bytes (document_of "FHE-MTA=" 100 "0xA1" "height" "archived" 5);
   r ← record_of (VStr "a") recordData;
   inr (status r)) = inr (VStr "archived").
Proof. reflexivity. Qed.

(** ** [uploadGWASData] *)

Lemma loadRecords_frame {rt : Runtime} (a : App) :
  loadRecords a = ((loadRecords a).1, inr ()) /\ same_world a (loadRecords a).1.
Proof.
  split; [| apply quiet_loadRecords].
  pose proof (loadRecords_returns a) as H.
  destruct (loadRecords a) as [a' r]. simpl in *. rewrite H. reflexivity.
Qed.

Section UploadFacts.

Context {rt : Runtime}.

(** A successful upload: the document is written, then the index, read
    after that write, is written back with the new id at its end. *)
Lemma uploadGWASData_run (newRecordData : NewRecordData) (env : Readings)
    (a : App) (keys' : value) :
  isConnected a = true -> withSigner a = true ->
  let c1 :=
    contract_setData (contract a) ("gwas_record_" ++ fresh_id env)
      (toUtf8Bytes (JSON_stringify (new_record a newRecordData env))) in
  push (upload_keys c1).1 (VStr (fresh_id env)) = inr keys' ->
  let a' := (uploadGWASData newRecordData env a).1 in
  (uploadGWASData newRecordData env a).2 = inr () /\
  contract a'
    = contract_setData c1 "gwas_record_keys" (toUtf8Bytes (JSON_stringify keys')) /\
  tx_status (transactionStatus a') = tx_success /\
  alerts a' = alerts a.
Proof.
  intros Hconn Hsigner c1 Hpush a'. subst a'.
  unfold uploadGWASData. rewrite Hconn, Hsigner.
  change (negb true) with false. cbv iota.
  unfold upload_keys in Hpush. fold c1.
  unfold mbind, M_bind, try_catch, setTransactionStatus, setData, getData, lift,
    mret, M_ret, console_error.
  cbn [contract address isConnected readOnly withSigner records transactionStatus
       console alerts].
  fold c1.
  destruct (nonempty (contract_getData c1 "gwas_record_keys")).
  - destruct (parse_bytes (contract_getData c1 "gwas_record_keys")) as [e | keys];
      cbn [fst] in Hpush; rewrite Hpush;
      match goal with |- context [loadRecords ?s] =>
        destruct (loadRecords_frame s) as [-> (_ & _ & -> & _ & _ & -> & ->)]
      end; repeat split.
  - cbn [fst] in Hpush. rewrite Hpush.
    match goal with |- context [loadRecords ?s] =>
      destruct (loadRecords_frame s) as [-> (_ & _ & -> & _ & _ & -> & ->)]
    end; repeat split.
Qed.

(** The key of a new document is not the key of the index. *)
Lemma fresh_key_not_index (env : Readings) :
  ("gwas_record_" ++ fresh_id env)%string <> "gwas_record_keys".
Proof. unfold fresh_id. simpl. discriminate. Qed.

Lemma getData_other (c : Contract) (k k' : string) (b : bytes) :
  k <> k' -> contract_getData (contract_setData c k b) k' = contract_getData c k'.
Proof.
  intros Hk. unfold contract_getData, contract_setData. simpl.
  rewrite lookup_insert_ne by exact Hk. reflexivity.
Qed.

Lemma getData_same (c : Contract) (k : string) (b : bytes) :
  contract_getData (contract_setData c k b) k = b.
Proof.
  unfold contract_getData, contract_setData. simpl.
  rewrite lookup_insert_eq. reflexivity.
Qed.

Lemma new_record_read_back (a : App) (newRecordData : NewRecordData)
    (env : Readings) (key : value) :
  exists r,
    (recordData ← parse_bytes
        (toUtf8Bytes (JSON_stringify (new_record a newRecordData env)));
     record_of key recordData) = inr r /\
    status r = VStr "pending" /\
    encryptedData r = VStr (FHEEncryptNumber (effectSize newRecordData)) /\
    timestamp r = jsonify (VNum (Math_floor (Date_now_timestamp env / 1000)%float)).
Proof.
  unfold new_record, address_value.
  destruct (address a) as [who |]; eexists; (split; [reflexivity|]); repeat split.
Qed.

(** C5: for a connected wallet with a signer, and an index that holds a list
    [old] of ids (the empty list when no index is stored yet),
    [uploadGWASData] builds a record with the status ["pending"], the
    timestamp [Math.floor(Date.now() / 1000)] and the data
    [FHEEncryptNumber(effectSize)], which decrypts to the number that the text
    of [effectSize] denotes; it writes the document under
    ["gwas_record_" + id], then reads the index under ["gwas_record_keys"] and
    writes it back with the id at its end.  The document read back has the
    same status and data. *)
Theorem uploadGWASData_creates (newRecordData : NewRecordData) (env : Readings)
    (a : App) (old : list value) :
  isConnected a = true -> withSigner a = true ->
  let recordId := fresh_id env in
  let recordData := new_record a newRecordData env in
  let document := toUtf8Bytes (JSON_stringify recordData) in
  let c1 := contract_setData (contract a) ("gwas_record_" ++ recordId) document in
  (upload_keys c1).1 = VArr old ->
  let a' := (uploadGWASData newRecordData env a).1 in
  (uploadGWASData newRecordData env a).2 = inr () /\
  get recordData "status" = inr (VStr "pending") /\
  get recordData "timestamp"
    = inr (VNum (Math_floor (Date_now_timestamp env / 1000)%float)) /\
  get recordData "data" = inr (VStr (FHEEncryptNumber (effectSize newRecordData))) /\
  FHEDecryptNumber (FHEEncryptNumber (effectSize newRecordData))
    = inr (parseFloat (Number_toString (effectSize newRecordData))) /\
  contract a'
    = contract_setData c1 "gwas_record_keys"
        (toUtf8Bytes (JSON_stringify (VArr (old ++ [VStr recordId])))) /\
  contract_getData (contract a') ("gwas_record_" ++ recordId) = document /\
  (exists r,
     (recordData ← parse_bytes
         (contract_getData (contract a') ("gwas_record_" ++ recordId));
      record_of (VStr recordId) recordData) = inr r /\
     status r = VStr "pending" /\
     encryptedData r = VStr (FHEEncryptNumber (effectSize newRecordData)) /\
     timestamp r = jsonify (VNum (Math_floor (Date_now_timestamp env / 1000)%float))) /\
  (nonempty (contract_getData (contract a) "gwas_record_keys") = false -> old = []).
Proof.
  intros Hconn Hsigner recordId recordData document c1 Hold a'.
  assert (push (upload_keys c1).1 (VStr recordId)
          = inr (VArr (old ++ [VStr recordId]))) as Hpush
    by (rewrite Hold; reflexivity).
  destruct (uploadGWASData_run newRecordData env a _ Hconn Hsigner Hpush)
    as (Hret & Hcontract & _).
  fold c1 a' in Hcontract.
  assert (contract_getData (contract a') ("gwas_record_" ++ recordId) = document)
    as Hdoc.
  { rewrite Hcontract, getData_other
      by (intros E; symmetry in E; exact (fresh_key_not_index env E)).
    apply getData_same. }
  split; [exact Hret|].
  split; [reflexivity|]. split; [reflexivity|]. split; [reflexivity|].
  split; [apply FHEDecryptNumber_FHEEncryptNumber|].
  split; [exact Hcontract|]. split; [exact Hdoc|].
  split; [rewrite Hdoc; apply new_record_read_back|].
  intros Hempty. unfold upload_keys in Hold.
  unfold c1 in Hold. rewrite getData_other in Hold by apply fresh_key_not_index.
  rewrite Hempty in Hold. injection Hold as <-. reflexivity.
Qed.

End UploadFacts.

(** ** [processGWAS] *)

Section ProcessFacts.

Context {rt : Runtime}.

(** No document: the error is [Record not found] and nothing else
    happens. *)
Lemma processGWAS_not_found (recordId : value) (key : string) (a : App) :
  isConnected a = true -> readOnly a = true -> ToString recordId = inr key ->
  nonempty (contract_getData (contract a) ("gwas_record_" ++ key)) = false ->
  let a' := (processGWAS recordId a).1 in
  (processGWAS recordId a).2 = inr () /\
  transactionStatus a'
    = {| tx_visible := true; tx_status := tx_error;
         tx_message := Literal "Processing failed: Record not found" |} /\
  contract a' = contract a /\ records a' = records a /\ console a' = console a.
Proof.
  intros Hconn Hro Hkey Hempty a'. subst a'.
  unfold processGWAS. rewrite Hconn, Hro, Hkey.
  change (negb true) with false. cbv iota.
  unfold mbind, M_bind, try_catch, setTransactionStatus, setData, getData, lift,
    mret, M_ret, throw.
  cbn [contract address isConnected readOnly withSigner records transactionStatus
       console alerts].
  rewrite Hempty. cbv iota beta. repeat split.
Qed.

(** A document with a string under [data] that [FHEComputeGWAS] accepts: it
    is rewritten under its key, whoever the caller is and whatever its
    status. *)
Lemma processGWAS_run (recordId : value) (key : string) (a : App)
    (recordData data : value) (processedData : string) :
  isConnected a = true -> readOnly a = true -> withSigner a = true ->
  ToString recordId = inr key ->
  nonempty (contract_getData (contract a) ("gwas_record_" ++ key)) = true ->
  parse_bytes (contract_getData (contract a) ("gwas_record_" ++ key))
    = inr recordData ->
  get recordData "data" = inr data ->
  call_FHEComputeGWAS data = inr processedData ->
  let a' := (processGWAS recordId a).1 in
  (processGWAS recordId a).2 = inr () /\
  contract a'
    = contract_setData (contract a) ("gwas_record_" ++ key)
        (toUtf8Bytes (JSON_stringify (updated_record recordData processedData))) /\
  tx_status (transactionStatus a') = tx_success /\
  alerts a' = alerts a.
Proof.
  intros Hconn Hro Hsigner Hkey Hfull Hparse Hdata Hcompute a'. subst a'.
  unfold processGWAS. rewrite Hconn, Hro, Hsigner, Hkey.
  change (negb true) with false. cbv iota.
  unfold mbind, M_bind, try_catch, setTransactionStatus, setData, getData, lift,
    mret, M_ret, throw.
  cbn [contract address isConnected readOnly withSigner records transactionStatus
       console alerts].
  rewrite Hfull, Hparse, Hdata, Hcompute. cbv iota beta.
  match goal with |- context [loadRecords ?s] =>
    destruct (loadRecords_frame s) as [-> (_ & _ & -> & _ & _ & -> & ->)]
  end.
  repeat split.
Qed.

(** Once the wallet is connected, [processGWAS] ends on an error or on a
    success, and an error leaves the contract as it was. *)
Lemma processGWAS_error (recordId : value) (a : App) :
  isConnected a = true ->
  let a' := (processGWAS recordId a).1 in
  (tx_status (transactionStatus a') = tx_error /\ contract a' = contract a) \/
  tx_status (transactionStatus a') = tx_success.
Proof.
  intros Hconn a'. subst a'.
  unfold processGWAS. rewrite Hconn.
  change (negb true) with false. cbv iota.
  unfold mbind, M_bind, try_catch, setTransactionStatus, setData, getData, lift,
    mret, M_ret, throw.
  cbn [contract address isConnected readOnly withSigner records transactionStatus
       console alerts].
  destruct (readOnly a); [| left; split; reflexivity].
  destruct (ToString recordId) as [e | key]; [left; split; reflexivity|].
  destruct (nonempty _); [| left; split; reflexivity].
  destruct (parse_bytes _) as [e | recordData]; [left; split; reflexivity|].
  destruct (get recordData "data") as [e | data]; [left; split; reflexivity|].
  destruct (call_FHEComputeGWAS data) as [e | processedData];
    [left; split; reflexivity|].
  destruct (withSigner a); [| left; split; reflexivity].
  right.
  match goal with |- context [loadRecords ?s] =>
    destruct (loadRecords_frame s) as [-> (_ & _ & _ & _ & _ & -> & _)]
  end.
  reflexivity.
Qed.

End ProcessFacts.

(** ** Objects *)

Lemma lookup_set_prop_same (k : string) (v : value) (ps : list (string * value)) :
  lookup_prop k (set_prop k v ps) = Some v.
Proof.
  induction ps as [| [k' v'] r IH]; simpl.
  - rewrite String.eqb_refl. reflexivity.
  - destruct (String.eqb k k') eqn:E; simpl.
    + rewrite String.eqb_refl. reflexivity.
    + rewrite E. exact IH.
Qed.

Lemma lookup_set_prop_other (k k' : string) (v : value) (ps : list (string * value)) :
  k <> k' -> lookup_prop k' (set_prop k v ps) = lookup_prop k' ps.
Proof.
  intros Hk. induction ps as [| [k1 v1] r IH]; simpl.
  - destruct (String.eqb k' k) eqn:E; [| reflexivity].
    apply String.eqb_eq in E. congruence.
  - destruct (String.eqb k k1) eqn:E; simpl.
    + apply String.eqb_eq in E. subst k1.
      destruct (String.eqb k' k) eqn:E'; [| reflexivity].
      apply String.eqb_eq in E'. congruence.
    + rewrite IH. reflexivity.
Qed.

Lemma jsonify_object (ps : list (string * value)) :
  jsonify (VObj ps) = VObj (jsonify_props ps).
Proof. reflexivity. Qed.

Lemma length_jsonify_props (ps : list (string * value)) :
  length (jsonify_props ps) <= length ps.
Proof.
  induction ps as [| [k v] r IH]; simpl; [lia|].
  destruct v; simpl; lia.
Qed.

(** A property of an object in JSON form is in JSON form, and so is the
    rest of the object. *)
Lemma jsonify_props_cons (k : string) (v : value) (r : list (string * value)) :
  jsonify_props ((k, v) :: r) = (k, v) :: r ->
  v <> VUndefined /\ jsonify v = v /\ jsonify_props r = r.
Proof.
  intros H. destruct v;
    try (simpl in H; split; [discriminate|];
         injection H; intros; split; simpl; congruence).
  simpl in H. pose proof (length_jsonify_props r) as Hlen.
  rewrite H in Hlen. simpl in Hlen. lia.
Qed.

(** Defining a string property keeps an object in JSON form. *)
Lemma jsonify_set_prop (k s : string) (ps : list (string * value)) :
  jsonify_props ps = ps ->
  jsonify_props (set_prop k (VStr s) ps) = set_prop k (VStr s) ps.
Proof.
  induction ps as [| [k' v'] r IH]; intros H.
  - reflexivity.
  - apply jsonify_props_cons in H. destruct H as (Hv & Hj & Hr).
    simpl set_prop. destruct (String.eqb k k').
    + simpl. rewrite Hr. reflexivity.
    + destruct v'; try congruence; simpl; simpl in Hj; rewrite ?Hj, (IH Hr);
        reflexivity.
Qed.

(** A string property is still there in the JSON form of an object. *)
Lemma lookup_jsonify_props (k s : string) (ps : list (string * value)) :
  lookup_prop k ps = Some (VStr s) -> lookup_prop k (jsonify_props ps) = Some (VStr s).
Proof.
  induction ps as [| [k' v'] r IH]; simpl; [discriminate|].
  destruct (String.eqb k k') eqn:E.
  - intros [= ->]. simpl. rewrite E. reflexivity.
  - intros H. destruct v'; simpl; rewrite ?E; apply IH; exact H.
Qed.




(** ** Who may process, and what processing changes *)

(** The button is shown to the owner of a pending record, letter case
    aside. *)
Lemma process_button_shown (a : App) (r : GWASRecord) :
  process_button a r = inr true <->
  exists who owner,
    address a = Some who /\ institution r = VStr owner /\
    toLowerCase who = toLowerCase owner /\ status r = VStr "pending".
Proof.
  unfold process_button, isOwner, mbind, result_bind, strict_eq_string.
  split.
  - destruct (institution r) as [| | | | owner | |]; try discriminate.
    destruct (address a) as [who |]; [| discriminate].
    destruct (String.eqb (toLowerCase who) (toLowerCase owner)) eqn:E;
      [| discriminate].
    destruct (status r) as [| | | | s | |]; try discriminate.
    simpl. intros [= Hs]. apply String.eqb_eq in E, Hs. subst s.
    exists who, owner. repeat split; assumption.
  - intros (who & owner & -> & -> & Hlow & ->).
    rewrite Hlow, String.eqb_refl. reflexivity.
Qed.

Section ProcessClaims.

Context {rt : Runtime}.

(** C1, as the code has it: with the wallet connected and the contract at
    hand, [processGWAS] fails with the error [Record not found] when no
    document is stored for the id, and a failure leaves the contract as it
    was.  It compares the caller with nobody: a document whose [data] is a
    string that [FHEComputeGWAS] accepts is processed whoever the caller is,
    and whatever its status, ["processed"] included (the data is then derived
    once more).  The comparison of the caller with the institution, letter
    case aside, is the view's: it shows the button that calls [processGWAS]
    for the pending records of the owner only. *)
Theorem processGWAS_guards (recordId : value) (key : string) (a : App) :
  isConnected a = true -> readOnly a = true -> ToString recordId = inr key ->
  let recordBytes := contract_getData (contract a) ("gwas_record_" ++ key) in
  let a' := (processGWAS recordId a).1 in
  (nonempty recordBytes = false ->
   transactionStatus a'
     = {| tx_visible := true; tx_status := tx_error;
          tx_message := Literal "Processing failed: Record not found" |} /\
   contract a' = contract a) /\
  (tx_status (transactionStatus a') = tx_error -> contract a' = contract a) /\
  (forall recordData data processedData,
     withSigner a = true -> nonempty recordBytes = true ->
     parse_bytes recordBytes = inr recordData ->
     get recordData "data" = inr data ->
     call_FHEComputeGWAS data = inr processedData ->
     tx_status (transactionStatus a') = tx_success /\
     contract a'
       = contract_setData (contract a) ("gwas_record_" ++ key)
           (toUtf8Bytes (JSON_stringify (updated_record recordData processedData)))) /\
  (forall r,
     process_button a r = inr true <->
     exists who owner,
       address a = Some who /\ institution r = VStr owner /\
       toLowerCase who = toLowerCase owner /\ status r = VStr "pending").
Proof.
  intros Hconn Hro Hkey recordBytes a'. split; [| split; [| split]].
  - intros Hempty.
    destruct (processGWAS_not_found recordId key a Hconn Hro Hkey Hempty)
      as (_ & Hstatus & Hcontract & _).
    split; assumption.
  - intros Herror.
    destruct (processGWAS_error recordId a Hconn) as [[_ Hsame] | Hsuccess];
      [exact Hsame |].
    fold a' in Hsuccess. rewrite Herror in Hsuccess. discriminate Hsuccess.
  - intros recordData data processedData Hsigner Hfull Hparse Hdata Hcompute.
    destruct (processGWAS_run recordId key a recordData data processedData
                Hconn Hro Hsigner Hkey Hfull Hparse Hdata Hcompute)
      as (_ & Hcontract & Hstatus & _).
    split; assumption.
  - intros r. apply process_button_shown.
Qed.

End ProcessClaims.

Lemma processGWAS_guards_witness :
  let a := connected "0xA1" dangling in
  isConnected a = true /\ readOnly a = true /\
  @ToString Engine.engine (VStr "a") = inr "a" /\
  nonempty (contract_getData (contract a) "gwas_record_a") = false /\
  transactionStatus (@processGWAS Engine.engine (VStr "a") a).1
    = {| tx_visible := true; tx_status := tx_error;
         tx_message := Literal "Processing failed: Record not found" |} /\
  contract (@processGWAS Engine.engine (VStr "a") a).1 = contract a.
Proof.
  intros a.
  split; [reflexivity | split; [reflexivity | split; [reflexivity |]]].
  split; [reflexivity |].
  exact (proj1 (@processGWAS_guards Engine.engine (VStr "a") "a" a
                  eq_refl eq_refl eq_refl) eq_refl).
Defined.

(** The wallet 0xB2 processes the record ["a"] of the institution 0xA1:
    [isOwner] is false, the status line reports a success and the stored
    document has changed.  It then processes the record ["c"], which is
    already processed, with success again. *)
Lemma processGWAS_by_stranger :
  let a := connected "0xB2" three_records in
  isOwner a (VStr "0xA1") = inr false /\
  contract_getData (contract a) "gwas_record_a"
    = document_of "FHE-MTA=" 100 "0xA1" "height" "pending" 5 /\
  tx_status (transactionStatus (@processGWAS Engine.engine (VStr "a") a).1)
    = tx_success /\
  contract_getData (contract (@processGWAS Engine.engine (VStr "a") a).1)
                   "gwas_record_a"
    = document_of "FHE-MC4zNjc4Nzk0NDExNzE0NDIzMw==" 100 "0xA1" "height"
                  "processed" 5 /\
  tx_status (transactionStatus (@processGWAS Engine.engine (VStr "c") a).1)
    = tx_success.
Proof. vm_compute. repeat split. Qed.

Section ProcessFrame.

Context {rt : Runtime}.



End ProcessFrame.



(** ** Uploading *)

Lemma uploadGWASData_creates_witness :
  let a := connected "0xA1" (contract_of true []) in
  let recordId := "gwas-1700000000000-ab12"%string in
  isConnected a = true /\ withSigner a = true /\
  @fresh_id Engine.engine sample_readings = recordId /\
  (@upload_keys
     (contract_setData (contract a) ("gwas_record_" ++ recordId)
        (toUtf8Bytes
           (JSON_stringify (@new_record Engine.engine a sample_form sample_readings))))).1
    = VArr [] /\
  @FHEDecryptNumber Engine.engine (@FHEEncryptNumber Engine.engine 0) = inr 0%float /\
  contract_getData
    (contract (@uploadGWASData Engine.engine sample_form sample_readings a).1)
    "gwas_record_keys" = index_of [recordId] /\
  contract_getData
    (contract (@uploadGWASData Engine.engine sample_form sample_readings a).1)
    ("gwas_record_" ++ recordId)
    = document_of "FHE-MA==" 1700000000 "0xA1" "height" "pending" 5.
Proof.
  intros a recordId.
  assert (@fresh_id Engine.engine sample_readings = recordId) as Hid
    by (vm_compute; reflexivity).
  pose proof (@uploadGWASData_creates Engine.engine sample_form sample_readings a []
                eq_refl eq_refl) as H.
  cbv zeta in H. rewrite Hid in H.
  specialize (H ltac:(vm_compute; reflexivity)).
  destruct H as (_ & _ & _ & _ & Hdecrypt & Hcontract & Hdocument & _).
  split; [reflexivity | split; [reflexivity | split; [exact Hid |]]].
  split; [vm_compute; reflexivity |].
  split; [etransitivity; [exact Hdecrypt | vm_compute; reflexivity] |].
  split.
  - rewrite Hcontract. apply getData_same.
  - rewrite Hdocument. vm_compute. reflexivity.
Defined.

Section UploadIndex.

Context {rt : Runtime}.

(** C10: when the bytes of the index are there and do not decode,
    [uploadGWASData] goes on with no key, reports a success, and the index it
    writes back holds the new id alone: the ids the bytes stood for are
    gone. *)
Theorem uploadGWASData_garbled_index (newRecordData : NewRecordData)
    (env : Readings) (a : App) (e : exn) :
  isConnected a = true -> withSigner a = true ->
  nonempty (contract_getData (contract a) "gwas_record_keys") = true ->
  parse_bytes (contract_getData (contract a) "gwas_record_keys") = inl e ->
  let a' := (uploadGWASData newRecordData env a).1 in
  contract_getData (contract a') "gwas_record_keys"
    = toUtf8Bytes (JSON_stringify (VArr [VStr (fresh_id env)])) /\
  parse_bytes (contract_getData (contract a') "gwas_record_keys")
    = inr (VArr [VStr (fresh_id env)]) /\
  tx_status (transactionStatus a') = tx_success.
Proof.
  intros Hconn Hsigner Hfull Hparse a'.
  set (c1 := contract_setData (contract a) ("gwas_record_" ++ fresh_id env)
               (toUtf8Bytes (JSON_stringify (new_record a newRecordData env)))).
  assert ((upload_keys c1).1 = VArr []) as Hkeys.
  { unfold upload_keys, c1.
    rewrite getData_other by apply fresh_key_not_index.
    rewrite Hfull, Hparse. reflexivity. }
  assert (push (upload_keys c1).1 (VStr (fresh_id env))
          = inr (VArr [VStr (fresh_id env)])) as Hpush
    by (rewrite Hkeys; reflexivity).
  destruct (uploadGWASData_run newRecordData env a _ Hconn Hsigner Hpush)
    as (_ & Hcontract & Hstatus & _).
  fold a' in Hcontract, Hstatus. rewrite Hcontract, getData_same.
  repeat split. exact Hstatus.
Qed.

End UploadIndex.

Lemma uploadGWASData_garbled_index_witness :
  let a := connected "0xA1" garbled_index in
  isConnected a = true /\ withSigner a = true /\
  nonempty (contract_getData (contract a) "gwas_record_keys") = true /\
  parse_bytes (contract_getData (contract a) "gwas_record_keys") = inl SyntaxError /\
  contract_getData
    (contract (@uploadGWASData Engine.engine sample_form sample_readings a).1)
    "gwas_record_keys"
    = toUtf8Bytes (JSON_stringify (VArr [VStr (@fresh_id Engine.engine sample_readings)])).
Proof.
  intros a.
  split; [reflexivity | split; [reflexivity | split; [reflexivity |]]].
  split; [reflexivity |].
  exact (proj1 (@uploadGWASData_garbled_index Engine.engine sample_form
                  sample_readings a SyntaxError eq_refl eq_refl eq_refl eq_refl)).
Defined.

(** ** A contract that is not available *)

(** [loadRecords] does nothing when [isAvailable()] is false. *)
Lemma loadRecords_unavailable {rt : Runtime} (a : App) :
  available (contract a) = false -> loadRecords a = (a, inr ()).
Proof.
  intros H. unfold loadRecords, try_catch. rewrite H.
  destruct (readOnly a); reflexivity.
Qed.

(** C6 fails on [uploadGWASData] and on [processGWAS], which never ask
    [isAvailable()]: on a contract that reports it is not available, an
    upload writes the document and the index and reports a success, and a
    call of [processGWAS] for an id without document reports an error. *)
Lemma writes_ignore_isAvailable :
  let a := connected "0xA1" unavailable in
  available (contract a) = false /\
  @loadRecords Engine.engine a = (a, inr ()) /\
  storage (contract a) = ∅ /\
  contract_getData
    (contract (@uploadGWASData Engine.engine sample_form sample_readings a).1)
    "gwas_record_keys" = index_of ["gwas-1700000000000-ab12"] /\
  contract_getData
    (contract (@uploadGWASData Engine.engine sample_form sample_readings a).1)
    "gwas_record_gwas-1700000000000-ab12"
    = document_of "FHE-MA==" 1700000000 "0xA1" "height" "pending" 5 /\
  tx_status
    (transactionStatus
       (@uploadGWASData Engine.engine sample_form sample_readings a).1)
    = tx_success /\
  transactionStatus (@processGWAS Engine.engine (VStr "a") a).1
    = {| tx_visible := true; tx_status := tx_error;
         tx_message := Literal "Processing failed: Record not found" |}.
Proof. vm_compute. repeat split. Qed.

(** ** No record has the status ["error"] *)


















Section Soundness.

Context {rt : Runtime}.







End Soundness.

Section Invariance.

Context {rt : Runtime}.







End Invariance.


(** * The rest of the component *)

(** The state after one upload on an empty contract. *)
Lemma uploaded_reachable :
  @reachable Engine.engine uploaded.
Proof.
  apply (@reachable_step Engine.engine (connected "0xA1" (contract_of true []))).
  - apply reachable_initial; reflexivity.
  - apply step_uploadGWASData.
Qed.

(** ** The cipher keeps no secret *)

Lemma btoa_injective (s t : string) : Base64.btoa s = Base64.btoa t -> s = t.
Proof.
  intros H. apply (f_equal Base64.atob) in H.
  rewrite !Base64Facts.atob_btoa in H. injection H as H. exact H.
Qed.

Section CipherText.

Context {rt : Runtime}.

(** A ciphertext carries the prefix, what follows the prefix is the text of the
    number in base64, which [atob] reads with no key, and two numbers have the
    same ciphertext exactly when they have the same text. *)
Theorem ciphertext_is_readable (x y : float) :
  startsWith (FHEEncryptNumber x) "FHE-" = true /\
  Base64.atob (substring_from 4 (FHEEncryptNumber x)) = inr (Number_toString x) /\
  (FHEEncryptNumber x = FHEEncryptNumber y <-> Number_toString x = Number_toString y).
Proof.
  unfold FHEEncryptNumber. split; [apply startsWith_prefix | split].
  - rewrite substring_from_prefix. apply Base64Facts.atob_btoa.
  - split.
    + intros H. injection H as H. apply btoa_injective, H.
    + intros ->. reflexivity.
Qed.

End CipherText.

(** ** The counters *)


Section Counters.

Context {rt : Runtime}.


End Counters.


(** ** The records shown *)

Lemma includes_empty (s : string) : includes s "" = true.
Proof. unfold includes. destruct s; reflexivity. Qed.

(** Without a search term a record with a phenotype matches by its tab. *)
Lemma matches_no_search (activeTab p : string) (r : GWASRecord) :
  phenotype r = VStr p ->
  matches "" activeTab r
    = inr (String.eqb activeTab "all" || strict_eq_string (status r) activeTab).
Proof.
  intros Hp. unfold matches. rewrite Hp. simpl call_toLowerCase.
  unfold mbind, result_bind.
  change (toLowerCase "") with "". rewrite includes_empty. reflexivity.
Qed.

Lemma Array_filter_pure (f : GWASRecord -> exn + bool) (g : GWASRecord -> bool)
    (l : list GWASRecord) :
  Forall (fun r => f r = inr (g r)) l -> Array_filter f l = inr (List.filter g l).
Proof.
  induction 1 as [| r l Hr _ IH]; simpl; [reflexivity |].
  rewrite Hr, IH. destruct (g r); reflexivity.
Qed.

Lemma filter_true {A : Type} (l : list A) : List.filter (fun _ => true) l = l.
Proof. induction l as [| x l IH]; simpl; [| rewrite IH]; reflexivity. Qed.

Lemma matches_throws (searchTerm activeTab : string) (r : GWASRecord) (e : exn) :
  matches searchTerm activeTab r = inl e -> e = TypeError.
Proof.
  unfold matches, mbind, result_bind, call_toLowerCase.
  destruct (phenotype r); try (intros [= <-]; reflexivity).
  destruct (includes _ _); [discriminate |].
  destruct (institution r); intros [= <-]; reflexivity.
Qed.

Lemma matches_tab (searchTerm activeTab : string) (r : GWASRecord) :
  matches searchTerm activeTab r = inr true ->
  activeTab = "all" \/ status r = VStr activeTab.
Proof.
  unfold matches, mbind, result_bind.
  destruct (call_toLowerCase (phenotype r)) as [e | p]; [discriminate |].
  destruct (if includes p (toLowerCase searchTerm) then _ else _) as [e | m];
    [discriminate |].
  intros [= H]. apply andb_true_iff in H. destruct H as [_ H].
  apply orb_true_iff in H. destruct H as [H | H].
  - left. apply String.eqb_eq, H.
  - right. unfold strict_eq_string in H.
    destruct (status r); try discriminate.
    apply String.eqb_eq in H. subst. reflexivity.
Qed.

Lemma matches_search (searchTerm activeTab : string) (r : GWASRecord) :
  matches searchTerm activeTab r = inr true ->
  exists s,
    (phenotype r = VStr s \/ institution r = VStr s) /\
    includes (toLowerCase s) (toLowerCase searchTerm) = true.
Proof.
  unfold matches, mbind, result_bind, call_toLowerCase.
  destruct (phenotype r) as [| | | | p | |]; try discriminate.
  destruct (includes (toLowerCase p) (toLowerCase searchTerm)) eqn:Hp.
  - intros _. exists p. split; [left; reflexivity | exact Hp].
  - destruct (institution r) as [| | | | i | |]; try discriminate.
    intros [= H]. apply andb_true_iff in H. destruct H as [H _].
    exists i. split; [right; reflexivity | exact H].
Qed.

Lemma Array_filter_sound (f : GWASRecord -> exn + bool) (l l' : list GWASRecord) :
  Array_filter f l = inr l' ->
  sublist l' l /\ Forall (fun r => f r = inr true) l'.
Proof.
  revert l'. induction l as [| r l IH]; intros l'; simpl.
  - intros [= <-]. split; constructor.
  - destruct (f r) as [e | keep] eqn:Hr; [discriminate |].
    destruct (Array_filter f l) as [e | rest']; [discriminate |].
    destruct (IH rest' eq_refl) as [Hsub Hall].
    destruct keep; intros [= <-].
    + split; [apply sublist_skip, Hsub | constructor; assumption].
    + split; [apply sublist_cons, Hsub | exact Hall].
Qed.

Lemma Array_filter_throws (f : GWASRecord -> exn + bool) (l : list GWASRecord)
    (r : GWASRecord) :
  In r l -> (forall r' e, f r' = inl e -> e = TypeError) ->
  f r = inl TypeError -> Array_filter f l = inl TypeError.
Proof.
  intros Hin Hf Hr. induction l as [| r' l IH]; simpl; [destruct Hin |].
  destruct (f r') as [e | keep] eqn:Hr'.
  - rewrite (Hf r' e Hr'). reflexivity.
  - destruct Hin as [-> | Hin]; [congruence |].
    rewrite (IH Hin). reflexivity.
Qed.

(** Whatever the search term and the tab, the records shown are records of
    the list, in the order of the list; each of them has the search term in
    its phenotype or in its institution, letter case aside, and on a tab other
    than ["all"] each of them has the status of the tab. *)
Theorem filteredRecords_sound (searchTerm activeTab : string) (a : App)
    (shown : list GWASRecord) :
  filteredRecords searchTerm activeTab a = inr shown ->
  sublist shown (records a) /\
  (forall r, In r shown ->
     (exists s, (phenotype r = VStr s \/ institution r = VStr s) /\
                includes (toLowerCase s) (toLowerCase searchTerm) = true) /\
     (activeTab = "all" \/ status r = VStr activeTab)).
Proof.
  intros H. apply Array_filter_sound in H. destruct H as [Hsub Hall].
  split; [exact Hsub |].
  intros r Hin. rewrite Forall_forall in Hall.
  apply list_elem_of_In in Hin. specialize (Hall r Hin).
  split; [eapply matches_search | eapply matches_tab]; exact Hall.
Qed.

(** With no search term only the tab filters. *)
Lemma filteredRecords_no_search (activeTab : string) (a : App) :
  Forall (fun r => exists p, phenotype r = VStr p) (records a) ->
  filteredRecords "" activeTab a
  = inr (List.filter
           (fun r => String.eqb activeTab "all"
                     || strict_eq_string (status r) activeTab)
           (records a)).
Proof.
  intros Hp. apply Array_filter_pure.
  eapply Forall_impl; [exact Hp |].
  intros r [p Hr]. apply (matches_no_search activeTab p r Hr).
Qed.

(** With no search term, and every phenotype a string, the tab ["all"] shows
    the whole list and a tab of a status shows the records the counter of that
    status counts: the tabs ["pending"] and ["processed"] show as many records
    as their labels say. *)
Theorem filteredRecords_counts (a : App) :
  Forall (fun r => exists p, phenotype r = VStr p) (records a) ->
  filteredRecords "" "all" a = inr (records a) /\
  (exists shown,
     filteredRecords "" "pending" a = inr shown /\ length shown = pendingCount a) /\
  (exists shown,
     filteredRecords "" "processed" a = inr shown /\
     length shown = processedCount a).
Proof.
  intros Hp. split; [| split].
  - rewrite (filteredRecords_no_search "all" a Hp). simpl.
    rewrite filter_true. reflexivity.
  - eexists. split; [apply (filteredRecords_no_search "pending" a Hp) |].
    reflexivity.
  - eexists. split; [apply (filteredRecords_no_search "processed" a Hp) |].
    reflexivity.
Qed.

(** A record whose phenotype is not a string makes the filter throw, whatever
    the search term and the tab. *)
Theorem filteredRecords_throws (searchTerm activeTab : string) (a : App)
    (r : GWASRecord) :
  In r (records a) -> (forall p, phenotype r <> VStr p) ->
  filteredRecords searchTerm activeTab a = inl TypeError.
Proof.
  intros Hin Hp. apply (Array_filter_throws _ _ r Hin).
  - intros r' e. apply matches_throws.
  - unfold matches, call_toLowerCase.
    destruct (phenotype r) as [| | | | p | |]; try reflexivity.
    destruct (Hp p eq_refl).
Qed.

Lemma filteredRecords_sound_witness :
  let shown := [ {| id := VStr "a"; encryptedData := VStr "FHE-MTA=";
                    timestamp := VNum 100; institution := VStr "0xA1";
                    phenotype := VStr "height"; status := VStr "pending";
                    snpCount := VNum 5 |} ] in
  filteredRecords "HEI" "pending" three_loaded = inr shown /\
  sublist shown (records three_loaded) /\
  (forall r, In r shown -> "pending" = "all" \/ status r = VStr "pending").
Proof.
  intros shown.
  assert (filteredRecords "HEI" "pending" three_loaded = inr shown) as H
    by (vm_compute; reflexivity).
  destruct (filteredRecords_sound "HEI" "pending" three_loaded shown H)
    as [Hsub Hall].
  split; [exact H | split; [exact Hsub |]].
  intros r Hin. exact (proj2 (Hall r Hin)).
Defined.

Lemma filteredRecords_counts_witness :
  Forall (fun r => exists p, phenotype r = VStr p) (records three_loaded) /\
  filteredRecords "" "all" three_loaded = inr (records three_loaded) /\
  (exists shown,
     filteredRecords "" "pending" three_loaded = inr shown /\
     length shown = pendingCount three_loaded) /\
  pendingCount three_loaded = 2.
Proof.
  assert (Forall (fun r => exists p, phenotype r = VStr p) (records three_loaded))
    as H.
  { replace (records three_loaded)
      with [ {| id := VStr "b"; encryptedData := VStr "FHE-MTA=";
                timestamp := VNum 300; institution := VStr "0xA1";
                phenotype := VStr "weight"; status := VStr "pending";
                snpCount := VNum 7 |};
             {| id := VStr "c"; encryptedData := VStr "FHE-MTA=";
                timestamp := VNum 200; institution := VStr "0xB2";
                phenotype := VStr "asthma"; status := VStr "processed";
                snpCount := VNum 9 |};
             {| id := VStr "a"; encryptedData := VStr "FHE-MTA=";
                timestamp := VNum 100; institution := VStr "0xA1";
                phenotype := VStr "height"; status := VStr "pending";
                snpCount := VNum 5 |} ]
      by (vm_compute; reflexivity).
    repeat constructor; eexists; reflexivity. }
  destruct (filteredRecords_counts three_loaded H) as (Hall & Hpending & _).
  split; [exact H | split; [exact Hall | split; [exact Hpending |]]].
  vm_compute. reflexivity.
Defined.

Lemma filteredRecords_throws_witness :
  let r := {| id := VStr "a"; encryptedData := VUndefined; timestamp := VUndefined;
              institution := VUndefined; phenotype := VUndefined;
              status := VStr "pending"; snpCount := VNum 0 |} in
  records blank_loaded = [r] /\
  filteredRecords "" "all" blank_loaded = inl TypeError.
Proof.
  intros r.
  assert (records blank_loaded = [r]) as Hrecords by (vm_compute; reflexivity).
  split; [exact Hrecords |].
  apply (filteredRecords_throws "" "all" blank_loaded r).
  - rewrite Hrecords. left. reflexivity.
  - discriminate.
Defined.

(** ** Refreshing twice *)

Lemma steady_ret {A : Type} (x : A) : steady (mret x).
Proof. split; [intros a; split |]; reflexivity. Qed.

Lemma steady_lift {A : Type} (r : exn + A) : steady (lift r).
Proof. split; [intros a; split |]; reflexivity. Qed.

Lemma steady_getData (key : string) : steady (getData key).
Proof.
  split; [intros a; split; reflexivity |].
  intros a b H. unfold getData. simpl. rewrite H. reflexivity.
Qed.

Lemma steady_console_error (msg : string) (e : exn) : steady (console_error msg e).
Proof. split; [intros a; split |]; reflexivity. Qed.

Lemma steady_bind {A B : Type} (m : M A) (f : A -> M B) :
  steady m -> (forall x, steady (f x)) -> steady (m ≫= f).
Proof.
  intros [Hm1 Hm2] Hf. unfold mbind, M_bind. split.
  - intros a. destruct (Hm1 a) as [Hc Hr].
    destruct (m a) as [a' [e | x]]; simpl in *; [split; assumption |].
    destruct (Hf x) as [Hf1 _]. destruct (Hf1 a') as [Hc' Hr'].
    split; congruence.
  - intros a b Hab. specialize (Hm2 a b Hab).
    destruct (Hm1 a) as [Hca _], (Hm1 b) as [Hcb _].
    destruct (m a) as [a' [e | x]], (m b) as [b' [e' | y]]; simpl in *;
      try congruence.
    injection Hm2 as <-. destruct (Hf x) as [_ Hf2]. apply Hf2. congruence.
Qed.

Lemma steady_try_catch {A : Type} (m : M A) (h : exn -> M A) :
  steady m -> (forall e, steady (h e)) -> steady (try_catch m h).
Proof.
  intros [Hm1 Hm2] Hh. unfold try_catch. split.
  - intros a. destruct (Hm1 a) as [Hc Hr].
    destruct (m a) as [a' [e | x]]; simpl in *; [| split; assumption].
    destruct (Hh e) as [Hh1 _]. destruct (Hh1 a') as [Hc' Hr'].
    split; congruence.
  - intros a b Hab. specialize (Hm2 a b Hab).
    destruct (Hm1 a) as [Hca _], (Hm1 b) as [Hcb _].
    destruct (m a) as [a' [e | x]], (m b) as [b' [e' | y]]; simpl in *;
      try congruence.
    injection Hm2 as <-. destruct (Hh e) as [_ Hh2]. apply Hh2. congruence.
Qed.

Create HintDb steady.

#[local] Hint Resolve steady_ret steady_lift steady_getData steady_console_error
  : steady.

Ltac steady :=
  repeat first
    [ progress auto with steady
    | apply steady_bind; [| intros ?]
    | apply steady_try_catch; [| intros ?]
    | match goal with |- steady (if ?c then _ else _) => destruct c end ].

Section Refresh.

Context {rt : Runtime}.

Lemma steady_load_record (acc : list GWASRecord) (key : value) :
  steady (load_record acc key).
Proof. unfold load_record. steady. Qed.

Lemma steady_load_all (keys : list value) (acc : list GWASRecord) :
  steady (load_all acc keys).
Proof.
  revert acc. induction keys as [| key rest IH]; intros acc; simpl.
  - apply steady_ret.
  - apply steady_bind; [apply steady_load_record | intros acc'; apply IH].
Qed.

Lemma steady_load_keys : steady load_keys.
Proof. unfold load_keys. steady. Qed.

(** The list [loadRecords] is about to set, or the exception it is about to
    log. *)
Lemma steady_listing :
  steady (keys ← load_keys;
          elements ← lift (iterate keys);
          unsorted ← load_all [] elements;
          lift (sort unsorted)).
Proof.
  apply steady_bind; [apply steady_load_keys | intros keys].
  apply steady_bind; [apply steady_lift | intros elements].
  apply steady_bind; [apply steady_load_all | intros unsorted].
  apply steady_lift.
Qed.

Lemma loadRecords_records (a : App) :
  records (loadRecords a).1
  = if negb (readOnly a) || negb (available (contract a)) then records a
    else match (( keys ← load_keys;
                   elements ← lift (iterate keys);
                   unsorted ← load_all [] elements;
                   lift (sort unsorted)) a).2 with
         | inr sorted => sorted
         | inl _ => records a
         end.
Proof.
  unfold loadRecords, try_catch.
  destruct (readOnly a); [| reflexivity].
  destruct (available (contract a)); [| reflexivity].
  change (negb true) with false. cbv iota. simpl orb. cbv iota.
  destruct steady_listing as [H1 _]. specialize (H1 a). revert H1.
  unfold mbind, M_bind.
  destruct (load_keys a) as [a1 [e | keys]]; simpl; [intros [_ H]; exact H |].
  unfold lift at 1 3.
  destruct (iterate keys) as [e | elements]; simpl; [intros [_ H]; exact H |].
  destruct (load_all [] elements a1) as [a2 [e | unsorted]]; simpl;
    [intros [_ H]; exact H |].
  unfold lift.
  destruct (sort unsorted) as [e | sorted]; simpl; [intros [_ H]; exact H |].
  reflexivity.
Qed.


End Refresh.

(** ** Listing after a write *)

Lemma jsonify_strings (ids : list string) :
  jsonify (VArr (map VStr ids)) = VArr (map VStr ids).
Proof.
  simpl. f_equal. induction ids as [| i r IH]; simpl; [| rewrite IH]; reflexivity.
Qed.

Lemma index_of_snoc (old : list string) (recordId : string) :
  toUtf8Bytes (JSON_stringify (VArr (map VStr old ++ [VStr recordId])))
  = index_of (old ++ [recordId]).
Proof. unfold index_of. rewrite map_app. reflexivity. Qed.

Lemma stored_keys_index_of (c : Contract) (ids : list string) :
  contract_getData c "gwas_record_keys" = index_of ids ->
  stored_keys c = (VArr (map VStr ids), []).
Proof.
  intros H. unfold stored_keys. rewrite H. unfold index_of, JSON_stringify.
  rewrite jsonify_strings. reflexivity.
Qed.

Lemma parse_bytes_nonempty (b : bytes) (v : value) :
  parse_bytes b = inr v -> nonempty b = true.
Proof. destruct b as [[| | |] |]; try discriminate; reflexivity. Qed.

Section AfterWrite.

Context {rt : Runtime}.

(** A successful upload ends with [loadRecords] on the contract it wrote. *)
Lemma uploadGWASData_success (newRecordData : NewRecordData) (env : Readings)
    (a : App) (keys' : value) :
  isConnected a = true -> withSigner a = true ->
  let c1 :=
    contract_setData (contract a) ("gwas_record_" ++ fresh_id env)
      (toUtf8Bytes (JSON_stringify (new_record a newRecordData env))) in
  push (upload_keys c1).1 (VStr (fresh_id env)) = inr keys' ->
  exists s,
    (uploadGWASData newRecordData env a).1 = (loadRecords s).1 /\
    contract s
      = contract_setData c1 "gwas_record_keys" (toUtf8Bytes (JSON_stringify keys')) /\
    readOnly s = readOnly a /\ address s = address a /\
    console s = console a ++ (upload_keys c1).2 /\
    transactionStatus s
      = {| tx_visible := true; tx_status := tx_success;
           tx_message := Literal "Encrypted GWAS data submitted securely!" |} /\
    isConnected s = true /\ withSigner s = true.
Proof.
  intros Hconn Hsigner c1 Hpush.
  unfold uploadGWASData. rewrite Hconn, Hsigner.
  change (negb true) with false. cbv iota.
  unfold upload_keys in *. fold c1.
  unfold mbind, M_bind, try_catch, setTransactionStatus, setData, getData, lift,
    mret, M_ret, console_error.
  cbn [contract address isConnected readOnly withSigner records transactionStatus
       console alerts].
  fold c1.
  destruct (nonempty (contract_getData c1 "gwas_record_keys")).
  - destruct (parse_bytes (contract_getData c1 "gwas_record_keys")) as [e | keys];
      cbn [fst snd] in *; rewrite Hpush;
      match goal with |- context [loadRecords ?s] =>
        exists s; destruct (loadRecords_frame s) as [-> _]
      end; cbn; rewrite ?app_nil_r; repeat split; assumption.
  - cbn [fst snd] in *. rewrite Hpush.
    match goal with |- context [loadRecords ?s] =>
      exists s; destruct (loadRecords_frame s) as [-> _]
    end; cbn; rewrite ?app_nil_r; repeat split; assumption.
Qed.

(** A successful call of [processGWAS] ends with [loadRecords] on the
    contract it wrote. *)
Lemma processGWAS_success (recordId : value) (key : string) (a : App)
    (recordData data : value) (processedData : string) :
  isConnected a = true -> readOnly a = true -> withSigner a = true ->
  ToString recordId = inr key ->
  parse_bytes (contract_getData (contract a) ("gwas_record_" ++ key))
    = inr recordData ->
  get recordData "data" = inr data ->
  call_FHEComputeGWAS data = inr processedData ->
  exists s,
    (processGWAS recordId a).1 = (loadRecords s).1 /\
    contract s
      = contract_setData (contract a) ("gwas_record_" ++ key)
          (toUtf8Bytes (JSON_stringify (updated_record recordData processedData))) /\
    readOnly s = true /\ address s = address a /\ console s = console a /\
    transactionStatus s
      = {| tx_visible := true; tx_status := tx_success;
           tx_message := Literal "FHE GWAS processing completed!" |} /\
    isConnected s = true /\ withSigner s = true.
Proof.
  intros Hconn Hro Hsigner Hkey Hparse Hdata Hcompute.
  pose proof (parse_bytes_nonempty _ _ Hparse) as Hfull.
  unfold processGWAS. rewrite Hconn, Hro, Hsigner, Hkey.
  change (negb true) with false. cbv iota.
  unfold mbind, M_bind, try_catch, setTransactionStatus, setData, getData, lift,
    mret, M_ret, throw.
  cbn [contract address isConnected readOnly withSigner records transactionStatus
       console alerts].
  rewrite Hfull, Hparse, Hdata, Hcompute. cbv iota beta.
  match goal with |- context [loadRecords ?s] =>
    exists s; destruct (loadRecords_frame s) as [-> _]
  end.
  cbn. repeat split; assumption.
Qed.

End AfterWrite.


(** [snpCount || 0] on what [JSON.stringify] leaves of a number. *)
Lemma snpCount_read_back (n : float) :
  js_or (jsonify (VNum n)) (VNum 0)
  = if is_finite n && negb (PrimFloat.eqb n 0) then VNum n else VNum 0.
Proof.
  unfold js_or. simpl jsonify.
  destruct (is_finite n) eqn:Hf; [| reflexivity].
  destruct (PrimFloat.eqb n 0) eqn:Hz; [reflexivity |].
  simpl. rewrite Hz. unfold is_finite in Hf.
  destruct (is_nan n); [discriminate Hf | reflexivity].
Qed.

Section CreateThenList.

Context {rt : Runtime}.

Lemma new_record_decodes (a : App) (newRecordData : NewRecordData)
    (env : Readings) (key : value) :
  exists r,
    (recordData ← parse_bytes
        (toUtf8Bytes (JSON_stringify (new_record a newRecordData env)));
     record_of key recordData) = inr r /\
    id r = key /\ status r = VStr "pending" /\
    encryptedData r = VStr (FHEEncryptNumber (effectSize newRecordData)) /\
    timestamp r = jsonify (VNum (Math_floor (Date_now_timestamp env / 1000)%float)) /\
    phenotype r = VStr (new_phenotype newRecordData) /\
    institution r = address_value a /\
    snpCount r = js_or (jsonify (VNum (new_snpCount newRecordData))) (VNum 0).
Proof.
  unfold new_record, address_value.
  destruct (address a) as [who |]; eexists; (split; [reflexivity|]); repeat split.
Qed.

Lemma listed_document (c : Contract) (recordId : string) (r : GWASRecord) :
  (recordData ← parse_bytes (contract_getData c ("gwas_record_" ++ recordId));
   record_of (VStr recordId) recordData) = inr r ->
  listed c (VStr recordId) = Some r /\ complaint c (VStr recordId) = [].
Proof.
  intros H. unfold listed, complaint, document. simpl ToString. cbv iota.
  destruct (nonempty (contract_getData c ("gwas_record_" +:+ recordId))) eqn:E.
  - rewrite H. split; reflexivity.
  - destruct (contract_getData c ("gwas_record_" +:+ recordId)) as [[| | |] |];
      discriminate.
Qed.


End CreateThenList.


Lemma record_of_object (key : value) (ps : list (string * value)) :
  record_of key (VObj ps)
  = inr {| id := key;
           encryptedData := default VUndefined (lookup_prop "data" ps);
           timestamp := default VUndefined (lookup_prop "timestamp" ps);
           institution := default VUndefined (lookup_prop "institution" ps);
           phenotype := default VUndefined (lookup_prop "phenotype" ps);
           status := js_or (default VUndefined (lookup_prop "status" ps))
                           (VStr "pending");
           snpCount := js_or (default VUndefined (lookup_prop "snpCount" ps))
                             (VNum 0) |}.
Proof. reflexivity. Qed.


Lemma document_key_injective (k k' : string) :
  ("gwas_record_" ++ k)%string = ("gwas_record_" ++ k')%string -> k = k'.
Proof. intros [= H]. exact H. Qed.

Section ProcessThenList.

Context {rt : Runtime}.


End ProcessThenList.


(** ** Decrypting *)

Section DecryptFacts.

Context {rt : Runtime}.

Lemma decryptWithSignature_run (p : SignatureParams)
    (signMessageAsync : string -> exn + string) (encryptedData : value) (a : App) :
  decryptWithSignature p signMessageAsync encryptedData a
  = if negb (isConnected a) then
      ((alert "Please connect wallet first" a).1, inr None)
    else
      match signMessageAsync (message p) with
      | inl e => ((console_error "Decryption failed:" e a).1, inr None)
      | inr _ =>
          match call_FHEDecryptNumber encryptedData with
          | inl e => ((console_error "Decryption failed:" e a).1, inr None)
          | inr x => (a, inr (Some x))
          end
      end.
Proof.
  unfold decryptWithSignature, try_catch, mbind, M_bind, lift, mret, M_ret.
  destruct (isConnected a); [| reflexivity]. simpl negb. cbv iota.
  destruct (signMessageAsync (message p)) as [e | signature];
    [reflexivity |].
  destruct (call_FHEDecryptNumber encryptedData) as [e | x]; reflexivity.
Qed.

(** [decryptWithSignature] always returns, and leaves the contract, the
    records and the status line as they are.  It returns a number exactly
    when the wallet is connected, the wallet signs the message and the data
    decrypt, and the number is then the decryption of the data: neither the
    address of the wallet nor the signature has a part in it.  When the
    wallet refuses to sign, or the data do not decrypt, it returns [null] and
    logs the failure. *)
Theorem decryptWithSignature_spec (p : SignatureParams)
    (signMessageAsync : string -> exn + string) (encryptedData : value) (a : App) :
  let out := decryptWithSignature p signMessageAsync encryptedData a in
  (exists result, out.2 = inr result) /\
  contract out.1 = contract a /\ records out.1 = records a /\
  transactionStatus out.1 = transactionStatus a /\
  (forall x,
     out.2 = inr (Some x) <->
     isConnected a = true /\
     (exists signature, signMessageAsync (message p) = inr signature) /\
     call_FHEDecryptNumber encryptedData = inr x) /\
  (forall x, out.2 = inr (Some x) -> out.1 = a) /\
  (forall e,
     isConnected a = true ->
     signMessageAsync (message p) = inl e \/
     (exists signature, signMessageAsync (message p) = inr signature) /\
     call_FHEDecryptNumber encryptedData = inl e ->
     out.2 = inr None /\ console out.1 = console a ++ [("Decryption failed:", e)]).
Proof.
  intros out. subst out. rewrite decryptWithSignature_run.
  destruct (isConnected a); simpl negb; cbv iota;
    [destruct (signMessageAsync (message p)) as [e | signature];
       [| destruct (call_FHEDecryptNumber encryptedData) as [e | y]] |];
    simpl; (split; [eexists; reflexivity |]);
    (split; [reflexivity |]); (split; [reflexivity |]); (split; [reflexivity |]);
    (split; [intros x; split; [intros H | intros (H1 & [s Hs] & H2)]
            | split; [intros x H | intros e' Hc [H | [[s Hs] H]]]]);
    try discriminate; try discriminate Hc; try (injection H as <-);
    try (injection H2 as <-);
    try reflexivity; try (split; reflexivity).
  split; [reflexivity | split; [exists signature |]; reflexivity].
Qed.

End DecryptFacts.

(** ** From the form to the decrypted value *)

Section EndToEnd.

Context {rt : Runtime}.

Lemma getData_empty (c : Contract) (k : string) :
  storage c = ∅ -> contract_getData c k = no_bytes.
Proof. intros H. unfold contract_getData. rewrite H, lookup_empty. reflexivity. Qed.

Lemma FHEComputeGWAS_FHEEncryptNumber (x : float) :
  FHEComputeGWAS (FHEEncryptNumber x)
  = inr (FHEEncryptNumber
           (Math_exp (- parseFloat (Number_toString x) * tenth)%float)).
Proof.
  unfold FHEComputeGWAS. rewrite FHEDecryptNumber_FHEEncryptNumber. reflexivity.
Qed.

Lemma new_record_object (a : App) (newRecordData : NewRecordData) (env : Readings) :
  exists ps,
    jsonify (new_record a newRecordData env) = VObj ps /\
    lookup_prop "data" ps
      = Some (VStr (FHEEncryptNumber (effectSize newRecordData))).
Proof.
  unfold new_record. rewrite jsonify_object. eexists. split; [reflexivity |].
  apply lookup_jsonify_props. reflexivity.
Qed.

(** On a contract that stores nothing yet: an upload of the effect size [x],
    then [processGWAS] for the new id, leave one record on display, with
    the status ["processed"], and [decryptWithSignature] on its data gives
    the number that the text of [exp(-x' * 0.1)] denotes, where [x'] is the
    number that the text of [x] denotes. *)
Theorem create_process_decrypt (newRecordData : NewRecordData) (env : Readings)
    (p : SignatureParams) (signMessageAsync : string -> exn + string)
    (signature : string) (a : App) :
  storage (contract a) = ∅ -> available (contract a) = true ->
  isConnected a = true -> readOnly a = true -> withSigner a = true ->
  signMessageAsync (message p) = inr signature ->
  let x := parseFloat (Number_toString (effectSize newRecordData)) in
  let a1 := (uploadGWASData newRecordData env a).1 in
  let a2 := (processGWAS (VStr (fresh_id env)) a1).1 in
  exists r,
    records a2 = [r] /\ id r = VStr (fresh_id env) /\
    status r = VStr "processed" /\
    (decryptWithSignature p signMessageAsync (encryptedData r) a2).2
      = inr (Some (parseFloat (Number_toString (Math_exp (- x * tenth)%float)))).
Proof.
  intros Hempty Hav Hconn Hro Hsigner Hsign x a1 a2.
  set (recordId := fresh_id env).
  set (documentKey := ("gwas_record_" ++ recordId)%string).
  set (c1 := contract_setData (contract a) documentKey
               (toUtf8Bytes (JSON_stringify (new_record a newRecordData env)))).
  assert (documentKey <> "gwas_record_keys") as Hne by apply fresh_key_not_index.
  (* the upload *)
  assert (upload_keys c1 = (VArr [], [])) as Hkeys1.
  { unfold upload_keys, c1. rewrite getData_other by exact Hne.
    rewrite (getData_empty _ _ Hempty). reflexivity. }
  assert (push (upload_keys c1).1 (VStr recordId) = inr (VArr [VStr recordId]))
    as Hpush by (rewrite Hkeys1; reflexivity).
  destruct (uploadGWASData_success newRecordData env a _ Hconn Hsigner Hpush)
    as (s1 & Hs1 & Hc1 & Hro1 & _ & _ & _ & Hconn1 & Hsigner1).
  fold recordId documentKey c1 in Hc1. fold a1 in Hs1.
  destruct (quiet_loadRecords s1) as (_ & Hconn1' & Hc1' & Hro1' & Hsigner1' & _).
  rewrite <- Hs1 in Hconn1', Hc1', Hro1', Hsigner1'.
  rewrite Hc1 in Hc1'. rewrite Hconn1 in Hconn1'. rewrite Hsigner1 in Hsigner1'.
  rewrite Hro1, Hro in Hro1'.
  (* the stored document *)
  destruct (new_record_object a newRecordData env) as (ps & Hps & Hdata).
  assert (parse_bytes (contract_getData (contract a1) documentKey) = inr (VObj ps))
    as Hparse.
  { rewrite Hc1', getData_other by congruence. unfold c1. rewrite getData_same.
    unfold JSON_stringify. rewrite Hps. reflexivity. }
  assert (get (VObj ps) "data"
          = inr (VStr (FHEEncryptNumber (effectSize newRecordData)))) as Hget
    by (simpl; rewrite Hdata; reflexivity).
  (* processing it *)
  destruct (processGWAS_success (VStr recordId) recordId a1 (VObj ps) _ _
              Hconn1' Hro1' Hsigner1' eq_refl Hparse Hget
              (FHEComputeGWAS_FHEEncryptNumber _))
    as (s2 & Hs2 & Hc2 & Hro2 & _ & _ & _ & Hconn2 & _).
  fold documentKey x in Hc2. fold a2 in Hs2.
  set (processedData := FHEEncryptNumber (Math_exp (- x * tenth)%float)) in *.
  set (ps' := jsonify_props
                (set_prop "data" (VStr processedData)
                   (set_prop "status" (VStr "processed") ps))).
  assert (contract_getData (contract s2) documentKey = Utf8 (JsonText (VObj ps')))
    as Hdoc by (rewrite Hc2; apply getData_same).
  assert (lookup_prop "status" ps' = Some (VStr "processed")) as Hstatus.
  { apply lookup_jsonify_props. rewrite lookup_set_prop_other by discriminate.
    apply lookup_set_prop_same. }
  assert (lookup_prop "data" ps' = Some (VStr processedData)) as Hdata'.
  { apply lookup_jsonify_props. apply lookup_set_prop_same. }
  pose proof (record_of_object (VStr recordId) ps') as Hr.
  rewrite Hstatus, Hdata' in Hr.
  match type of Hr with _ = inr ?y => set (r := y) in * end.
  assert (listed (contract s2) (VStr recordId) = Some r) as Hlisted.
  { apply listed_document. fold documentKey. rewrite Hdoc. exact Hr. }
  assert ((stored_keys (contract s2)).1 = VArr (map VStr [recordId])) as Hkeys2.
  { rewrite (stored_keys_index_of (contract s2) [recordId]); [reflexivity |].
    rewrite Hc2, getData_other by exact Hne.
    rewrite Hc1'. apply getData_same. }
  assert (available (contract s2) = true) as Hav2.
  { rewrite Hc2, Hc1'. exact Hav. }
  assert (sort (omap (listed (contract s2)) (map VStr [recordId])) = inr [r])
    as Hsort by (simpl; rewrite Hlisted; reflexivity).
  destruct (loadRecords_sorted s2 [recordId] [r] Hro2 Hav2 Hkeys2 Hsort)
    as [Hrecords _].
  rewrite <- Hs2 in Hrecords.
  exists r. split; [exact Hrecords |].
  split; [reflexivity | split; [reflexivity |]].
  rewrite decryptWithSignature_run.
  destruct (quiet_loadRecords s2) as (_ & Hconn2' & _).
  rewrite <- Hs2, Hconn2 in Hconn2'.
  change (isConnected a2 = true) in Hconn2'. rewrite Hconn2', Hsign.
  simpl. unfold processedData. rewrite FHEDecryptNumber_FHEEncryptNumber.
  reflexivity.
Qed.

End EndToEnd.

Lemma create_process_decrypt_witness :
  let a := connected "0xA1" (contract_of true []) in
  let form := {| new_phenotype := "height"; description := "";
                 new_snpCount := 5; effectSize := 10 |} in
  let p := {| publicKey := "0x00"; contractAddress := "0xC0"; chainId := 1;
              startTimestamp := 1700000000; durationDays := 30 |} in
  let a1 := (@uploadGWASData Engine.engine form sample_readings a).1 in
  let a2 := (@processGWAS Engine.engine
               (VStr (@fresh_id Engine.engine sample_readings)) a1).1 in
  storage (contract a) = ∅ /\ available (contract a) = true /\
  isConnected a = true /\ readOnly a = true /\ withSigner a = true /\
  exists r,
    records a2 = [r] /\ status r = VStr "processed" /\
    (@decryptWithSignature Engine.engine p (fun _ => inr "signature")
       (encryptedData r) a2).2
      = inr (Some 0x1.78b56362cef38p-2%float).
Proof.
  intros a form p a1 a2.
  destruct (@create_process_decrypt Engine.engine form sample_readings p
              (fun _ => inr "signature") "signature" a
              eq_refl eq_refl eq_refl eq_refl eq_refl eq_refl)
    as (r & Hrecords & _ & Hstatus & Hdecrypt).
  split; [reflexivity | split; [reflexivity | split; [reflexivity |]]].
  split; [reflexivity | split; [reflexivity |]].
  exists r. split; [exact Hrecords | split; [exact Hstatus |]].
  etransitivity; [exact Hdecrypt | vm_compute; reflexivity].
Defined.

(** ** What an upload writes *)

Section UploadEffect.

Context {rt : Runtime}.

Lemma uploadGWASData_no_signer (newRecordData : NewRecordData) (env : Readings)
    (a : App) :
  isConnected a = true -> withSigner a = false ->
  let a' := (uploadGWASData newRecordData env a).1 in
  (uploadGWASData newRecordData env a).2 = inr () /\
  contract a' = contract a /\
  transactionStatus a'
    = {| tx_visible := true; tx_status := tx_error;
         tx_message :=
           Literal "Submission failed: Failed to get contract with signer" |}.
Proof.
  intros Hconn Hsigner a'. subst a'.
  unfold uploadGWASData. rewrite Hconn, Hsigner. repeat split.
Qed.

Lemma uploadGWASData_no_array (newRecordData : NewRecordData) (env : Readings)
    (a : App) (e : exn) :
  isConnected a = true -> withSigner a = true ->
  let c1 :=
    contract_setData (contract a) ("gwas_record_" ++ fresh_id env)
      (toUtf8Bytes (JSON_stringify (new_record a newRecordData env))) in
  push (upload_keys c1).1 (VStr (fresh_id env)) = inl e ->
  let a' := (uploadGWASData newRecordData env a).1 in
  e = TypeError /\
  (uploadGWASData newRecordData env a).2 = inr () /\
  contract a' = c1 /\
  transactionStatus a'
    = {| tx_visible := true; tx_status := tx_error;
         tx_message := Engine "Submission failed: " TypeError |}.
Proof.
  intros Hconn Hsigner c1 Hpush a'. subst a'.
  assert (e = TypeError) as ->.
  { destruct (upload_keys c1).1; simpl in Hpush; congruence. }
  split; [reflexivity |].
  unfold uploadGWASData. rewrite Hconn, Hsigner.
  change (negb true) with false. cbv iota.
  unfold upload_keys in Hpush. fold c1.
  unfold mbind, M_bind, try_catch, setTransactionStatus, setData, getData, lift,
    mret, M_ret, console_error.
  cbn [contract address isConnected readOnly withSigner records transactionStatus
       console alerts].
  fold c1.
  destruct (nonempty (contract_getData c1 "gwas_record_keys")).
  - destruct (parse_bytes (contract_getData c1 "gwas_record_keys")) as [e | keys];
      cbn [fst] in Hpush; rewrite Hpush; repeat split.
  - cbn [fst] in Hpush. rewrite Hpush. repeat split.
Qed.

(** The ways [uploadGWASData] ends, with the contract it leaves: no wallet
    or no signer, and nothing is written; the index is no array, and the
    document alone is written; or the document and the index are written. *)
Lemma uploadGWASData_effect (newRecordData : NewRecordData) (env : Readings)
    (a : App) :
  let c1 :=
    contract_setData (contract a) ("gwas_record_" ++ fresh_id env)
      (toUtf8Bytes (JSON_stringify (new_record a newRecordData env))) in
  let a' := (uploadGWASData newRecordData env a).1 in
  (uploadGWASData newRecordData env a).2 = inr () /\
  ((isConnected a = false /\ contract a' = contract a /\
    transactionStatus a' = transactionStatus a) \/
   (isConnected a = true /\ withSigner a = false /\ contract a' = contract a /\
    transactionStatus a'
      = {| tx_visible := true; tx_status := tx_error;
           tx_message :=
             Literal "Submission failed: Failed to get contract with signer" |}) \/
   (isConnected a = true /\ withSigner a = true /\
    push (upload_keys c1).1 (VStr (fresh_id env)) = inl TypeError /\
    contract a' = c1 /\
    transactionStatus a'
      = {| tx_visible := true; tx_status := tx_error;
           tx_message := Engine "Submission failed: " TypeError |}) \/
   (isConnected a = true /\ withSigner a = true /\
    exists keys',
      push (upload_keys c1).1 (VStr (fresh_id env)) = inr keys' /\
      contract a'
        = contract_setData c1 "gwas_record_keys"
            (toUtf8Bytes (JSON_stringify keys')) /\
      transactionStatus a'
        = {| tx_visible := true; tx_status := tx_success;
             tx_message := Literal "Encrypted GWAS data submitted securely!" |})).
Proof.
  intros c1 a'.
  destruct (isConnected a) eqn:Hconn;
    [| split; [| left]; subst a'; unfold uploadGWASData; rewrite Hconn;
       repeat split].
  destruct (withSigner a) eqn:Hsigner.
  - destruct (push (upload_keys c1).1 (VStr (fresh_id env))) as [e | keys'] eqn:Hpush.
    + destruct (uploadGWASData_no_array newRecordData env a e Hconn Hsigner Hpush)
        as (-> & Hret & Hc & Hstatus).
      split; [exact Hret | right; right; left]. repeat split; assumption.
    + destruct (uploadGWASData_run newRecordData env a keys' Hconn Hsigner Hpush)
        as (Hret & _).
      destruct (uploadGWASData_success newRecordData env a keys' Hconn Hsigner Hpush)
        as (s & Hs & Hc & _ & _ & _ & Hstatus & _).
      fold a' c1 in Hs, Hc.
      destruct (quiet_loadRecords s) as (_ & _ & Hc' & _ & _ & Hstatus' & _).
      rewrite <- Hs in Hc', Hstatus'. rewrite Hc in Hc'. rewrite Hstatus in Hstatus'.
      split; [exact Hret | right; right; right].
      split; [reflexivity | split; [reflexivity |]].
      exists keys'. split; [reflexivity | split; assumption].
  - destruct (uploadGWASData_no_signer newRecordData env a Hconn Hsigner)
      as (Hret & Hc & Hstatus).
    split; [exact Hret | right; left]. repeat split; assumption.
Qed.

End UploadEffect.

Section UploadFrame.

Context {rt : Runtime}.

(** [uploadGWASData] always returns: what goes wrong ends in the status
    line.  Whatever the form, the contract and the wallet, it writes under two
    keys at most, the key of the new document and the key of the index; what
    the contract stores under any other key is as before. *)
Theorem uploadGWASData_frame (newRecordData : NewRecordData) (env : Readings)
    (a : App) :
  let a' := (uploadGWASData newRecordData env a).1 in
  (uploadGWASData newRecordData env a).2 = inr () /\
  available (contract a') = available (contract a) /\
  (forall k,
     k <> ("gwas_record_" ++ fresh_id env)%string -> k <> "gwas_record_keys" ->
     storage (contract a') !! k = storage (contract a) !! k) /\
  (isConnected a = true ->
   tx_visible (transactionStatus a') = true /\
   (tx_status (transactionStatus a') = tx_success \/
    tx_status (transactionStatus a') = tx_error)).
Proof.
  intros a'.
  destruct (uploadGWASData_effect newRecordData env a) as [Hret Hcases].
  fold a' in Hcases. split; [exact Hret |].
  destruct Hcases
    as [(Hconn & -> & _)
       | [(_ & _ & -> & ->)
         | [(_ & _ & _ & -> & ->) | (Hconn & Hsigner & keys' & Hpush & Hc & Ht)]]].
  - split; [reflexivity | split; [reflexivity |]]. congruence.
  - split; [reflexivity | split; [reflexivity |]].
    intros _. split; [reflexivity | right; reflexivity].
  - split; [reflexivity | split].
    + intros k Hk _. simpl. apply lookup_insert_ne. congruence.
    + intros _. split; [reflexivity | right; reflexivity].
  - rewrite Hc. split; [reflexivity | split].
    + intros k Hk Hi. simpl. rewrite !lookup_insert_ne by congruence. reflexivity.
    + intros _. rewrite Ht. split; [reflexivity | left; reflexivity].
Qed.

End UploadFrame.

Section UploadFailures.

Context {rt : Runtime}.

(** The two ways an upload fails once the wallet is connected.  With no
    signer nothing is written.  With an index that decodes to something other
    than an array, [keys.push] throws after the document has been written: the
    document stays in the contract, the index is as it was and does not name
    it, and the status line reports the failure. *)
Theorem uploadGWASData_failures (newRecordData : NewRecordData) (env : Readings)
    (a : App) :
  isConnected a = true ->
  let documentKey := ("gwas_record_" ++ fresh_id env)%string in
  let document := toUtf8Bytes (JSON_stringify (new_record a newRecordData env)) in
  let a' := (uploadGWASData newRecordData env a).1 in
  (withSigner a = false ->
   contract a' = contract a /\
   transactionStatus a'
     = {| tx_visible := true; tx_status := tx_error;
          tx_message :=
            Literal "Submission failed: Failed to get contract with signer" |}) /\
  (withSigner a = true ->
   forall keys,
     parse_bytes (contract_getData (contract a) "gwas_record_keys") = inr keys ->
     (forall l, keys <> VArr l) ->
     contract a' = contract_setData (contract a) documentKey document /\
     contract_getData (contract a') documentKey = document /\
     contract_getData (contract a') "gwas_record_keys"
       = contract_getData (contract a) "gwas_record_keys" /\
     transactionStatus a'
       = {| tx_visible := true; tx_status := tx_error;
            tx_message := Engine "Submission failed: " TypeError |}).
Proof.
  intros Hconn documentKey document a'. split.
  - intros Hsigner.
    destruct (uploadGWASData_no_signer newRecordData env a Hconn Hsigner)
      as (_ & Hc & Hstatus).
    split; assumption.
  - intros Hsigner keys Hparse Hkeys.
    set (c1 := contract_setData (contract a) documentKey document).
    assert (documentKey <> "gwas_record_keys") as Hne by apply fresh_key_not_index.
    assert ((upload_keys c1).1 = keys) as Hupload.
    { unfold upload_keys, c1. rewrite getData_other by exact Hne.
      rewrite (parse_bytes_nonempty _ _ Hparse), Hparse. reflexivity. }
    assert (push (upload_keys c1).1 (VStr (fresh_id env)) = inl TypeError) as Hpush.
    { rewrite Hupload. destruct keys; try reflexivity.
      destruct (Hkeys elements eq_refl). }
    destruct (uploadGWASData_no_array newRecordData env a _ Hconn Hsigner Hpush)
      as (_ & _ & Hc & Hstatus).
    fold a' documentKey document c1 in Hc.
    split; [exact Hc | rewrite Hc].
    split; [apply getData_same | split; [| exact Hstatus]].
    apply getData_other. exact Hne.
Qed.

End UploadFailures.

Lemma uploadGWASData_failures_witness :
  let a := connected "0xA1" object_index in
  let a' := (@uploadGWASData Engine.engine sample_form sample_readings a).1 in
  isConnected a = true /\ withSigner a = true /\
  parse_bytes (contract_getData (contract a) "gwas_record_keys") = inr (VObj []) /\
  contract_getData (contract a') "gwas_record_gwas-1700000000000-ab12"
    = document_of "FHE-MA==" 1700000000 "0xA1" "height" "pending" 5 /\
  contract_getData (contract a') "gwas_record_keys"
    = contract_getData (contract a) "gwas_record_keys" /\
  tx_status (transactionStatus a') = tx_error.
Proof.
  intros a a'.
  assert (forall l, VObj [] <> VArr l) as Hkeys by discriminate.
  destruct (proj2 (@uploadGWASData_failures Engine.engine sample_form
                     sample_readings a eq_refl) eq_refl (VObj []) eq_refl Hkeys)
    as (_ & Hdocument & Hindex & Hstatus).
  split; [reflexivity | split; [reflexivity | split; [reflexivity |]]].
  split; [| split; [exact Hindex |]].
  - etransitivity; [| etransitivity; [exact Hdocument |]]; vm_compute; reflexivity.
  - fold a' in Hstatus. rewrite Hstatus. reflexivity.
Defined.

(** ** The index and its documents, from an empty contract on *)

Lemma getData_storage (c c' : Contract) (k : string) :
  storage c' = storage c -> contract_getData c' k = contract_getData c k.
Proof. intros H. unfold contract_getData. rewrite H. reflexivity. Qed.

Lemma jsonify_number_twice (x : float) :
  jsonify (jsonify (VNum x)) = jsonify (VNum x).
Proof.
  simpl. destruct (is_finite x) eqn:Hf; [| reflexivity].
  destruct (PrimFloat.eqb x 0) eqn:Hz; simpl; [reflexivity |].
  rewrite Hf, Hz. reflexivity.
Qed.

Lemma jsonify_number_cases (x : float) :
  jsonify (VNum x) = VNull \/ exists t, jsonify (VNum x) = VNum t.
Proof.
  simpl. destruct (is_finite x); [| left; reflexivity].
  destruct (PrimFloat.eqb x 0); right; eexists; reflexivity.
Qed.

Lemma jsonify_defined (v : value) : v <> VUndefined -> jsonify v <> VUndefined.
Proof.
  intros H. destruct v; simpl; try discriminate; try congruence.
  destruct (is_finite x); [| discriminate].
  destruct (PrimFloat.eqb x 0); discriminate.
Qed.

Lemma jsonify_props_binding (k : string) (v : value) (r : list (string * value)) :
  v <> VUndefined -> jsonify_props ((k, v) :: r) = (k, jsonify v) :: jsonify_props r.
Proof. destruct v; [congruence | reflexivity ..]. Qed.

Lemma jsonify_idempotent : forall v, jsonify (jsonify v) = jsonify v.
Proof.
  fix IH 1. intros [| | b | x | s | l | ps]; try reflexivity.
  - apply jsonify_number_twice.
  - simpl. f_equal.
    induction l as [| y l IHl]; simpl; [reflexivity |].
    rewrite IH, IHl. reflexivity.
  - rewrite !jsonify_object. f_equal.
    induction ps as [| [k y] ps IHps]; [reflexivity |].
    assert (y = VUndefined \/ y <> VUndefined) as [-> | Hy]
      by (destruct y; (left; reflexivity) || (right; discriminate)).
    { exact IHps. }
    rewrite (jsonify_props_binding k y ps Hy).
    rewrite (jsonify_props_binding k (jsonify y) _ (jsonify_defined y Hy)).
    rewrite IH, IHps. reflexivity.
Qed.

Lemma jsonify_props_idempotent (ps : list (string * value)) :
  jsonify_props (jsonify_props ps) = jsonify_props ps.
Proof.
  pose proof (jsonify_idempotent (VObj ps)) as H.
  rewrite !jsonify_object in H. congruence.
Qed.


Section IntegrityFacts.

Context {rt : Runtime}.

Lemma indexed_by_storage (c c' : Contract) (ids : list string) :
  storage c' = storage c -> indexed_by c ids -> indexed_by c' ids.
Proof.
  intros H [Hindex Hdocs]. split.
  - rewrite (getData_storage c c' _ H). exact Hindex.
  - eapply Forall_impl; [exact Hdocs |].
    intros recordId [Hne Hw]. split; [exact Hne |].
    rewrite (getData_storage c c' _ H). exact Hw.
Qed.

Lemma indexed_by_empty (c : Contract) : storage c = ∅ -> indexed_by c [].
Proof.
  intros H. split; [right; split; [reflexivity | apply getData_empty, H] |].
  constructor.
Qed.

Lemma written_new_record (a : App) (newRecordData : NewRecordData) (env : Readings) :
  written (toUtf8Bytes (JSON_stringify (new_record a newRecordData env))).
Proof.
  unfold JSON_stringify, toUtf8Bytes, new_record. rewrite jsonify_object.
  eexists _, (effectSize newRecordData).
  split; [reflexivity | split; [apply jsonify_props_idempotent | split; [| split]]].
  - apply lookup_jsonify_props. reflexivity.
  - intros v.
    change (lookup_prop "timestamp" (jsonify_props ?l))
      with (Some (jsonify (VNum (Math_floor (Date_now_timestamp env / 1000)%float)))).
    intros [= <-]. apply jsonify_number_cases.
  - exists (new_phenotype newRecordData).
    apply lookup_jsonify_props. unfold address_value.
    destruct (address a); reflexivity.
Qed.

Ltac run_processGWAS :=
  unfold processGWAS;
  repeat match goal with
         | H : isConnected _ = _ |- _ => rewrite H
         | H : readOnly _ = _ |- _ => rewrite H
         | H : withSigner _ = _ |- _ => rewrite H
         | H : ToString _ = _ |- _ => rewrite H
         end;
  try change (negb true) with false; cbv iota;
  unfold mbind, M_bind, try_catch, setTransactionStatus, setData, getData, lift,
    mret, M_ret, throw;
  cbn [contract address isConnected readOnly withSigner records transactionStatus
       console alerts].

(** [processGWAS] always returns.  It leaves the contract as it was, or
    rewrites the document of [recordId] from what it read there. *)
Lemma processGWAS_effect (recordId : value) (a : App) :
  let a' := (processGWAS recordId a).1 in
  (processGWAS recordId a).2 = inr () /\
  (contract a' = contract a \/
   exists key recordData data processedData,
     isConnected a = true /\ readOnly a = true /\ withSigner a = true /\
     ToString recordId = inr key /\
     parse_bytes (contract_getData (contract a) ("gwas_record_" ++ key))
       = inr recordData /\
     get recordData "data" = inr data /\
     call_FHEComputeGWAS data = inr processedData /\
     contract a'
       = contract_setData (contract a) ("gwas_record_" ++ key)
           (toUtf8Bytes (JSON_stringify (updated_record recordData processedData)))).
Proof.
  intros a'. subst a'.
  destruct (isConnected a) eqn:Hconn;
    [| split; [| left]; run_processGWAS; reflexivity].
  destruct (readOnly a) eqn:Hro;
    [| split; [| left]; run_processGWAS; reflexivity].
  destruct (ToString recordId) as [e | key] eqn:Hkey;
    [split; [| left]; run_processGWAS; reflexivity |].
  destruct (parse_bytes (contract_getData (contract a) ("gwas_record_" ++ key)))
    as [e | recordData] eqn:Hparse.
  { split; [| left]; run_processGWAS;
      (destruct (nonempty _); [rewrite Hparse |]; reflexivity). }
  pose proof (parse_bytes_nonempty _ _ Hparse) as Hfull.
  destruct (get recordData "data") as [e | data] eqn:Hdata;
    [split; [| left]; run_processGWAS; rewrite Hfull, Hparse, Hdata; reflexivity |].
  destruct (call_FHEComputeGWAS data) as [e | processedData] eqn:Hcompute;
    [split; [| left]; run_processGWAS; rewrite Hfull, Hparse, Hdata, Hcompute;
     reflexivity |].
  destruct (withSigner a) eqn:Hsigner;
    [| split; [| left]; run_processGWAS; rewrite Hfull, Hparse, Hdata, Hcompute;
       reflexivity].
  destruct (processGWAS_run recordId key a recordData data processedData
              Hconn Hro Hsigner Hkey Hfull Hparse Hdata Hcompute)
    as (Hret & Hc & _).
  split; [exact Hret | right].
  exists key, recordData, data, processedData. repeat split; assumption.
Qed.

Lemma fresh_id_not_keys (env : Readings) : fresh_id env <> "keys".
Proof. unfold fresh_id. simpl. discriminate. Qed.

Lemma upload_keys_indexed (c c1 : Contract) (ids : list string) :
  indexed_by c ids ->
  contract_getData c1 "gwas_record_keys" = contract_getData c "gwas_record_keys" ->
  upload_keys c1 = (VArr (map VStr ids), []).
Proof.
  intros [[Hindex | [-> Hindex]] _] H; unfold upload_keys; rewrite H, Hindex.
  - unfold index_of, JSON_stringify. rewrite jsonify_strings. reflexivity.
  - reflexivity.
Qed.

(** An upload keeps the index and its documents in order, and when it goes
    through the index has the new id at its end. *)
Lemma indexed_by_upload (newRecordData : NewRecordData) (env : Readings)
    (a : App) (ids : list string) :
  indexed_by (contract a) ids ->
  let a' := (uploadGWASData newRecordData env a).1 in
  (contract a' = contract a /\ (isConnected a = false \/ withSigner a = false)) \/
  (isConnected a = true /\ withSigner a = true /\
   indexed_by (contract a') (ids ++ [fresh_id env]) /\
   contract_getData (contract a') "gwas_record_keys"
     = index_of (ids ++ [fresh_id env]) /\
   tx_status (transactionStatus a') = tx_success).
Proof.
  intros Hids a'.
  set (documentKey := ("gwas_record_" ++ fresh_id env)%string).
  set (c1 := contract_setData (contract a) documentKey
               (toUtf8Bytes (JSON_stringify (new_record a newRecordData env)))).
  assert (documentKey <> "gwas_record_keys") as Hne by apply fresh_key_not_index.
  assert (upload_keys c1 = (VArr (map VStr ids), [])) as Hkeys.
  { apply (upload_keys_indexed (contract a)); [exact Hids |].
    apply getData_other, Hne. }
  destruct (uploadGWASData_effect newRecordData env a) as [_ Hcases].
  fold documentKey c1 a' in Hcases. rewrite Hkeys in Hcases. simpl in Hcases.
  destruct Hcases
    as [(Hconn & Hc & _)
       | [(_ & Hsigner & Hc & _)
         | [(_ & _ & Hpush & _) | (Hconn & Hsigner & keys' & Hpush & Hc & Ht)]]].
  - left. split; [exact Hc | left; exact Hconn].
  - left. split; [exact Hc | right; exact Hsigner].
  - discriminate Hpush.
  - right. injection Hpush as <-. rewrite index_of_snoc in Hc.
    split; [exact Hconn | split; [exact Hsigner |]].
    assert (contract_getData (contract a') "gwas_record_keys"
            = index_of (ids ++ [fresh_id env])) as Hindex
      by (rewrite Hc; apply getData_same).
    split; [| split; [exact Hindex | rewrite Ht; reflexivity]].
    split; [left; exact Hindex |].
    apply Forall_app. destruct Hids as [_ Hdocs]. split.
    + eapply Forall_impl; [exact Hdocs |].
      intros recordId [Hk Hw]. split; [exact Hk |].
      rewrite Hc, getData_other
        by (intros E; symmetry in E; apply document_key_injective in E;
            exact (Hk E)).
      unfold c1.
      destruct (String.eqb recordId (fresh_id env)) eqn:E.
      * apply String.eqb_eq in E. subst recordId. fold documentKey.
        rewrite getData_same. apply written_new_record.
      * apply String.eqb_neq in E. rewrite getData_other; [exact Hw |].
        intros E'. apply document_key_injective in E'. congruence.
    + constructor; [| constructor]. split; [apply fresh_id_not_keys |].
      fold documentKey. rewrite Hc, getData_other by congruence.
      unfold c1. rewrite getData_same. apply written_new_record.
Qed.

Lemma written_updated_record (ps : list (string * value)) (x : float) :
  jsonify_props ps = ps ->
  (forall v, lookup_prop "timestamp" ps = Some v -> v = VNull \/ exists t, v = VNum t) ->
  (exists p, lookup_prop "phenotype" ps = Some (VStr p)) ->
  written (toUtf8Bytes
             (JSON_stringify (updated_record (VObj ps) (FHEEncryptNumber x)))).
Proof.
  intros Hjson Htime Hphen.
  set (ps' := set_prop "data" (VStr (FHEEncryptNumber x))
                (set_prop "status" (VStr "processed") ps)).
  assert (jsonify_props ps' = ps') as Hjson'.
  { unfold ps'. rewrite jsonify_set_prop; [reflexivity |].
    apply jsonify_set_prop. exact Hjson. }
  exists ps', x. split; [| split; [exact Hjson' | split; [| split]]].
  - unfold JSON_stringify, toUtf8Bytes, updated_record. simpl spread. fold ps'.
    rewrite jsonify_object, Hjson'. reflexivity.
  - apply lookup_set_prop_same.
  - intros v. unfold ps'. rewrite !lookup_set_prop_other by discriminate.
    apply Htime.
  - unfold ps'. rewrite !lookup_set_prop_other by discriminate. exact Hphen.
Qed.

(** [processGWAS] keeps the index and its documents in order. *)
Lemma indexed_by_process (recordId : value) (a : App) (ids : list string) :
  indexed_by (contract a) ids ->
  indexed_by (contract (processGWAS recordId a).1) ids.
Proof.
  intros Hids.
  destruct (processGWAS_effect recordId a)
    as [_ [-> | (key & recordData & data & processedData & _ & _ & _ & _ & Hparse
                 & Hdata & Hcompute & ->)]];
    [exact Hids |].
  set (documentKey := ("gwas_record_" ++ key)%string) in *.
  assert (documentKey <> "gwas_record_keys") as Hne.
  { intros E. rewrite E in Hparse.
    destruct Hids as [[Hindex | [_ Hindex]] _]; rewrite Hindex in Hparse.
    - injection Hparse as <-. discriminate Hcompute || (simpl in Hdata;
        injection Hdata as <-; discriminate Hcompute).
    - discriminate Hparse. }
  destruct Hids as [Hindex Hdocs]. split.
  - rewrite getData_other by exact Hne. exact Hindex.
  - eapply Forall_impl; [exact Hdocs |].
    intros id' [Hk Hw]. split; [exact Hk |].
    destruct (String.eqb id' key) eqn:E.
    + apply String.eqb_eq in E. subst id'. fold documentKey in Hw |- *.
      rewrite getData_same.
      destruct Hw as (ps & x & Hb & Hjson & Hd & Htime & Hphen).
      rewrite Hb in Hparse. injection Hparse as <-.
      simpl in Hdata. rewrite Hd in Hdata. injection Hdata as <-.
      simpl in Hcompute. rewrite FHEComputeGWAS_FHEEncryptNumber in Hcompute.
      injection Hcompute as <-.
      apply written_updated_record; assumption.
    + apply String.eqb_neq in E. rewrite getData_other; [exact Hw |].
      intros E'. apply document_key_injective in E'. congruence.
Qed.

(** From an empty contract on, the index holds ids that have a document each. *)
Lemma indexed_by_reachable (a : App) :
  reachable a -> exists ids, indexed_by (contract a) ids.
Proof.
  induction 1 as [a Hs _ | a a' _ [ids IH] Hstep].
  - exists []. apply indexed_by_empty, Hs.
  - destruct Hstep as [a | newRecordData env a | recordId a | a a' Hs _].
    + exists ids. destruct (quiet_loadRecords a) as (_ & _ & -> & _). exact IH.
    + destruct (indexed_by_upload newRecordData env a ids IH)
        as [[-> _] | (_ & _ & H & _)]; eexists; eassumption.
    + exists ids. apply indexed_by_process, IH.
    + exists ids. apply (indexed_by_storage (contract a)); assumption.
Qed.


Lemma stored_keys_indexed (c : Contract) (ids : list string) :
  indexed_by c ids -> stored_keys c = (VArr (map VStr ids), []).
Proof.
  intros [[Hindex | [-> Hindex]] _].
  - apply stored_keys_index_of, Hindex.
  - unfold stored_keys. rewrite Hindex. reflexivity.
Qed.





End IntegrityFacts.



(** ** Ids that collide *)

Section Collisions.

Context {rt : Runtime}.

(** The id of a record is made of two readings of the clock and of
    [Math.random], and nothing checks that it is new.  From a state reached
    from an empty contract, two uploads with the same readings both go
    through: the index names the id twice and the document of the first upload
    is replaced by the document of the second. *)
Theorem upload_same_id_twice (first second : NewRecordData) (env : Readings)
    (a : App) :
  reachable a -> isConnected a = true -> withSigner a = true ->
  let recordId := fresh_id env in
  let a1 := (uploadGWASData first env a).1 in
  let a2 := (uploadGWASData second env a1).1 in
  exists ids,
    stored_keys (contract a) = (VArr (map VStr ids), []) /\
    contract_getData (contract a2) "gwas_record_keys"
      = index_of (ids ++ [recordId; recordId]) /\
    contract_getData (contract a2) ("gwas_record_" ++ recordId)
      = toUtf8Bytes (JSON_stringify (new_record a second env)) /\
    tx_status (transactionStatus a2) = tx_success.
Proof.
  intros Hreach Hconn Hsigner recordId a1 a2.
  destruct (indexed_by_reachable a Hreach) as [ids Hids].
  exists ids. split; [apply stored_keys_indexed, Hids |].
  destruct (indexed_by_upload first env a ids Hids)
    as [[_ [H | H]] | (_ & _ & Hids1 & _)]; try congruence.
  fold a1 recordId in Hids1.
  (* the wallet is as before *)
  assert (push (upload_keys
                  (contract_setData (contract a) ("gwas_record_" ++ recordId)
                     (toUtf8Bytes (JSON_stringify (new_record a first env))))).1
               (VStr recordId)
          = inr (VArr (map VStr ids ++ [VStr recordId]))) as Hpush.
  { rewrite (upload_keys_indexed (contract a) _ ids Hids); [reflexivity |].
    apply getData_other, fresh_key_not_index. }
  destruct (uploadGWASData_success first env a _ Hconn Hsigner Hpush)
    as (s & Hs & _ & _ & Haddr & _ & _ & Hconn1 & Hsigner1).
  fold a1 in Hs.
  destruct (quiet_loadRecords s) as (Haddr' & Hconn1' & _ & _ & Hsigner1' & _).
  rewrite <- Hs in Haddr', Hconn1', Hsigner1'.
  rewrite Hconn1 in Hconn1'. rewrite Hsigner1 in Hsigner1'. rewrite Haddr in Haddr'.
  (* the second upload *)
  destruct (indexed_by_upload second env a1 _ Hids1)
    as [[_ [H | H]] | (_ & _ & _ & Hindex & Hstatus)]; try congruence.
  fold a2 recordId in Hindex, Hstatus.
  rewrite <- app_assoc in Hindex.
  split; [exact Hindex | split; [| exact Hstatus]].
  assert (push (upload_keys
                  (contract_setData (contract a1) ("gwas_record_" ++ recordId)
                     (toUtf8Bytes (JSON_stringify (new_record a1 second env))))).1
               (VStr recordId)
          = inr (VArr (map VStr (ids ++ [recordId]) ++ [VStr recordId]))) as Hpush2.
  { rewrite (upload_keys_indexed (contract a1) _ _ Hids1); [reflexivity |].
    apply getData_other, fresh_key_not_index. }
  destruct (uploadGWASData_run second env a1 _ Hconn1' Hsigner1' Hpush2)
    as (_ & Hc & _).
  fold a2 recordId in Hc. rewrite Hc.
  rewrite getData_other
    by (intros E; symmetry in E; exact (fresh_key_not_index env E)).
  rewrite getData_same.
  unfold new_record, address_value. rewrite Haddr'. reflexivity.
Qed.

End Collisions.

Lemma upload_same_id_twice_witness :
  let a := connected "0xA1" (contract_of true []) in
  let a1 := (@uploadGWASData Engine.engine sample_form sample_readings a).1 in
  let a2 := (@uploadGWASData Engine.engine sample_form sample_readings a1).1 in
  @reachable Engine.engine a /\ isConnected a = true /\ withSigner a = true /\
  exists ids,
    @stored_keys (contract a) = (VArr (map VStr ids), []) /\
    contract_getData (contract a2) "gwas_record_keys"
      = index_of (ids ++ [@fresh_id Engine.engine sample_readings;
                          @fresh_id Engine.engine sample_readings]).
Proof.
  intros a a1 a2.
  assert (@reachable Engine.engine a) as Hreach
    by (apply reachable_initial; reflexivity).
  destruct (@upload_same_id_twice Engine.engine sample_form sample_form
              sample_readings a Hreach eq_refl eq_refl)
    as (ids & Hkeys & Hindex & _).
  split; [exact Hreach | split; [reflexivity | split; [reflexivity |]]].
  exists ids. exact (conj Hkeys Hindex).
Defined.

(** ** Requests that are rejected *)

Section RequestFacts.

Context {rt : Runtime}.

(** When every request is served and nobody else writes, the operations are
    the ones above. *)
Lemma uploadGWASData_served (newRecordData : NewRecordData) (env : Readings)
    (a : App) :
  uploadGWASData_among
    {| store_document := alone answered; read_index := alone answered;
       store_index := alone answered |} newRecordData env a
  = uploadGWASData newRecordData env a.
Proof. destruct a. reflexivity. Qed.

Lemma processGWAS_served (recordId : value) (a : App) :
  processGWAS_among
    {| read_document := alone answered; store_update := alone answered |}
    recordId a
  = processGWAS recordId a.
Proof.
  destruct a as [who connected c ro signer rs status log said].
  unfold processGWAS_among, processGWAS.
  destruct connected; [| reflexivity].
  destruct ro; [| reflexivity].
  change (negb true) with false. cbv iota.
  unfold mbind, M_bind, try_catch, lift, setTransactionStatus, mret, M_ret.
  cbn [contract address isConnected readOnly withSigner records transactionStatus
       console alerts].
  destruct (ToString recordId) as [e | key]; reflexivity.
Qed.

Lemma uploadGWASData_idle (w : UploadCalls) (newRecordData : NewRecordData)
    (env : Readings) (a : App) :
  isConnected a = false \/ withSigner a = false ->
  contract (uploadGWASData_among w newRecordData env a).1 = contract a.
Proof.
  intros H. unfold uploadGWASData_among.
  destruct (isConnected a); [| reflexivity].
  destruct H as [H | H]; [discriminate H |]. rewrite H. reflexivity.
Qed.

Lemma uploadGWASData_rejected_document (e : exn) (w2 w3 : Call)
    (newRecordData : NewRecordData) (env : Readings) (a : App) :
  isConnected a = true -> withSigner a = true ->
  let a' := (uploadGWASData_among
               {| store_document := alone (rejected e); read_index := w2;
                  store_index := w3 |} newRecordData env a).1 in
  contract a' = contract a /\ transactionStatus a' = submission_failed e.
Proof.
  intros Hconn Hsigner a'. subst a'. unfold uploadGWASData_among.
  rewrite Hconn, Hsigner. split; reflexivity.
Qed.

Lemma uploadGWASData_rejected_read (e : exn) (w3 : Call)
    (newRecordData : NewRecordData) (env : Readings) (a : App) :
  isConnected a = true -> withSigner a = true ->
  let a' := (uploadGWASData_among
               {| store_document := alone answered; read_index := alone (rejected e);
                  store_index := w3 |} newRecordData env a).1 in
  contract a'
    = contract_setData (contract a) ("gwas_record_" ++ fresh_id env)
        (toUtf8Bytes (JSON_stringify (new_record a newRecordData env))) /\
  transactionStatus a' = submission_failed e.
Proof.
  intros Hconn Hsigner a'. subst a'. unfold uploadGWASData_among.
  rewrite Hconn, Hsigner. split; reflexivity.
Qed.

(** The run of an upload whose requests are all served, whatever the other
    clients write in between. *)
Lemma uploadGWASData_among_run (m1 m2 m3 : Contract -> Contract) (r3 : reply)
    (newRecordData : NewRecordData) (env : Readings) (a : App) (keys' : value) :
  isConnected a = true -> withSigner a = true ->
  let c1 :=
    m2 (contract_setData (m1 (contract a)) ("gwas_record_" ++ fresh_id env)
          (toUtf8Bytes (JSON_stringify (new_record a newRecordData env)))) in
  push (upload_keys c1).1 (VStr (fresh_id env)) = inr keys' ->
  let a' := (uploadGWASData_among
               {| store_document := {| meanwhile := m1; outcome := answered |};
                  read_index := {| meanwhile := m2; outcome := answered |};
                  store_index := {| meanwhile := m3; outcome := r3 |} |}
               newRecordData env a).1 in
  match r3 with
  | answered =>
      contract a'
        = contract_setData (m3 c1) "gwas_record_keys"
            (toUtf8Bytes (JSON_stringify keys')) /\
      tx_status (transactionStatus a') = tx_success
  | rejected e => contract a' = m3 c1 /\ transactionStatus a' = submission_failed e
  end.
Proof.
  intros Hconn Hsigner c1 Hpush a'. subst a'.
  unfold uploadGWASData_among. rewrite Hconn, Hsigner.
  change (negb true) with false. cbv iota.
  unfold upload_keys in Hpush.
  unfold await, with_contract, mbind, M_bind, try_catch, setTransactionStatus,
    setData, getData, lift, mret, M_ret, console_error.
  cbn [contract address isConnected readOnly withSigner records transactionStatus
       console alerts meanwhile outcome store_document read_index store_index].
  fold c1.
  destruct (nonempty (contract_getData c1 "gwas_record_keys")).
  - destruct (parse_bytes (contract_getData c1 "gwas_record_keys")) as [e | keys];
      cbn [fst] in Hpush; rewrite Hpush; destruct r3;
      try (match goal with |- context [loadRecords ?s] =>
             destruct (loadRecords_frame s) as [-> (_ & _ & -> & _ & _ & -> & _)]
           end);
      split; reflexivity.
  - cbn [fst] in Hpush. rewrite Hpush. destruct r3;
      try (match goal with |- context [loadRecords ?s] =>
             destruct (loadRecords_frame s) as [-> (_ & _ & -> & _ & _ & -> & _)]
           end);
      split; reflexivity.
Qed.

(** Storing the document of an upload keeps the index and its documents in
    order. *)
Lemma indexed_by_document (c : Contract) (ids : list string) (a : App)
    (newRecordData : NewRecordData) (env : Readings) :
  indexed_by c ids ->
  indexed_by
    (contract_setData c ("gwas_record_" ++ fresh_id env)
       (toUtf8Bytes (JSON_stringify (new_record a newRecordData env)))) ids.
Proof.
  intros [Hindex Hdocs]. split.
  - rewrite getData_other by apply fresh_key_not_index. exact Hindex.
  - eapply Forall_impl; [exact Hdocs |].
    intros recordId [Hk Hw]. split; [exact Hk |].
    destruct (String.eqb recordId (fresh_id env)) eqn:E.
    + apply String.eqb_eq in E. subst recordId.
      rewrite getData_same. apply written_new_record.
    + apply String.eqb_neq in E. rewrite getData_other; [exact Hw |].
      intros E'. apply document_key_injective in E'. congruence.
Qed.

(** A request of [processGWAS] is rejected: nothing is stored. *)
Lemma processGWAS_rejected (r1 r2 : reply) (e : exn) (recordId : value) (a : App) :
  r1 = rejected e \/ r2 = rejected e ->
  contract (processGWAS_among
              {| read_document := alone r1; store_update := alone r2 |}
              recordId a).1 = contract a.
Proof.
  intros H. unfold processGWAS_among.
  destruct (isConnected a); [| reflexivity].
  change (negb true) with false. cbv iota.
  unfold await, with_contract, alone, mbind, M_bind, try_catch,
    setTransactionStatus, setData, getData, lift, mret, M_ret, throw.
  cbn [contract address isConnected readOnly withSigner records transactionStatus
       console alerts meanwhile outcome read_document store_update].
  destruct (readOnly a); [| reflexivity].
  destruct (ToString recordId) as [e' | key]; [reflexivity |].
  destruct r1 as [| e1]; [| reflexivity].
  destruct H as [H | ->]; [discriminate H |].
  destruct (nonempty _); [| reflexivity].
  destruct (parse_bytes _) as [e' | recordData]; [reflexivity |].
  destruct (get recordData "data") as [e' | data]; [reflexivity |].
  destruct (call_FHEComputeGWAS data) as [e' | processedData]; [reflexivity |].
  destruct (withSigner a); reflexivity.
Qed.

(** The index and its documents stay in order through every move. *)
Lemma indexed_by_move (a a' : App) (ids : list string) :
  indexed_by (contract a) ids -> move a a' ->
  exists ids', indexed_by (contract a') ids'.
Proof.
  intros Hids Hmove.
  destruct Hmove as [r1 r2 r3 newRecordData env a | r1 r2 recordId a | a a' Hs].
  - destruct (isConnected a) eqn:Hconn;
      [| exists ids; rewrite uploadGWASData_idle by (left; exact Hconn); exact Hids].
    destruct (withSigner a) eqn:Hsigner;
      [| exists ids; rewrite uploadGWASData_idle by (right; exact Hsigner);
         exact Hids].
    destruct r1 as [| e].
    2:{ exists ids.
        destruct (uploadGWASData_rejected_document e (alone r2) (alone r3)
                    newRecordData env a Hconn Hsigner) as [-> _].
        exact Hids. }
    destruct r2 as [| e].
    2:{ exists ids.
        destruct (uploadGWASData_rejected_read e (alone r3) newRecordData env a
                    Hconn Hsigner) as [-> _].
        apply indexed_by_document, Hids. }
    destruct r3 as [| e].
    + rewrite uploadGWASData_served.
      destruct (indexed_by_upload newRecordData env a ids Hids)
        as [[-> _] | (_ & _ & H & _)]; eexists; eassumption.
    + exists ids.
      pose proof (uploadGWASData_among_run (fun c => c) (fun c => c) (fun c => c)
                    (rejected e) newRecordData env a
                    (VArr (map VStr ids ++ [VStr (fresh_id env)])) Hconn Hsigner)
        as H.
      cbv zeta in H.
      rewrite (upload_keys_indexed (contract a) _ ids Hids) in H
        by (apply getData_other, fresh_key_not_index).
      destruct (H eq_refl) as [Hc _]. unfold alone. rewrite Hc.
      apply indexed_by_document, Hids.
  - destruct r1 as [| e].
    2:{ exists ids. rewrite (processGWAS_rejected _ _ e) by (left; reflexivity).
        exact Hids. }
    destruct r2 as [| e].
    2:{ exists ids. rewrite (processGWAS_rejected _ _ e) by (right; reflexivity).
        exact Hids. }
    exists ids. rewrite processGWAS_served. apply indexed_by_process, Hids.
  - exists ids. apply (indexed_by_storage (contract a)); assumption.
Qed.

Lemma indexed_by_attainable (a : App) :
  attainable a -> exists ids, indexed_by (contract a) ids.
Proof.
  induction 1 as [a Hs | a a' _ [ids IH] Hmove].
  - exists []. apply indexed_by_empty, Hs.
  - apply (indexed_by_move a a' ids IH Hmove).
Qed.

(** The states of [reachable] are among them. *)
Lemma step_move (a a' : App) : step a a' -> move a a'.
Proof.
  intros [a0 | newRecordData env a0 | recordId a0 | a0 a1 Hs _].
  - apply move_outside. destruct (quiet_loadRecords a0) as (_ & _ & -> & _).
    reflexivity.
  - rewrite <- uploadGWASData_served. apply move_uploadGWASData.
  - rewrite <- processGWAS_served. apply move_processGWAS.
  - apply move_outside, Hs.
Qed.

Lemma reachable_attainable (a : App) : reachable a -> attainable a.
Proof.
  induction 1 as [a Hs _ | a a' _ IH Hstep].
  - apply attainable_initial, Hs.
  - apply (attainable_move a a' IH). apply step_move, Hstep.
Qed.

End RequestFacts.

Section Rejections.

Context {rt : Runtime}.

Lemma processGWAS_rejected_read (e : exn) (r2 : reply) (recordId : value)
    (key : string) (a : App) :
  isConnected a = true -> readOnly a = true -> ToString recordId = inr key ->
  transactionStatus
    (processGWAS_among
       {| read_document := alone (rejected e); store_update := alone r2 |}
       recordId a).1 = processing_failed e.
Proof.
  intros Hconn Hro Hkey. unfold processGWAS_among. rewrite Hconn, Hro.
  change (negb true) with false. cbv iota.
  unfold mbind, M_bind, try_catch, lift, setTransactionStatus, mret, M_ret.
  rewrite Hkey. reflexivity.
Qed.

Lemma processGWAS_rejected_store (e : exn) (recordId : value) (key : string)
    (a : App) (recordData data : value) (processedData : string) :
  isConnected a = true -> readOnly a = true -> withSigner a = true ->
  ToString recordId = inr key ->
  parse_bytes (contract_getData (contract a) ("gwas_record_" ++ key))
    = inr recordData ->
  get recordData "data" = inr data ->
  call_FHEComputeGWAS data = inr processedData ->
  transactionStatus
    (processGWAS_among
       {| read_document := alone answered; store_update := alone (rejected e) |}
       recordId a).1 = processing_failed e.
Proof.
  intros Hconn Hro Hsigner Hkey Hparse Hdata Hcompute.
  pose proof (parse_bytes_nonempty _ _ Hparse) as Hfull.
  unfold processGWAS_among. rewrite Hconn, Hro, Hsigner.
  change (negb true) with false. cbv iota.
  unfold await, with_contract, alone, mbind, M_bind, try_catch,
    setTransactionStatus, setData, getData, lift, mret, M_ret, throw.
  cbn [contract address isConnected readOnly withSigner records transactionStatus
       console alerts meanwhile outcome read_document store_update].
  rewrite Hkey. cbv iota beta.
  rewrite Hfull, Hparse, Hdata, Hcompute. reflexivity.
Qed.

(** In every state reached from an empty contract, whatever requests were
    rejected on the way, an upload with the wallet connected and a signer
    fails only when one of its three requests is rejected, and the status line
    then shows that rejection.  When the document is refused nothing is
    stored; when the reading or the storing of the index is refused the
    document is stored and no index names it; when the three requests are
    served the status line reports a success and the index holds the ids it
    held, followed by the new one. *)
Theorem uploadGWASData_rejections (r1 r2 r3 : reply)
    (newRecordData : NewRecordData) (env : Readings) (a : App) :
  attainable a -> isConnected a = true -> withSigner a = true ->
  let a' := (uploadGWASData_among
               {| store_document := alone r1; read_index := alone r2;
                  store_index := alone r3 |} newRecordData env a).1 in
  let c1 :=
    contract_setData (contract a) ("gwas_record_" ++ fresh_id env)
      (toUtf8Bytes (JSON_stringify (new_record a newRecordData env))) in
  exists ids,
    stored_keys (contract a) = (VArr (map VStr ids), []) /\
    match r1, r2, r3 with
    | rejected e, _, _ =>
        contract a' = contract a /\ transactionStatus a' = submission_failed e
    | answered, rejected e, _ | answered, answered, rejected e =>
        contract a' = c1 /\ transactionStatus a' = submission_failed e
    | answered, answered, answered =>
        contract a'
          = contract_setData c1 "gwas_record_keys"
              (index_of (ids ++ [fresh_id env])) /\
        tx_status (transactionStatus a') = tx_success
    end.
Proof.
  intros Hreach Hconn Hsigner a' c1.
  destruct (indexed_by_attainable a Hreach) as [ids Hids].
  exists ids. split; [apply stored_keys_indexed, Hids |].
  destruct r1 as [| e];
    [| apply (uploadGWASData_rejected_document e (alone r2) (alone r3)
                newRecordData env a Hconn Hsigner)].
  destruct r2 as [| e];
    [| apply (uploadGWASData_rejected_read e (alone r3) newRecordData env a
                Hconn Hsigner)].
  pose proof (uploadGWASData_among_run (fun c => c) (fun c => c) (fun c => c) r3
                newRecordData env a
                (VArr (map VStr ids ++ [VStr (fresh_id env)])) Hconn Hsigner) as H.
  cbv zeta in H.
  rewrite (upload_keys_indexed (contract a) _ ids Hids) in H
    by (apply getData_other, fresh_key_not_index).
  specialize (H eq_refl). rewrite index_of_snoc in H.
  destruct r3 as [| e]; exact H.
Qed.

(** In every state reached from an empty contract, whatever requests were
    rejected on the way, with the wallet connected and both contracts at
    hand: [processGWAS] on an id of the index fails only when one of its
    two requests is rejected; the status line then shows that rejection and
    nothing is stored.  When both are served the status line reports a
    success and the document stored has the status ["processed"]. *)
Theorem processGWAS_rejections (r1 r2 : reply) (a : App) :
  attainable a ->
  isConnected a = true -> readOnly a = true -> withSigner a = true ->
  exists ids,
    stored_keys (contract a) = (VArr (map VStr ids), []) /\
    forall recordId,
      In recordId ids ->
      let a' := (processGWAS_among
                   {| read_document := alone r1; store_update := alone r2 |}
                   (VStr recordId) a).1 in
      match r1, r2 with
      | rejected e, _ | answered, rejected e =>
          contract a' = contract a /\ transactionStatus a' = processing_failed e
      | answered, answered =>
          tx_status (transactionStatus a') = tx_success /\
          (recordData ← parse_bytes
                          (contract_getData (contract a')
                             ("gwas_record_" ++ recordId));
           get recordData "status") = inr (VStr "processed")
      end.
Proof.
  intros Hreach Hconn Hro Hsigner.
  destruct (indexed_by_attainable a Hreach) as [ids Hids].
  exists ids. split; [apply stored_keys_indexed, Hids |].
  intros recordId Hin a'. subst a'. destruct Hids as [_ Hdocs].
  rewrite Forall_forall in Hdocs. apply list_elem_of_In in Hin.
  destruct (Hdocs recordId Hin) as [_ (ps & x & Hb & _ & Hdata & _)].
  assert (get (VObj ps) "data" = inr (VStr (FHEEncryptNumber x))) as Hget
    by (simpl; rewrite Hdata; reflexivity).
  assert (parse_bytes (contract_getData (contract a) ("gwas_record_" ++ recordId))
          = inr (VObj ps)) as Hparse by (rewrite Hb; reflexivity).
  destruct r1 as [| e].
  2:{ split; [apply (processGWAS_rejected _ _ e); left; reflexivity |].
      apply (processGWAS_rejected_read e r2 (VStr recordId) recordId a Hconn Hro).
      reflexivity. }
  destruct r2 as [| e].
  2:{ split; [apply (processGWAS_rejected _ _ e); right; reflexivity |].
      apply (processGWAS_rejected_store e (VStr recordId) recordId a (VObj ps) _ _
               Hconn Hro Hsigner eq_refl Hparse Hget
               (FHEComputeGWAS_FHEEncryptNumber x)). }
  rewrite processGWAS_served.
  destruct (processGWAS_run (VStr recordId) recordId a (VObj ps) _ _
              Hconn Hro Hsigner eq_refl (parse_bytes_nonempty _ _ Hparse) Hparse
              Hget (FHEComputeGWAS_FHEEncryptNumber x))
    as (_ & Hc & Hstatus & _).
  split; [exact Hstatus |].
  rewrite Hc, getData_same. simpl.
  rewrite (lookup_jsonify_props "status" "processed");
    [reflexivity |].
  rewrite lookup_set_prop_other by discriminate. apply lookup_set_prop_same.
Qed.

(** Two uploads that overlap.  The client [a] has stored its document and
    read the index, which holds the ids [ids]; while its request to store
    the index waits, the client [b] runs a whole upload on the same contract.
    Both status lines report a success, and both documents are stored; the
    index [b] wrote held the id of [b], the index [a] then writes holds the
    ids [ids] and the id of [a] alone: the record of [b] is in no index. *)
Theorem uploads_overlap (formA formB : NewRecordData) (envA envB : Readings)
    (a b : App) (ids : list string) :
  isConnected a = true -> withSigner a = true ->
  isConnected b = true -> withSigner b = true ->
  contract_getData (contract a) "gwas_record_keys" = index_of ids ->
  fresh_id envA <> fresh_id envB ->
  let c1 :=
    contract_setData (contract a) ("gwas_record_" ++ fresh_id envA)
      (toUtf8Bytes (JSON_stringify (new_record a formA envA))) in
  let b' := (uploadGWASData formB envB (with_contract c1 b)).1 in
  let a' :=
    (uploadGWASData_among
       {| store_document := alone answered; read_index := alone answered;
          store_index :=
            {| meanwhile :=
                 fun c => contract (uploadGWASData formB envB (with_contract c b)).1;
               outcome := answered |} |}
       formA envA a).1 in
  tx_status (transactionStatus b') = tx_success /\
  contract_getData (contract b') "gwas_record_keys"
    = index_of (ids ++ [fresh_id envB]) /\
  tx_status (transactionStatus a') = tx_success /\
  contract_getData (contract a') "gwas_record_keys"
    = index_of (ids ++ [fresh_id envA]) /\
  contract_getData (contract a') ("gwas_record_" ++ fresh_id envA)
    = toUtf8Bytes (JSON_stringify (new_record a formA envA)) /\
  contract_getData (contract a') ("gwas_record_" ++ fresh_id envB)
    = toUtf8Bytes (JSON_stringify (new_record b formB envB)).
Proof.
  intros HconnA HsignerA HconnB HsignerB Hindex Hids c1 b' a'.
  assert (forall c env,
            contract_getData c "gwas_record_keys" = index_of ids ->
            forall doc,
              upload_keys (contract_setData c ("gwas_record_" ++ fresh_id env) doc)
              = (VArr (map VStr ids), [])) as Hkeys.
  { intros c env Hc doc. unfold upload_keys.
    rewrite getData_other by apply fresh_key_not_index. rewrite Hc.
    unfold index_of, JSON_stringify. rewrite jsonify_strings. reflexivity. }
  (* the upload of b *)
  assert (contract_getData c1 "gwas_record_keys" = index_of ids) as Hindex1.
  { unfold c1. rewrite getData_other by apply fresh_key_not_index. exact Hindex. }
  pose proof (uploadGWASData_run formB envB (with_contract c1 b)
                (VArr (map VStr ids ++ [VStr (fresh_id envB)])) HconnB HsignerB)
    as HB.
  cbv zeta in HB. rewrite (Hkeys _ envB Hindex1) in HB.
  destruct (HB eq_refl) as (_ & HcB & HstatusB & _). clear HB.
  fold b' in HcB, HstatusB. rewrite index_of_snoc in HcB.
  (* the upload of a *)
  pose proof (uploadGWASData_among_run (fun c => c) (fun c => c)
                (fun c => contract (uploadGWASData formB envB (with_contract c b)).1)
                answered formA envA a
                (VArr (map VStr ids ++ [VStr (fresh_id envA)])) HconnA HsignerA)
    as HA.
  cbv beta zeta in HA. rewrite (Hkeys _ envA Hindex) in HA.
  destruct (HA eq_refl) as [HcA HstatusA]. clear HA.
  fold c1 b' in HcA. unfold alone in a'. fold a' in HcA, HstatusA.
  rewrite index_of_snoc in HcA.
  assert (forall env, "gwas_record_keys" <> ("gwas_record_" ++ fresh_id env)%string)
    as Hne by (intros env E; symmetry in E; exact (fresh_key_not_index env E)).
  split; [exact HstatusB |].
  split; [rewrite HcB; apply getData_same |].
  split; [exact HstatusA |].
  split; [rewrite HcA; apply getData_same |].
  rewrite HcA, HcB. split.
  - rewrite !getData_other by apply Hne.
    rewrite getData_other
      by (intros E; apply document_key_injective in E; congruence).
    apply getData_same.
  - rewrite 2!getData_other by apply Hne. apply getData_same.
Qed.

End Rejections.

Lemma uploadGWASData_rejections_witness :
  let refused := rejected (Error "user rejected transaction") in
  let a' := (@uploadGWASData_among Engine.engine
               {| store_document := alone refused; read_index := alone answered;
                  store_index := alone answered |}
               sample_form other_readings uploaded).1 in
  @attainable Engine.engine uploaded /\
  isConnected uploaded = true /\ withSigner uploaded = true /\
  contract a' = contract uploaded /\
  transactionStatus a'
    = {| tx_visible := true; tx_status := tx_error;
         tx_message := Literal "Transaction rejected by user" |}.
Proof.
  intros refused a'.
  assert (@attainable Engine.engine uploaded) as Hreach
    by (apply reachable_attainable, uploaded_reachable).
  assert (isConnected uploaded = true) as Hconn by (vm_compute; reflexivity).
  assert (withSigner uploaded = true) as Hsigner by (vm_compute; reflexivity).
  destruct (@uploadGWASData_rejections Engine.engine refused answered answered
              sample_form other_readings uploaded Hreach Hconn Hsigner)
    as (ids & _ & Hc & Hstatus).
  exact (conj Hreach (conj Hconn (conj Hsigner (conj Hc Hstatus)))).
Defined.

Lemma processGWAS_rejections_witness :
  let refused := rejected (Error "user rejected transaction") in
  @attainable Engine.engine uploaded /\
  isConnected uploaded = true /\ readOnly uploaded = true /\
  withSigner uploaded = true /\
  exists ids,
    @stored_keys (contract uploaded) = (VArr (map VStr ids), []) /\
    forall recordId,
      In recordId ids ->
      let a' := (@processGWAS_among Engine.engine
                   {| read_document := alone answered;
                      store_update := alone refused |}
                   (VStr recordId) uploaded).1 in
      contract a' = contract uploaded /\
      transactionStatus a'
        = {| tx_visible := true; tx_status := tx_error;
             tx_message := Literal "Processing failed: user rejected transaction" |}.
Proof.
  intros refused.
  assert (@attainable Engine.engine uploaded) as Hreach
    by (apply reachable_attainable, uploaded_reachable).
  assert (isConnected uploaded = true) as Hconn by (vm_compute; reflexivity).
  assert (readOnly uploaded = true) as Hro by (vm_compute; reflexivity).
  assert (withSigner uploaded = true) as Hsigner by (vm_compute; reflexivity).
  exact (conj Hreach (conj Hconn (conj Hro (conj Hsigner
           (@processGWAS_rejections Engine.engine answered refused uploaded
              Hreach Hconn Hro Hsigner))))).
Defined.

Lemma uploads_overlap_witness :
  let c := contract_of true [ ("gwas_record_keys", index_of ["a"]) ] in
  let a := connected "0xA1" c in
  let b := connected "0xB2" c in
  let idA := @fresh_id Engine.engine sample_readings in
  let idB := @fresh_id Engine.engine other_readings in
  let a' :=
    (@uploadGWASData_among Engine.engine
       {| store_document := alone answered; read_index := alone answered;
          store_index :=
            {| meanwhile :=
                 fun c => contract (@uploadGWASData Engine.engine sample_form
                                      other_readings (with_contract c b)).1;
               outcome := answered |} |}
       sample_form sample_readings a).1 in
  contract_getData (contract a) "gwas_record_keys" = index_of ["a"] /\
  idA <> idB /\
  tx_status (transactionStatus a') = tx_success /\
  contract_getData (contract a') "gwas_record_keys" = index_of ["a"; idA] /\
  contract_getData (contract a') ("gwas_record_" ++ idB)
    = toUtf8Bytes (JSON_stringify (@new_record Engine.engine b sample_form
                                     other_readings)).
Proof.
  intros c a b idA idB a'.
  assert (idA <> idB) as Hids by (vm_compute; discriminate).
  destruct (@uploads_overlap Engine.engine sample_form sample_form
              sample_readings other_readings a b ["a"]
              eq_refl eq_refl eq_refl eq_refl eq_refl Hids)
    as (_ & _ & Hstatus & Hindex & _ & HdocB).
  exact (conj eq_refl (conj Hids (conj Hstatus (conj Hindex HdocB)))).
Defined.

(** ** No write without a wallet *)

Section Wallet.

Context {rt : Runtime}.

(** With no wallet connected, [uploadGWASData] and [processGWAS] raise the
    alert and do nothing else.  And whenever one of them leaves the contract
    other than it was, the wallet was connected and
    [getContractWithSigner] gave a contract (and, for [processGWAS],
    [getContractReadOnly] too). *)
Theorem writes_need_wallet (newRecordData : NewRecordData) (env : Readings)
    (recordId : value) (a : App) :
  (isConnected a = false ->
   uploadGWASData newRecordData env a
     = ((alert "Please connect wallet first" a).1, inr ()) /\
   processGWAS recordId a = ((alert "Please connect wallet first" a).1, inr ())) /\
  (contract (uploadGWASData newRecordData env a).1 <> contract a ->
   isConnected a = true /\ withSigner a = true) /\
  (contract (processGWAS recordId a).1 <> contract a ->
   isConnected a = true /\ readOnly a = true /\ withSigner a = true).
Proof.
  split; [| split].
  - intros H. unfold uploadGWASData, processGWAS. rewrite H. split; reflexivity.
  - intros Hchanged.
    destruct (uploadGWASData_effect newRecordData env a)
      as [_ [(_ & Hc & _)
            | [(_ & _ & Hc & _)
              | [(Hconn & Hsigner & _) | (Hconn & Hsigner & _)]]]];
      try (destruct (Hchanged Hc)); split; assumption.
  - intros Hchanged.
    destruct (processGWAS_effect recordId a)
      as [_ [Hc | (key & recordData & data & processedData & Hconn & Hro
                   & Hsigner & _)]];
      [destruct (Hchanged Hc) | repeat split; assumption].
Qed.

End Wallet.

(** ** A listing that stops *)

Section Stops.

Context {rt : Runtime}.

Lemma load_all_app (keys rest : list value) (acc : list GWASRecord) (a : App) :
  load_all acc (keys ++ rest) a
  = (acc' ← load_all acc keys; load_all acc' rest) a.
Proof.
  revert acc a. induction keys as [| key keys IH]; intros acc a; simpl.
  - reflexivity.
  - unfold mbind, M_bind in *.
    destruct (load_record acc key a) as [a1 [e | acc1]]; [reflexivity |].
    apply IH.
Qed.

(** A key with no conversion to a string: the handler throws as well. *)
Lemma load_record_throws (acc : list GWASRecord) (key : value) (e : exn) (a : App) :
  ToString key = inl e -> load_record acc key a = (a, inl e).
Proof.
  intros H. unfold load_record, try_catch, mbind, M_bind, lift. rewrite H.
  reflexivity.
Qed.

(** When the index is nothing to iterate over ([null], a number, an object),
    or one of its entries has no conversion to a string, [loadRecords] stops:
    it logs [Error loading records:] and sets no list, so that the records
    loaded before stay on display, the records of the other entries are not
    loaded, and the contract is as before. *)
Theorem loadRecords_stops (a : App) (e : exn) :
  readOnly a = true -> available (contract a) = true ->
  iterate (stored_keys (contract a)).1 = inl e \/
  (exists good bad rest,
     (stored_keys (contract a)).1 = VArr (map VStr good ++ bad :: rest) /\
     ToString bad = inl e) ->
  (loadRecords a).2 = inr () /\
  records (loadRecords a).1 = records a /\
  contract (loadRecords a).1 = contract a /\
  exists before,
    console (loadRecords a).1
      = console a ++ before ++ [("Error loading records:", e)].
Proof.
  intros Hro Hav Hcases.
  split; [apply loadRecords_returns |].
  split; [| split; [apply quiet_loadRecords |]].
  - rewrite loadRecords_records, Hro, Hav. simpl.
    unfold mbind, M_bind.
    destruct (load_keys_spec a) as (a1 & -> & L1).
    destruct Hcases as [Hiter | (good & bad & rest & Hkeys & Hbad)].
    + unfold lift at 1. rewrite Hiter. reflexivity.
    + rewrite Hkeys. unfold lift at 1. simpl iterate. cbv iota beta.
      rewrite load_all_app. unfold mbind, M_bind.
      destruct (load_all_spec (map VStr good) [] a1) as (a2 & -> & _).
      { apply Forall_forall. intros key Hin. apply list_elem_of_fmap in Hin.
        destruct Hin as (s & -> & _). exists s. reflexivity. }
      simpl. unfold mbind, M_bind.
      rewrite (load_record_throws _ bad e a2 Hbad). reflexivity.
  - unfold loadRecords, try_catch. rewrite Hro, Hav.
    change (negb true) with false. cbv iota beta.
    unfold mbind, M_bind.
    destruct (load_keys_spec a) as (a1 & -> & L1).
    pose proof (logged_contract _ _ _ L1) as Hc1. destruct L1 as (_ & _ & C1).
    destruct Hcases as [Hiter | (good & bad & rest & Hkeys & Hbad)].
    + unfold lift at 1. rewrite Hiter. simpl.
      exists (stored_keys (contract a)).2. rewrite C1, app_assoc. reflexivity.
    + rewrite Hkeys. unfold lift at 1. simpl iterate. cbv iota beta.
      rewrite load_all_app. unfold mbind, M_bind.
      destruct (load_all_spec (map VStr good) [] a1) as (a2 & -> & (_ & _ & C2)).
      { apply Forall_forall. intros key Hin. apply list_elem_of_fmap in Hin.
        destruct Hin as (s & -> & _). exists s. reflexivity. }
      simpl. unfold mbind, M_bind.
      rewrite (load_record_throws _ bad e a2 Hbad). simpl.
      exists ((stored_keys (contract a)).2
              ++ flat_map (complaint (contract a)) (map VStr good)).
      rewrite C2, C1, Hc1, <- !app_assoc. reflexivity.
Qed.

End Stops.

Lemma loadRecords_stops_witness :
  let a := connected "0xA1" object_index in
  readOnly a = true /\ available (contract a) = true /\
  @iterate (@stored_keys (contract a)).1 = inl TypeError /\
  records (@loadRecords Engine.engine a).1 = records a /\
  console (@loadRecords Engine.engine a).1 = [("Error loading records:", TypeError)].
Proof.
  intros a.
  assert (@iterate (@stored_keys (contract a)).1 = inl TypeError) as Hiter
    by reflexivity.
  destruct (@loadRecords_stops Engine.engine a TypeError eq_refl eq_refl
              (or_introl Hiter)) as (_ & Hrecords & _).
  split; [reflexivity | split; [reflexivity | split; [exact Hiter |]]].
  split; [exact Hrecords | vm_compute; reflexivity].
Defined.

(** ** What the dialog lets through *)

Lemma number_or_zero_not_nan (x : float) : is_nan (number_or_zero x) = false.
Proof.
  unfold number_or_zero. simpl.
  destruct (PrimFloat.eqb x 0); [reflexivity |]. simpl.
  destruct (is_nan x) eqn:E; [reflexivity | exact E].
Qed.

Section FormFacts.

Context {rt : Runtime}.

(** The SNP count and the effect size that the handlers keep are never [NaN].
    A form that the submit button lets through has a phenotype that is not
    empty and an SNP count that is a number other than zero; the record
    uploaded from it reads back with that phenotype, and with that SNP count
    when it is finite (an infinite one reads back as 0). *)
Theorem submitted_form (parseInt : string -> float) (newRecordData : NewRecordData)
    (env : Readings) (a : App) (key : value) :
  (forall value,
     is_nan (new_snpCount (change_snpCount parseInt newRecordData value)) = false /\
     is_nan (effectSize (change_effectSize newRecordData value)) = false) /\
  (submit_disabled false newRecordData = false ->
   new_phenotype newRecordData <> "" /\
   is_nan (new_snpCount newRecordData) = false /\
   PrimFloat.eqb (new_snpCount newRecordData) 0 = false /\
   exists r,
     (recordData ← parse_bytes
         (toUtf8Bytes (JSON_stringify (new_record a newRecordData env)));
      record_of key recordData) = inr r /\
     phenotype r = VStr (new_phenotype newRecordData) /\
     snpCount r
       = if is_finite (new_snpCount newRecordData)
         then VNum (new_snpCount newRecordData)
         else VNum 0).
Proof.
  split.
  - intros value. split; apply number_or_zero_not_nan.
  - unfold submit_disabled. simpl. intros H.
    apply orb_false_iff in H. destruct H as [Hp Hn].
    apply negb_false_iff, negb_true_iff in Hp.
    apply negb_false_iff, negb_true_iff, orb_false_iff in Hn.
    destruct Hn as [Hzero Hnan].
    split; [apply String.eqb_neq, Hp | split; [exact Hnan | split; [exact Hzero |]]].
    destruct (new_record_decodes a newRecordData env key)
      as (r & Hr & _ & _ & _ & _ & Hphen & _ & Hsnp).
    exists r. split; [exact Hr | split; [exact Hphen |]].
    rewrite Hsnp, snpCount_read_back, Hzero, andb_true_r. reflexivity.
Qed.

End FormFacts.

Lemma submitted_form_witness :
  submit_disabled false sample_form = false /\
  new_phenotype sample_form <> "" /\
  exists r,
    (recordData ← parse_bytes
        (toUtf8Bytes
           (JSON_stringify
              (@new_record Engine.engine (connected "0xA1" three_records)
                 sample_form sample_readings)));
     record_of (VStr "a") recordData) = inr r /\
    snpCount r = VNum 5.
Proof.
  destruct (proj2 (@submitted_form Engine.engine (fun _ => 5%float) sample_form
                     sample_readings (connected "0xA1" three_records) (VStr "a"))
                  eq_refl)
    as (Hphen & _ & _ & r & Hr & _ & Hsnp).
  split; [reflexivity | split; [exact Hphen |]].
  exists r. split; [exact Hr | exact Hsnp].
Defined.
